(** * Job application tracker: the REST handlers of [backend/server.js]

    A shallow embedding of the Express handlers over a model of the two
    PostgreSQL tables they query.  Every SQL statement of the source is a
    function on the tables; every handler is a function from the store and
    the request to the new store and the JSON response.  An exception of the
    database driver is the [None] of a query, which the handler's
    [try ... catch] turns into the 500 response. *)

From Stdlib Require Import ZArith List String Ascii Bool Lia QArith Qround Sorted.
Import ListNotations.

Local Open Scope string_scope.
Local Open Scope Z_scope.

(** ** JavaScript numbers

    The handlers compute on numbers in three places:
    [(page - 1) * limit], [parseInt(...)] and [Math.ceil(total / limit)].
    A double is modelled by [NaN], the two infinities, or the rational it
    denotes.  Every integer that is read from a text or comes out of [-] and
    [*] is rounded to the nearest double, as IEEE 754 has it: exact up to
    2^53, 53 significant bits beyond, an infinity from 2^1024 on.  The sign
    of zero is not modelled. *)
Module Js.

Inductive number :=
| NaN
| Infinity (negative : bool)
| Fin (q : Q).

Definition of_Z (n : Z) : number := Fin (inject_Z n).

Definition is_zero (q : Q) : bool := (Qnum q =? 0)%Z.
Definition is_neg (q : Q) : bool := (Qnum q <? 0)%Z.

(** The integer a number denotes, when it is one. *)
Definition to_integer (a : number) : option Z :=
  match a with
  | Fin q =>
      if (Qnum q mod Zpos (Qden q) =? 0)%Z
      then Some (Qnum q / Zpos (Qden q))%Z
      else None
  | _ => None
  end.

(** The double nearest to an integer, ties to the even significand.  Beyond
    2^53 the integer is cut to its 53 leading bits [q], times [2 ^ e]; the
    bits cut off, [r], decide whether [q] is rounded up. *)
Definition nearest (n : Z) : number :=
  let a := Z.abs n in
  if a <=? 2 ^ 53 then of_Z n
  else
    let e := Z.log2 a - 52 in
    let q := a / 2 ^ e in
    let r := a mod 2 ^ e in
    let up := (2 ^ (e - 1) <? r) || ((r =? 2 ^ (e - 1)) && Z.odd q) in
    let v := (if up then q + 1 else q) * 2 ^ e in
    if 2 ^ 1024 <=? v then Infinity (n <? 0) else of_Z (Z.sgn n * v).

(** The result of [-] or [*], which the handlers apply to integers: an
    integer is rounded to the nearest double.  (A result that is no integer
    is left as it is; none arises.) *)
Definition rounded (q : Q) : number :=
  match to_integer (Fin q) with
  | Some n => nearest n
  | None => Fin q
  end.

(** [a - b] *)
Definition sub (a b : number) : number :=
  match a, b with
  | NaN, _ | _, NaN => NaN
  | Infinity s, Infinity s' => if Bool.eqb s s' then NaN else Infinity s
  | Infinity s, Fin _ => Infinity s
  | Fin _, Infinity s => Infinity (negb s)
  | Fin x, Fin y => rounded (x - y)
  end.

(** [a * b] *)
Definition mul (a b : number) : number :=
  match a, b with
  | NaN, _ | _, NaN => NaN
  | Infinity s, Infinity s' => Infinity (xorb s s')
  | Infinity s, Fin q | Fin q, Infinity s =>
      if is_zero q then NaN else Infinity (xorb s (is_neg q))
  | Fin x, Fin y => rounded (x * y)
  end.

(** [a / b].  The quotient is kept exact: it goes to [Math.ceil] alone, and
    the ceiling of the exact quotient of a count below 2^53 by an integer is
    the ceiling of the double. *)
Definition div (a b : number) : number :=
  match a, b with
  | NaN, _ | _, NaN => NaN
  | Infinity _, Infinity _ => NaN
  | Infinity s, Fin q => Infinity (xorb s (is_neg q))
  | Fin _, Infinity _ => Fin 0
  | Fin x, Fin y =>
      if is_zero y
      then (if is_zero x then NaN else Infinity (is_neg x))
      else Fin (x / y)
  end.

(** [Math.ceil(a)] *)
Definition Math_ceil (a : number) : number :=
  match a with
  | Fin q => of_Z (Qceiling q)
  | _ => a
  end.

(** Safe integers: [Number.MAX_SAFE_INTEGER] is 2^53 - 1. *)
Definition MAX_SAFE_INTEGER : Z := 2 ^ 53 - 1.

(** A numeric request parameter arrives as text ([req.query], [req.params]).
    The text is kept by what it reads as: a decimal integer [n] (optional
    sign and surrounding blanks allowed), which the store's integer input
    reads as it is and [Number] and [parseInt] round to the nearest double;
    or a text whose numeric
    value is [NaN], which the store's integer input rejects, with the
    integer [parseInt] reads at its start, if any (none in ["abc"], 12 in
    ["12abc"]).  The texts whose readings differ otherwise (the empty text,
    ["1.5"], ["1e3"], ["0x10"]) are outside this type. *)
Inductive numtext :=
| TInt (n : Z)
| TNaN (prefix : option Z).

(** A value that is either a number (a destructuring default) or such a
    text. *)
Inductive numval :=
| VNum (x : number)
| VText (t : numtext).

(** [const { p = d } = req.query]: the default applies when the parameter is
    absent. *)
Definition default (p : option numtext) (d : Z) : numval :=
  match p with
  | None => VNum (of_Z d)
  | Some t => VText t
  end.

(** [ToNumber]: the coercion applied by [-], [*] and [/]. *)
Definition ToNumber (v : numval) : number :=
  match v with
  | VNum x => x
  | VText (TInt n) => nearest n
  | VText (TNaN _) => NaN
  end.

(** [isNaN(t)] on a text. *)
Definition isNaN (t : numtext) : bool :=
  match t with
  | TNaN _ => true
  | TInt _ => false
  end.

(** [parseInt(v)]: a number is first printed, then read back (the only
    numbers that reach it are the integer defaults). *)
Definition parseInt (v : numval) : number :=
  match v with
  | VNum x => match to_integer x with Some n => of_Z n | None => NaN end
  | VText (TInt n) => nearest n
  | VText (TNaN (Some n)) => nearest n
  | VText (TNaN None) => NaN
  end.

(** *** Strings

    A string of the model is the UTF-8 encoding of the text, one [ascii] per
    byte.  [s.length] counts UTF-16 code units: one for each character of
    one, two or three bytes, two (a surrogate pair) for each character of
    four bytes.  So a lead byte counts for the character and a continuation
    byte (10xxxxxx) for nothing. *)
Definition units (c : ascii) : nat :=
  let n := nat_of_ascii c in
  if (n <? 128)%nat then 1%nat
  else if (n <? 192)%nat then 0%nat
  else if (n <? 240)%nat then 1%nat
  else 2%nat.

(** [s.length] *)
Fixpoint length (s : string) : nat :=
  match s with
  | EmptyString => 0%nat
  | String c s' => (units c + length s')%nat
  end.

End Js.

(** ** The store's input functions *)
Module Pg.

Definition int4_min : Z := - 2 ^ 31.
Definition int4_max : Z := 2 ^ 31 - 1.
Definition int8_min : Z := - 2 ^ 63.
Definition int8_max : Z := 2 ^ 63 - 1.

Definition in_range (lo hi n : Z) : option Z :=
  if (lo <=? n) && (n <=? hi) then Some n else None.

(** A query parameter bound to an [integer] column. *)
Definition int4in (t : Js.numtext) : option Z :=
  match t with
  | Js.TInt n => in_range int4_min int4_max n
  | Js.TNaN _ => None
  end.

(** A query parameter bound to [LIMIT] or [OFFSET] (a [bigint]).  The driver
    sends a number as [val.toString()] and a text as it is.  A number that
    is no integer, is not finite or lies outside [bigint] is refused.  (From
    2^53 on, the digits [toString] prints may differ from the number in the
    last places; such an offset is past the end of every table either
    way.) *)
Definition int8in (v : Js.numval) : option Z :=
  match v with
  | Js.VNum x =>
      match Js.to_integer x with
      | Some n => in_range int8_min int8_max n
      | None => None
      end
  | Js.VText (Js.TInt n) => in_range int8_min int8_max n
  | Js.VText (Js.TNaN _) => None
  end.

(** Assignment to a [VARCHAR(n)] column: a longer value is an error unless
    the excess is all spaces, which are cut off. *)
Fixpoint all_spaces (s : string) : bool :=
  match s with
  | EmptyString => true
  | String c s' => Ascii.eqb c " " && all_spaces s'
  end.

Definition varchar (n : nat) (s : string) : option string :=
  if (String.length s <=? n)%nat then Some s
  else if all_spaces (substring n (String.length s - n) s)
       then Some (substring 0 n s)
       else None.

(** A [VARCHAR(n)] column that may hold NULL. *)
Definition varchar_null (n : nat) (v : option string) : option (option string) :=
  match v with
  | None => Some None
  | Some s => option_map Some (varchar n s)
  end.

(** *** LIKE and ILIKE

    [%] matches any sequence of characters, [_] any single character, and
    the backslash makes the character after it literal.  A pattern that ends
    in a lone backslash is an error in the store; here it matches nothing
    (the handlers never build one: their pattern ends in [%]). *)
Fixpoint like_any (k : string -> bool) (t : string) : bool :=
  k t || match t with
         | EmptyString => false
         | String _ t' => like_any k t'
         end.

Fixpoint like (p t : string) {struct p} : bool :=
  match p with
  | EmptyString => match t with EmptyString => true | _ => false end
  | String c p' =>
      if Ascii.eqb c "%" then like_any (like p') t
      else if Ascii.eqb c "_" then
        match t with
        | String _ t' => like p' t'
        | EmptyString => false
        end
      else if Ascii.eqb c "\" then
        match p' with
        | String e p'' =>
            match t with
            | String d t' => Ascii.eqb e d && like p'' t'
            | EmptyString => false
            end
        | EmptyString => false
        end
      else
        match t with
        | String d t' => Ascii.eqb c d && like p' t'
        | EmptyString => false
        end
  end.

Definition lower_ascii (c : ascii) : ascii :=
  let n := nat_of_ascii c in
  if (65 <=? n)%nat && (n <=? 90)%nat then ascii_of_nat (n + 32) else c.

Fixpoint lower (s : string) : string :=
  match s with
  | EmptyString => EmptyString
  | String c s' => String (lower_ascii c) (lower s')
  end.

(** [t ILIKE p] *)
Definition ilike (t p : string) : bool := like (lower p) (lower t).

End Pg.

(** ** Request values *)

(** A text field of a JSON body: absent, [null], or a string.  (Numbers,
    booleans, arrays and objects in a body are outside the model, except
    for the password of the auth handlers: see [secret].) *)
Inductive field :=
| Omitted
| Null
| Text (s : string).

(** JavaScript truthiness: [undefined], [null] and [""] are falsy. *)
Definition truthy (f : field) : bool :=
  match f with
  | Text s => negb (s =? "")%string
  | _ => false
  end.

(** The driver binds [undefined] and [null] as NULL. *)
Definition param (f : field) : option string :=
  match f with
  | Text s => Some s
  | _ => None
  end.

(** [const { f = d } = req.body]: the default replaces [undefined] only. *)
Definition default (f : field) (d : string) : field :=
  match f with
  | Omitted => Text d
  | _ => f
  end.

(** A date field of a JSON body.  A non-empty text is kept by what the
    store's date input makes of it: the day it denotes, or a rejection. *)
Inductive datetext :=
| Day (d : Z)
| NotADate.

Inductive datefield :=
| DOmitted
| DNull
| DBlank
| DText (t : datetext).

(** [date || null] *)
Definition or_null (f : datefield) : option datetext :=
  match f with
  | DText t => Some t
  | _ => None
  end.

Definition date_in (v : option datetext) : option (option Z) :=
  match v with
  | None => Some None
  | Some (Day d) => Some (Some d)
  | Some NotADate => None
  end.

(** The body of POST and PUT [/api/jobs]. *)
Record JobFields := {
  f_company_name : field;
  f_job_title : field;
  f_job_url : field;
  f_location : field;
  f_salary_range : field;
  f_application_date : datefield;
  f_status : field;
  f_description : field;
  f_requirements : field;
  f_notes : field;
  f_contact_person : field;
  f_contact_email : field;
  f_follow_up_date : datefield
}.

(** ** The tables *)

Record User := {
  u_id : Z;
  u_username : string;
  u_email : string;
  u_password_hash : string;
  u_created_at : Z;
  u_updated_at : Z
}.

Record Job := {
  id : Z;
  user_id : option Z;
  company_name : string;
  job_title : string;
  job_url : option string;
  location : option string;
  salary_range : option string;
  application_date : option Z;
  status : option string;
  description : option string;
  requirements : option string;
  notes : option string;
  contact_person : option string;
  contact_email : option string;
  follow_up_date : option Z;
  created_at : Z;
  updated_at : Z
}.

(** The two tables, in insertion order, and their SERIAL sequences (the next
    identifier each will hand out). *)
Record Store := {
  users : list User;
  job_applications : list Job;
  users_id_seq : Z;
  job_applications_id_seq : Z
}.

Definition set_jobs (st : Store) (l : list Job) : Store :=
  {| users := users st;
     job_applications := l;
     users_id_seq := users_id_seq st;
     job_applications_id_seq := job_applications_id_seq st |}.

Definition opt_eqb {A} (eqb : A -> A -> bool) (a b : option A) : bool :=
  match a, b with
  | Some x, Some y => eqb x y
  | _, _ => false
  end.

(** [user_id = $n]: NULL is equal to nothing. *)
Definition owned_by (uid : Z) (r : Job) : bool := opt_eqb Z.eqb (user_id r) (Some uid).

(** [id = $1 AND user_id = $2] *)
Definition id_and_owner (i uid : Z) (r : Job) : bool := (id r =? i) && owned_by uid r.

(** The columns a POST or PUT supplies, after the store's input functions
    have accepted them. *)
Record Columns := {
  c_company_name : string;
  c_job_title : string;
  c_job_url : option string;
  c_location : option string;
  c_salary_range : option string;
  c_application_date : option Z;
  c_status : option string;
  c_description : option string;
  c_requirements : option string;
  c_notes : option string;
  c_contact_person : option string;
  c_contact_email : option string;
  c_follow_up_date : option Z
}.

(** The error monad of the store: [None] is a raised error. *)
Definition bind {A B} (m : option A) (k : A -> option B) : option B :=
  match m with
  | Some a => k a
  | None => None
  end.

Notation "x <- m ;; k" := (bind m (fun x => k))
  (at level 61, m at next level, right associativity).

(** NOT NULL *)
Definition not_null {A} (v : option A) : option A := v.

(** The thirteen value parameters of INSERT and UPDATE, coerced to their
    columns: NOT NULL, VARCHAR lengths and DATE input as in
    [CREATE TABLE job_applications]. *)
Definition coerce (company_name job_title job_url location salary_range : option string)
    (app_date : option datetext)
    (status description requirements notes contact_person contact_email : option string)
    (followup_date : option datetext) : option Columns :=
  cn0 <- not_null company_name ;;
  cn <- Pg.varchar 255 cn0 ;;
  jt0 <- not_null job_title ;;
  jt <- Pg.varchar 255 jt0 ;;
  loc <- Pg.varchar_null 255 location ;;
  sal <- Pg.varchar_null 100 salary_range ;;
  ad <- date_in app_date ;;
  stt <- Pg.varchar_null 50 status ;;
  cp <- Pg.varchar_null 255 contact_person ;;
  ce <- Pg.varchar_null 255 contact_email ;;
  fd <- date_in followup_date ;;
  Some {| c_company_name := cn; c_job_title := jt; c_job_url := job_url;
          c_location := loc; c_salary_range := sal; c_application_date := ad;
          c_status := stt; c_description := description;
          c_requirements := requirements; c_notes := notes;
          c_contact_person := cp; c_contact_email := ce;
          c_follow_up_date := fd |}.

(** ** The SQL statements on [job_applications] *)

(** The conditions the list handler pushes on [whereConditions]. *)
Inductive condition :=
| StatusEq (s : string)             (* status = $n *)
| CompanyILike (pattern : string).  (* company_name ILIKE $n *)

Definition holds (r : Job) (c : condition) : bool :=
  match c with
  | StatusEq s => opt_eqb String.eqb (status r) (Some s)
  | CompanyILike p => Pg.ilike (company_name r) p
  end.

(** [WHERE user_id = $1 AND c1 AND c2 ...] *)
Definition where_ (uid : Z) (conds : list condition) (r : Job) : bool :=
  owned_by uid r && forallb (holds r) conds.

(** [ORDER BY created_at DESC]: an insertion sort.  Among rows of equal
    [created_at] the store leaves the order open and may choose differently
    from one query to the next; here the later row of the table comes
    first.  A statement that depends on that choice is made for rows of
    distinct [created_at] only (see [distinct_times]). *)
Fixpoint insert_desc (r : Job) (l : list Job) : list Job :=
  match l with
  | [] => [r]
  | x :: l' => if created_at x <? created_at r then r :: l else x :: insert_desc r l'
  end.

Definition order_by_created_at_desc (l : list Job) : list Job :=
  fold_right insert_desc [] l.

(** [LIMIT $l OFFSET $o]: both are read as [bigint]; a negative one is an
    error. *)
Definition limit_offset (limit offset : Js.numval) (rows : list Job) : option (list Job) :=
  l <- Pg.int8in limit ;;
  o <- Pg.int8in offset ;;
  if (l <? 0) || (o <? 0) then None
  else Some (firstn (Z.to_nat l) (skipn (Z.to_nat o) rows)).

(** [SELECT * FROM job_applications WHERE user_id = $1 AND ...
     ORDER BY created_at DESC LIMIT $l OFFSET $o] *)
Definition select_page (st : Store) (uid : Z) (conds : list condition)
    (limit offset : Js.numval) : option (list Job) :=
  limit_offset limit offset
    (order_by_created_at_desc (filter (where_ uid conds) (job_applications st))).

(** [SELECT COUNT( * ) FROM job_applications WHERE user_id = $1 AND ...] *)
Definition select_count (st : Store) (uid : Z) (conds : list condition) : Z :=
  Z.of_nat (List.length (filter (where_ uid conds) (job_applications st))).

(** [SELECT * FROM job_applications WHERE id = $1 AND user_id = $2] *)
Definition select_by_id (st : Store) (i : Js.numtext) (uid : Z) : option (list Job) :=
  n <- Pg.int4in i ;;
  Some (filter (id_and_owner n uid) (job_applications st)).

Definition new_row (i uid now : Z) (c : Columns) : Job :=
  {| id := i; user_id := Some uid;
     company_name := c_company_name c; job_title := c_job_title c;
     job_url := c_job_url c; location := c_location c;
     salary_range := c_salary_range c;
     application_date := c_application_date c; status := c_status c;
     description := c_description c; requirements := c_requirements c;
     notes := c_notes c; contact_person := c_contact_person c;
     contact_email := c_contact_email c;
     follow_up_date := c_follow_up_date c;
     created_at := now; updated_at := now |}.

(** [INSERT INTO job_applications (user_id, ...) VALUES ($1, ..., $14)
     RETURNING *]: the identifier comes from the sequence, both timestamps
    default to CURRENT_TIMESTAMP.  The primary key and the reference to
    [users] are checked.  One row is inserted and RETURNING yields that
    row, the [result.rows[0]] of the handler. *)
Definition insert_job (st : Store) (now uid : Z) (c : option Columns)
  : option (Store * Job) :=
  c <- c ;;
  i <- Pg.in_range Pg.int4_min Pg.int4_max (job_applications_id_seq st) ;;
  if existsb (fun r => id r =? i) (job_applications st) then None
  else if negb (existsb (fun u => u_id u =? uid) (users st)) then None
  else
    let r := new_row i uid now c in
    Some ({| users := users st;
             job_applications := job_applications st ++ [r];
             users_id_seq := users_id_seq st;
             job_applications_id_seq := i + 1 |}, r).

(** [SET company_name = $1, ..., follow_up_date = $13,
     updated_at = CURRENT_TIMESTAMP] *)
Definition set_row (now : Z) (c : Columns) (r : Job) : Job :=
  {| id := id r; user_id := user_id r;
     company_name := c_company_name c; job_title := c_job_title c;
     job_url := c_job_url c; location := c_location c;
     salary_range := c_salary_range c;
     application_date := c_application_date c; status := c_status c;
     description := c_description c; requirements := c_requirements c;
     notes := c_notes c; contact_person := c_contact_person c;
     contact_email := c_contact_email c;
     follow_up_date := c_follow_up_date c;
     created_at := created_at r; updated_at := now |}.

(** [UPDATE job_applications SET ... WHERE id = $14 AND user_id = $15
     RETURNING *] *)
Definition update_job (st : Store) (now : Z) (c : option Columns)
    (i : Js.numtext) (uid : Z) : option (Store * list Job) :=
  c <- c ;;
  n <- Pg.int4in i ;;
  let hit := id_and_owner n uid in
  Some (set_jobs st (map (fun r => if hit r then set_row now c r else r)
                         (job_applications st)),
        map (set_row now c) (filter hit (job_applications st))).

(** [DELETE FROM job_applications WHERE id = $1 AND user_id = $2
     RETURNING *] *)
Definition delete_job (st : Store) (i : Js.numtext) (uid : Z)
  : option (Store * list Job) :=
  n <- Pg.int4in i ;;
  let hit := id_and_owner n uid in
  Some (set_jobs st (filter (fun r => negb (hit r)) (job_applications st)),
        filter hit (job_applications st)).

(** [COUNT(CASE WHEN status = s THEN 1 END)] over the rows of [uid]. *)
Definition count_status (st : Store) (uid : Z) (s : string) : Z :=
  Z.of_nat (List.length (filter (fun r => owned_by uid r && opt_eqb String.eqb (status r) (Some s))
                           (job_applications st))).

(** The row of the statistics query (the driver hands each count over as a
    decimal string, which is how the response carries it). *)
Record Stats := {
  s_total : Z;
  s_applied : Z;
  s_interview : Z;
  s_offer : Z;
  s_rejected : Z;
  s_withdrawn : Z
}.

(** The statistics query: one row, always. *)
Definition select_stats (st : Store) (uid : Z) : Stats :=
  {| s_total := Z.of_nat (List.length (filter (owned_by uid) (job_applications st)));
     s_applied := count_status st uid "applied";
     s_interview := count_status st uid "interview";
     s_offer := count_status st uid "offer";
     s_rejected := count_status st uid "rejected";
     s_withdrawn := count_status st uid "withdrawn" |}.

(** ** Responses *)

(** The pagination object.  ([res.json] prints [NaN] and the infinities as
    [null].) *)
Record Pagination := {
  page : Js.number;
  limit : Js.number;
  total : Js.number;
  totalPages : Js.number
}.

(** The session token: the signed claims [{userId, username}] with the
    times of issue and expiry. *)
Record Token := {
  tok_userId : Z;
  tok_username : string;
  tok_iat : Z;
  tok_exp : Z
}.

Record PublicUser := {
  pu_id : Z;
  pu_username : string;
  pu_email : string;
  pu_created_at : option Z
}.

Inductive Body :=
| BError (error : string)
| BJobs (jobs : list Job) (pagination : Pagination)
| BJob (job : Job)
| BDeleted (message : string) (deleted : Job)
| BStats (s : Stats)
| BAuth (message : string) (token : Token) (user : PublicUser)
| BUser (user : PublicUser).

Record Response := {
  res_status : Z;
  res_json : Body
}.

Definition json (code : Z) (b : Body) : Response :=
  {| res_status := code; res_json := b |}.

Definition internal_error : Response := json 500 (BError "Internal server error").
Definition invalid_job_id : Response := json 400 (BError "Invalid job ID").
Definition job_not_found : Response := json 404 (BError "Job application not found").
Definition company_and_title_required : Response :=
  json 400 (BError "Company name and job title are required").

(** ** The job handlers

    Each takes the store, the user the token was verified for
    ([req.user.userId]) and the request; a handler that writes also takes
    the store's clock and returns the new store. *)

(** The query string of GET [/api/jobs]. *)
Record ListQuery := {
  q_status : field;
  q_company : field;
  q_page : option Js.numtext;
  q_limit : option Js.numtext
}.

(** The text of a field known to be truthy. *)
Definition text_of (f : field) : string :=
  match f with
  | Text s => s
  | _ => ""
  end.

(** [whereConditions] of GET [/api/jobs]. *)
Definition whereConditions (q : ListQuery) : list condition :=
  (if truthy (q_status q) then [StatusEq (text_of (q_status q))] else [])
  ++ (if truthy (q_company q)
      then [CompanyILike ("%" ++ text_of (q_company q) ++ "%")]
      else []).

(** [const offset = (page - 1) * limit] *)
Definition offset_of (page limit : Js.numval) : Js.number :=
  Js.mul (Js.sub (Js.ToNumber page) (Js.of_Z 1)) (Js.ToNumber limit).

(** GET [/api/jobs] *)
Definition get_api_jobs (st : Store) (uid : Z) (q : ListQuery) : Response :=
  let page := Js.default (q_page q) 1 in
  let limit := Js.default (q_limit q) 20 in
  let offset := offset_of page limit in
  match select_page st uid (whereConditions q) limit (Js.VNum offset) with
  | None => internal_error
  | Some rows =>
      let total := Js.of_Z (select_count st uid (whereConditions q)) in
      json 200 (BJobs rows
                  {| page := Js.parseInt page;
                     limit := Js.parseInt limit;
                     total := total;
                     totalPages := Js.Math_ceil (Js.div total (Js.ToNumber limit)) |})
  end.

(** GET [/api/jobs/:id] *)
Definition get_api_jobs_id (st : Store) (uid : Z) (i : Js.numtext) : Response :=
  if Js.isNaN i then invalid_job_id
  else
    match select_by_id st i uid with
    | None => internal_error
    | Some [] => job_not_found
    | Some (r :: _) => json 200 (BJob r)
    end.

(** The value parameters POST and PUT bind, from the body. *)
Definition job_params (b : JobFields) (status : field) : option Columns :=
  let app_date := or_null (f_application_date b) in
  let followup_date := or_null (f_follow_up_date b) in
  coerce (param (f_company_name b)) (param (f_job_title b)) (param (f_job_url b))
         (param (f_location b)) (param (f_salary_range b)) app_date
         (param status) (param (f_description b)) (param (f_requirements b))
         (param (f_notes b)) (param (f_contact_person b))
         (param (f_contact_email b)) followup_date.

(** [!company_name || !job_title] *)
Definition missing_required (b : JobFields) : bool :=
  negb (truthy (f_company_name b)) || negb (truthy (f_job_title b)).

(** POST [/api/jobs] *)
Definition post_api_jobs (st : Store) (now uid : Z) (b : JobFields) : Store * Response :=
  let status := default (f_status b) "applied" in
  if missing_required b then (st, company_and_title_required)
  else
    match insert_job st now uid (job_params b status) with
    | None => (st, internal_error)
    | Some (st', r) => (st', json 201 (BJob r))
    end.

(** PUT [/api/jobs/:id] *)
Definition put_api_jobs_id (st : Store) (now uid : Z) (i : Js.numtext) (b : JobFields)
  : Store * Response :=
  if Js.isNaN i then (st, invalid_job_id)
  else if missing_required b then (st, company_and_title_required)
  else
    match update_job st now (job_params b (f_status b)) i uid with
    | None => (st, internal_error)
    | Some (st', []) => (st', job_not_found)
    | Some (st', r :: _) => (st', json 200 (BJob r))
    end.

(** DELETE [/api/jobs/:id] *)
Definition delete_api_jobs_id (st : Store) (uid : Z) (i : Js.numtext) : Store * Response :=
  if Js.isNaN i then (st, invalid_job_id)
  else
    match delete_job st i uid with
    | None => (st, internal_error)
    | Some (st', []) => (st', job_not_found)
    | Some (st', r :: _) =>
        (st', json 200 (BDeleted "Job application deleted successfully" r))
    end.

(** GET [/api/stats] *)
Definition get_api_stats (st : Store) (uid : Z) : Response :=
  json 200 (BStats (select_stats st uid)).

(** ** The auth handlers

    [bcryptjs] is a parameter: [bcrypt_hash password rounds salt] and
    [bcrypt_compare password hash], on strings.  Nothing is assumed about
    them.  Given a password that is not a string, [bcrypt.hash] and
    [bcrypt.compare] reject their arguments: the promise is rejected and the
    handler's [catch] answers 500. *)
Section Auth.

Variable bcrypt_hash : string -> nat -> string -> string.
Variable bcrypt_compare : string -> string -> bool.

(** [SELECT id FROM users WHERE email = $1 OR username = $2] *)
Definition select_existing (st : Store) (e n : string) : list User :=
  filter (fun u => (u_email u =? e)%string || (u_username u =? n)%string) (users st).

(** [SELECT id, username, email, password_hash FROM users WHERE email = $1] *)
Definition select_by_email (st : Store) (e : string) : list User :=
  filter (fun u => (u_email u =? e)%string) (users st).

(** [INSERT INTO users (username, email, password_hash) VALUES ($1, $2, $3)
     RETURNING id, username, email, created_at], with the column lengths,
    the primary key and the two UNIQUE constraints of [CREATE TABLE users]. *)
Definition insert_user (st : Store) (now : Z) (n e h : string) : option (Store * User) :=
  n <- Pg.varchar 50 n ;;
  e <- Pg.varchar 255 e ;;
  h <- Pg.varchar 255 h ;;
  i <- Pg.in_range Pg.int4_min Pg.int4_max (users_id_seq st) ;;
  if existsb (fun u => (u_id u =? i) || (u_username u =? n)%string || (u_email u =? e)%string)
                  (users st) then None
  else
    let u := {| u_id := i; u_username := n; u_email := e; u_password_hash := h;
                u_created_at := now; u_updated_at := now |} in
    Some ({| users := users st ++ [u];
             job_applications := job_applications st;
             users_id_seq := i + 1;
             job_applications_id_seq := job_applications_id_seq st |}, u).

(** [jwt.sign({ userId, username }, JWT_SECRET, { expiresIn: '7d' })] when
    the server's clock reads [iat] (in seconds).  This clock is not the
    store's [CURRENT_TIMESTAMP]: the handlers take the two separately. *)
Definition jwt_sign (userId : Z) (name : string) (iat : Z) : Token :=
  {| tok_userId := userId; tok_username := name;
     tok_iat := iat; tok_exp := iat + 7 * 24 * 60 * 60 |}.

Definition fields_required : Response :=
  json 400 (BError "Username, email, and password are required").
Definition password_too_short : Response :=
  json 400 (BError "Password must be at least 6 characters long").
Definition user_exists : Response :=
  json 409 (BError "User with this email or username already exists").
Definition email_and_password_required : Response :=
  json 400 (BError "Email and password are required").
Definition invalid_credentials : Response :=
  json 401 (BError "Invalid email or password").


(** The body of POST [/api/auth/register] and [/api/auth/login] when each
    of its fields is absent, [null] or a string. *)
Record Credentials := {
  a_username : field;
  a_email : field;
  a_password : field
}.

(** The password of a body as it is posted: absent, [null] or a string, or
    else a JSON number (an integer here) or boolean.  (An array or an object
    for a password, and a username or an email that is not a string, are
    outside the model.) *)
Inductive secret :=
| Plain (f : field)
| Number (n : Z)
| Boolean (b : bool).

(** JavaScript truthiness: [0] and [false] are falsy too. *)
Definition secret_truthy (s : secret) : bool :=
  match s with
  | Plain f => truthy f
  | Number n => negb (n =? 0)
  | Boolean b => b
  end.

Record AuthBody := {
  p_username : field;
  p_email : field;
  p_password : secret
}.

Definition of_credentials (b : Credentials) : AuthBody :=
  {| p_username := a_username b; p_email := a_email b;
     p_password := Plain (a_password b) |}.

Coercion of_credentials : Credentials >-> AuthBody.

(** [password.length < 6]: a number and a boolean have no [length], and
    [undefined < 6] is false. *)
Definition shorter_than_6 (s : secret) : bool :=
  match s with
  | Plain f => (Js.length (text_of f) <? 6)%nat
  | Number _ | Boolean _ => false
  end.

(** POST [/api/auth/register].  [now] is the store's [CURRENT_TIMESTAMP],
    [iat] the server's clock when the token is signed, [salt] the salt
    [bcrypt.hash] draws. *)
Definition post_api_auth_register (st : Store) (now iat : Z) (salt : string) (b : AuthBody)
  : Store * Response :=
  if negb (truthy (p_username b)) || negb (truthy (p_email b))
     || negb (secret_truthy (p_password b))
  then (st, fields_required)
  else
    let username := text_of (p_username b) in
    let email := text_of (p_email b) in
    if shorter_than_6 (p_password b) then (st, password_too_short)
    else
      let existingUser := select_existing st email username in
      if (0 <? List.length existingUser)%nat then (st, user_exists)
      else
        let saltRounds := 12%nat in
        match p_password b with
        | Plain f =>
            let password := text_of f in
            let passwordHash := bcrypt_hash password saltRounds salt in
            match insert_user st now username email passwordHash with
            | None => (st, internal_error)
            | Some (st', newUser) =>
                let token := jwt_sign (u_id newUser) (u_username newUser) iat in
                (st', json 201 (BAuth "User created successfully" token
                                  {| pu_id := u_id newUser;
                                     pu_username := u_username newUser;
                                     pu_email := u_email newUser;
                                     pu_created_at := Some (u_created_at newUser) |}))
            end
        | Number _ | Boolean _ => (st, internal_error)
        end.

(** POST [/api/auth/login]; [iat] is the server's clock when the token is
    signed. *)
Definition post_api_auth_login (st : Store) (iat : Z) (b : AuthBody) : Response :=
  if negb (truthy (p_email b)) || negb (secret_truthy (p_password b))
  then email_and_password_required
  else
    let email := text_of (p_email b) in
    match select_by_email st email with
    | [] => invalid_credentials
    | user :: _ =>
        match p_password b with
        | Plain f =>
            let password := text_of f in
            let validPassword := bcrypt_compare password (u_password_hash user) in
            if negb validPassword then invalid_credentials
            else
              let token := jwt_sign (u_id user) (u_username user) iat in
              json 200 (BAuth "Login successful" token
                          {| pu_id := u_id user;
                             pu_username := u_username user;
                             pu_email := u_email user;
                             pu_created_at := None |})
        | Number _ | Boolean _ => internal_error
        end
    end.

End Auth.

(** ** Requests that write to [job_applications], and the stores they reach *)

Inductive request :=
| Create (now uid : Z) (b : JobFields)
| Update (now uid : Z) (i : Js.numtext) (b : JobFields)
| Delete (uid : Z) (i : Js.numtext).

Definition serve (st : Store) (r : request) : Store :=
  match r with
  | Create now uid b => fst (post_api_jobs st now uid b)
  | Update now uid i b => fst (put_api_jobs_id st now uid i b)
  | Delete uid i => fst (delete_api_jobs_id st uid i)
  end.

(** The stores reached from an empty [job_applications] table by any
    sequence of such requests.  The [users] table is the one of the end of
    the run: registrations in between only add users, and the job handlers
    read [users] for the foreign key alone. *)
Inductive reachable : Store -> Prop :=
| reach_empty st : job_applications st = [] -> reachable st
| reach_serve st r : reachable st -> reachable (serve st r).

(** The stores a run of the server reaches from the two empty tables
    [initDatabase] creates, by registrations and by requests that write to
    [job_applications]. *)
Section Running.

Variable bcrypt_hash : string -> nat -> string -> string.


End Running.

(** [id SERIAL PRIMARY KEY]: identifiers are 32-bit integers and no two
    rows share one. *)
Definition is_int4 (n : Z) : Prop := Pg.int4_min <= n <= Pg.int4_max.

Definition primary_key (st : Store) : Prop :=
  NoDup (map id (job_applications st))
  /\ Forall (fun r => is_int4 (id r)) (job_applications st).

(** The store without the rows of identifier [n]. *)
Definition without (st : Store) (n : Z) : Store :=
  set_jobs st (filter (fun r => negb (id r =? n)) (job_applications st)).

(** ** Vocabulary of the specification *)

(** The five statuses of the specification. *)
Definition statuses : list string :=
  ["applied"; "interview"; "offer"; "rejected"; "withdrawn"].

Definition enumerated (s : option string) : bool :=
  match s with
  | Some x => existsb (String.eqb x) statuses
  | None => false
  end.

(** A field that is missing or empty. *)
Definition missing_or_empty (f : field) : Prop :=
  f = Omitted \/ f = Null \/ f = Text "".

(** A password that is missing or empty, or one of the falsy [0] and
    [false]. *)
Definition secret_missing (s : secret) : Prop :=
  match s with
  | Plain f => missing_or_empty f
  | Number n => n = 0
  | Boolean b => b = false
  end.

(** A password that is present and not a string: a number other than 0, or
    [true]. *)
Definition present_not_string (s : secret) : Prop :=
  match s with
  | Plain _ => False
  | Number n => n <> 0
  | Boolean b => b = true
  end.

(** [sub] occurs in [s] as a literal substring. *)
Fixpoint contains (sub s : string) : bool :=
  String.prefix sub s
  || match s with
     | EmptyString => false
     | String _ s' => contains sub s'
     end.

(** Literal, case-insensitive substring match. *)
Definition contains_ci (sub s : string) : bool :=
  contains (Pg.lower sub) (Pg.lower s).

(** A text without the characters a LIKE pattern reads specially. *)
Definition plain_ascii (a : ascii) : bool :=
  negb (Ascii.eqb a "%") && negb (Ascii.eqb a "_") && negb (Ascii.eqb a "\").

Fixpoint plain (s : string) : bool :=
  match s with
  | EmptyString => true
  | String a s' => plain_ascii a && plain s'
  end.

(** A page or limit parameter that is a safe positive integer, and the
    integer it stands for once the default is applied. *)
Definition positive_or_absent (p : option Js.numtext) (d v : Z) : Prop :=
  match p with
  | None => v = d
  | Some (Js.TInt n) => v = n /\ 0 < n
  | Some (Js.TNaN _) => False
  end.

(** The sum of the five per-status counts of a statistics row. *)
Definition status_sum (s : Stats) : Z :=
  s_applied s + s_interview s + s_offer s + s_rejected s + s_withdrawn s.

(** A number that is a positive integer. *)
Definition positive_integer (x : Js.number) : Prop :=
  exists n, 0 < n /\ x = Js.of_Z n.

(** A query without filters. *)
Definition no_filters (q : ListQuery) : Prop :=
  truthy (q_status q) = false /\ truthy (q_company q) = false.

(** The rows of [uid] whose status is none of the five. *)
Definition other_status (st : Store) (uid : Z) : Z :=
  Z.of_nat (List.length (filter (fun r => owned_by uid r && negb (enumerated (status r)))
                                (job_applications st))).

(** The optional text columns of a row, each with the body field a POST or
    PUT writes it from, and the two date columns likewise. *)
Definition text_columns (b : JobFields) (r : Job) : list (field * option string) :=
  [(f_job_url b, job_url r); (f_location b, location r);
   (f_salary_range b, salary_range r); (f_status b, status r);
   (f_description b, description r); (f_requirements b, requirements r);
   (f_notes b, notes r); (f_contact_person b, contact_person r);
   (f_contact_email b, contact_email r)].

Definition date_columns (b : JobFields) (r : Job) : list (datefield * option Z) :=
  [(f_application_date b, application_date r); (f_follow_up_date b, follow_up_date r)].

(** A text column written from a field: NULL for an omitted or null field,
    the empty string for a blank one. *)
Definition text_replaced (fc : field * option string) : Prop :=
  (fst fc = Omitted \/ fst fc = Null -> snd fc = None)
  /\ (fst fc = Text "" -> snd fc = Some "").

(** A date column written from a field: NULL for an omitted, null or blank
    field. *)
Definition date_replaced (fc : datefield * option Z) : Prop :=
  fst fc = DOmitted \/ fst fc = DNull \/ fst fc = DBlank -> snd fc = None.

(** The thirteen columns of a row that INSERT and UPDATE write. *)
Definition columns_of (r : Job) : Columns :=
  {| c_company_name := company_name r; c_job_title := job_title r;
     c_job_url := job_url r; c_location := location r;
     c_salary_range := salary_range r;
     c_application_date := application_date r; c_status := status r;
     c_description := description r; c_requirements := requirements r;
     c_notes := notes r; c_contact_person := contact_person r;
     c_contact_email := contact_email r;
     c_follow_up_date := follow_up_date r |}.

(** The optional text columns again, each with the length of its column
    ([None] for TEXT) and the body field it is written from. *)
Definition sized_columns (b : JobFields) (r : Job)
  : list (option nat * field * option string) :=
  [(None, f_job_url b, job_url r); (Some 255%nat, f_location b, location r);
   (Some 100%nat, f_salary_range b, salary_range r);
   (Some 50%nat, f_status b, status r);
   (None, f_description b, description r);
   (None, f_requirements b, requirements r); (None, f_notes b, notes r);
   (Some 255%nat, f_contact_person b, contact_person r);
   (Some 255%nat, f_contact_email b, contact_email r)].

Definition fits (w : option nat) (s : string) : Prop :=
  match w with
  | Some n => (String.length s <= n)%nat
  | None => True
  end.

(** A text column written from a field: the text supplied, when it fits
    the column. *)
Definition text_written (wfc : option nat * field * option string) : Prop :=
  forall s, snd (fst wfc) = Text s -> fits (fst (fst wfc)) s -> snd wfc = Some s.

(** A date column written from a field: the day supplied. *)
Definition date_written (fc : datefield * option Z) : Prop :=
  forall d, fst fc = DText (Day d) -> snd fc = Some d.

(** The sequence of [job_applications] can hand out its next identifier. *)
Definition next_id_free (st : Store) : Prop :=
  is_int4 (job_applications_id_seq st)
  /\ forall r, In r (job_applications st) -> id r <> job_applications_id_seq st.

Definition registered (st : Store) (uid : Z) : Prop :=
  exists u, In u (users st) /\ u_id u = uid.

(** ** Sample data *)
Module Sample.

Definition alice : User :=
  {| u_id := 1; u_username := "alice"; u_email := "alice@example.com";
     u_password_hash := "$2a$12$alice"; u_created_at := 100; u_updated_at := 100 |}.

Definition bob : User :=
  {| u_id := 2; u_username := "bob"; u_email := "bob@example.com";
     u_password_hash := "$2a$12$bob"; u_created_at := 110; u_updated_at := 110 |}.

(** Two registered users, no job yet. *)
Definition fresh : Store :=
  {| users := [alice; bob]; job_applications := [];
     users_id_seq := 3; job_applications_id_seq := 1 |}.

(** [{company_name: c, job_title: t}] *)
Definition job (c t : string) : JobFields :=
  {| f_company_name := Text c; f_job_title := Text t; f_job_url := Omitted;
     f_location := Omitted; f_salary_range := Omitted;
     f_application_date := DOmitted; f_status := Omitted;
     f_description := Omitted; f_requirements := Omitted; f_notes := Omitted;
     f_contact_person := Omitted; f_contact_email := Omitted;
     f_follow_up_date := DOmitted |}.

(** [{company_name: c, job_title: t, status: s}] *)
Definition job_with_status (c t s : string) : JobFields :=
  {| f_company_name := Text c; f_job_title := Text t; f_job_url := Omitted;
     f_location := Omitted; f_salary_range := Omitted;
     f_application_date := DOmitted; f_status := Text s;
     f_description := Omitted; f_requirements := Omitted; f_notes := Omitted;
     f_contact_person := Omitted; f_contact_email := Omitted;
     f_follow_up_date := DOmitted |}.

(** [{company_name: c, job_title: t, status: "interview", notes: ""}] *)
Definition job_blank_notes (c t : string) : JobFields :=
  {| f_company_name := Text c; f_job_title := Text t; f_job_url := Omitted;
     f_location := Omitted; f_salary_range := Omitted;
     f_application_date := DOmitted; f_status := Text "interview";
     f_description := Omitted; f_requirements := Omitted; f_notes := Text "";
     f_contact_person := Omitted; f_contact_email := Omitted;
     f_follow_up_date := DOmitted |}.

(** Alice has created one job, for Acme. *)
Definition one_job : Store := fst (post_api_jobs fresh 200 1 (job "Acme" "Engineer")).

(** Alice has created one job with a status of her own. *)
Definition ghosted : Store :=
  fst (post_api_jobs fresh 200 1 (job_with_status "Acme" "Engineer" "ghosted")).

Definition query (c : field) (p l : option Js.numtext) : ListQuery :=
  {| q_status := Omitted; q_company := c; q_page := p; q_limit := l |}.

Definition credentials (n e p : field) : Credentials :=
  {| a_username := n; a_email := e; a_password := p |}.

(** A stand-in for [bcryptjs], for running the auth handlers. *)
Definition hash (password : string) (rounds : nat) (salt : string) : string :=
  salt ++ password.
Definition compare (password h : string) : bool := (h =? "$2a$12$" ++ password)%string.

End Sample.

(** ** The token middleware *)

(** What a middleware does with a request: hand it on with [req.user] set,
    or answer it. *)
Inductive Outcome :=
| Next (user : Token)
| Reply (r : Response).

(** [s.split(sep)] for a one-character separator. *)
Fixpoint split (sep : ascii) (s : string) : list string :=
  match s with
  | EmptyString => [EmptyString]
  | String c s' =>
      if Ascii.eqb c sep then EmptyString :: split sep s'
      else match split sep s' with
           | w :: ws => String c w :: ws
           | [] => [String c EmptyString]
           end
  end.

Section Middleware.

(** [jwt.verify(token, JWT_SECRET)]: the payload of a token that is well
    formed, signed with the secret and not expired; an error otherwise. *)
Variable jwt_verify : string -> option Token.

(** [authenticateToken]; [authHeader] is [req.headers['authorization']]. *)
Definition authenticateToken (authHeader : option string) : Outcome :=
  let token :=
    match authHeader with
    | None => None
    | Some h => if (h =? "")%string then Some h else nth_error (split " " h) 1
    end in
  match token with
  | None => Reply (json 401 (BError "Access token required"))
  | Some t =>
      if (t =? "")%string then Reply (json 401 (BError "Access token required"))
      else
        match jwt_verify t with
        | None => Reply (json 403 (BError "Invalid or expired token"))
        | Some user => Next user
        end
  end.

End Middleware.

(** ** The client ([JobTracker]) *)
Module Client.

(** The [filters] state. *)
Record Filters := {
  flt_status : string;
  flt_company : string;
  flt_page : Z
}.

(** [useState({ status: '', company: '', page: 1 })] *)
Definition initial_filters : Filters :=
  {| flt_status := ""; flt_company := ""; flt_page := 1 |}.

(** The query string [fetchJobs] builds. *)
Definition fetchJobs_query (filters : Filters) : ListQuery :=
  {| q_status := if (flt_status filters =? "")%string then Omitted
                 else Text (flt_status filters);
     q_company := if (flt_company filters =? "")%string then Omitted
                  else Text (flt_company filters);
     q_page := Some (Js.TInt (flt_page filters));
     q_limit := Some (Js.TInt 10) |}.

(** [v || d] on a value that is a string or [null]. *)
Definition or_ (v : option string) (d : string) : string :=
  match v with
  | Some s => if (s =? "")%string then d else s
  | None => d
  end.

Section Edit.

(** [new Date(d).toISOString().split('T')[0]] for a stored date, by what the
    store's date input will make of that text. *)
Variable toISODate : Z -> datetext.

Definition date_or_blank (v : option Z) : datefield :=
  match v with
  | Some d => DText (toISODate d)
  | None => DBlank
  end.

(** The [formData] that [handleEdit] sets from a job of the list. *)
Definition handleEdit (job : Job) : JobFields :=
  {| f_company_name := Text (or_ (Some (company_name job)) "");
     f_job_title := Text (or_ (Some (job_title job)) "");
     f_job_url := Text (or_ (job_url job) "");
     f_location := Text (or_ (location job) "");
     f_salary_range := Text (or_ (salary_range job) "");
     f_application_date := date_or_blank (application_date job);
     f_status := Text (or_ (status job) "applied");
     f_description := Text (or_ (description job) "");
     f_requirements := Text (or_ (requirements job) "");
     f_notes := Text (or_ (notes job) "");
     f_contact_person := Text (or_ (contact_person job) "");
     f_contact_email := Text (or_ (contact_email job) "");
     f_follow_up_date := date_or_blank (follow_up_date job) |}.

(** [handleSubmit] in the edit view: PUT [/jobs/${selectedJob.id}] with the
    form data, for the logged-in user. *)
Definition handleSubmit_edit (st : Store) (now uid : Z) (selectedJob : Job)
    (formData : JobFields) : Store * Response :=
  put_api_jobs_id st now uid (Js.TInt (id selectedJob)) formData.

End Edit.

End Client.

(** ** More vocabulary *)

Fixpoint no_space (s : string) : bool :=
  match s with
  | EmptyString => true
  | String c s' => negb (Ascii.eqb c " ") && no_space s'
  end.

(** The jobs a response lists. *)
Definition response_jobs (r : Response) : list Job :=
  match res_json r with
  | BJobs l _ => l
  | _ => []
  end.

(** Newest first. *)
Definition newest_first (l : list Job) : Prop :=
  StronglySorted (fun a b => created_at b <= created_at a) l.

(** No two of the rows were created at the same time.  [ORDER BY created_at
    DESC] then leaves the store one order only; among rows of equal
    [created_at] the store is free, query by query, and
    [order_by_created_at_desc] is one of the orders it may return. *)
Definition distinct_times (l : list Job) : Prop :=
  NoDup (map created_at l).

(** [users]: identifiers, user names and emails are each unique. *)
Definition users_unique (st : Store) : Prop :=
  NoDup (map u_id (users st))
  /\ NoDup (map u_username (users st))
  /\ NoDup (map u_email (users st)).

(** The user a request is made for. *)
Definition request_user (r : request) : Z :=
  match r with
  | Create _ uid _ => uid
  | Update _ uid _ _ => uid
  | Delete uid _ => uid
  end.

(** The rows of [uid]. *)
Definition rows_of (st : Store) (uid : Z) : list Job :=
  filter (owned_by uid) (job_applications st).

(** A row as the handlers leave it: owned by a registered user, with a
    company name and a job title. *)
Definition row_ok (st : Store) (r : Job) : Prop :=
  (exists uid, user_id r = Some uid /\ registered st uid)
  /\ company_name r <> "" /\ job_title r <> "".

(** All identifiers handed out lie below the sequence. *)
Definition below_seq (st : Store) : Prop :=
  Forall (fun r => id r < job_applications_id_seq st) (job_applications st).


(** The query of page [p] with limit [l] and the filters of [q]. *)
Definition page_query (q : ListQuery) (p l : Z) : ListQuery :=
  {| q_status := q_status q; q_company := q_company q;
     q_page := Some (Js.TInt p); q_limit := Some (Js.TInt l) |}.

(** The count Stats reports under a status name. *)
Definition tally_of (s : Stats) (name : string) : Z :=
  if (name =? "applied")%string then s_applied s
  else if (name =? "interview")%string then s_interview s
  else if (name =? "offer")%string then s_offer s
  else if (name =? "rejected")%string then s_rejected s
  else if (name =? "withdrawn")%string then s_withdrawn s
  else 0.

(** ** More sample data *)
Module Demo.

(** A stand-in for [jwt.verify]: one token is good. *)
Definition verify (t : string) : option Token :=
  if (t =? "good.token")%string
  then Some {| tok_userId := 1; tok_username := "alice"; tok_iat := 0; tok_exp := 604800 |}
  else None.

(** Alice has three jobs, Bob one. *)
Definition busy : Store :=
  fst (post_api_jobs
         (fst (post_api_jobs
                 (fst (post_api_jobs Sample.one_job 210 2 (Sample.job "Globex" "Analyst")))
                 220 1 (Sample.job_with_status "Initech" "Manager" "interview")))
         230 1 (Sample.job "Hooli" "Engineer")).

Definition carol : Credentials :=
  Sample.credentials (Text "carol") (Text "carol@example.com") (Text "secret").

(** [{company_name: "Acme", ...}] with every optional field filled in. *)
Definition detailed : JobFields :=
  {| f_company_name := Text "Acme"; f_job_title := Text "Engineer";
     f_job_url := Text "https://acme.example/jobs/1";
     f_location := Text "Berlin"; f_salary_range := Text "90k";
     f_application_date := DText (Day 19000); f_status := Text "applied";
     f_description := Text "Backend"; f_requirements := Text "Proofs";
     f_notes := Text "call back"; f_contact_person := Text "Ann";
     f_contact_email := Text "ann@acme.example";
     f_follow_up_date := DText (Day 19010) |}.

(** Alice has created one job from it. *)
Definition filled : Store := fst (post_api_jobs Sample.fresh 200 1 detailed).

(** [{company_name: "Acme Ltd", job_title: "Lead", location: "Paris",
      application_date: "2022-02-01", notes: "", follow_up_date: ""}] *)
Definition revised : JobFields :=
  {| f_company_name := Text "Acme Ltd"; f_job_title := Text "Lead";
     f_job_url := Omitted; f_location := Text "Paris";
     f_salary_range := Omitted; f_application_date := DText (Day 19024);
     f_status := Omitted; f_description := Null; f_requirements := Omitted;
     f_notes := Text ""; f_contact_person := Omitted;
     f_contact_email := Omitted; f_follow_up_date := DBlank |}.


(** [{email: e, password: 123456}], the password a JSON number. *)
Definition numeric (e : string) : AuthBody :=
  {| p_username := Omitted; p_email := Text e; p_password := Number 123456 |}.

(** Three Cyrillic letters: six bytes, three UTF-16 code units. *)
Definition three_letters : string := "пар".

End Demo.

(** * Properties *)

(** ** Small facts about the request values *)

(** Discharges [~ missing_or_empty f] for a field that is a non-empty text. *)
Ltac supplied := let E := fresh "E" in intros [E|[E|E]]; discriminate E.

Lemma truthy_false_iff (f : field) : truthy f = false <-> missing_or_empty f.
Proof.
  unfold missing_or_empty. destruct f as [| |s]; simpl.
  - intuition.
  - intuition.
  - destruct s as [|c s]; simpl.
    + intuition.
    + split; [discriminate|]. supplied.
Qed.

Lemma truthy_true_iff (f : field) : truthy f = true <-> ~ missing_or_empty f.
Proof.
  rewrite <- truthy_false_iff. destruct (truthy f); split; congruence.
Qed.

Lemma missing_required_iff (b : JobFields) :
  missing_required b = true
  <-> missing_or_empty (f_company_name b) \/ missing_or_empty (f_job_title b).
Proof.
  unfold missing_required. rewrite orb_true_iff, !negb_true_iff, !truthy_false_iff.
  reflexivity.
Qed.

(** ** Validation of Create *)

(** C9. Create with a missing or empty company name or job title answers
    400 (validation error), whatever the other fields are, and leaves the
    store as it was. *)
Theorem create_requires_company_and_title (st : Store) (now uid : Z) (b : JobFields) :
  missing_or_empty (f_company_name b) \/ missing_or_empty (f_job_title b) ->
  post_api_jobs st now uid b
  = (st, json 400 (BError "Company name and job title are required")).
Proof.
  intros H. apply missing_required_iff in H.
  unfold post_api_jobs. rewrite H. reflexivity.
Qed.

Lemma create_requires_company_and_title_witness :
  missing_or_empty (f_company_name (Sample.job "" "Engineer"))
  /\ post_api_jobs Sample.one_job 300 1 (Sample.job "" "Engineer")
     = (Sample.one_job, json 400 (BError "Company name and job title are required")).
Proof.
  assert (H : missing_or_empty (f_company_name (Sample.job "" "Engineer")))
    by (right; right; reflexivity).
  split; [exact H|].
  apply (create_requires_company_and_title Sample.one_job 300 1 (Sample.job "" "Engineer")).
  left; exact H.
Defined.

(** ** Registration and login *)

Section AuthProperties.

Variable bcrypt_hash : string -> nat -> string -> string.
Variable bcrypt_compare : string -> string -> bool.

Lemma select_existing_hit (st : Store) (e n : string) (u : User) :
  In u (users st) -> u_email u = e \/ u_username u = n ->
  (0 <? List.length (select_existing st e n))%nat = true.
Proof.
  intros Hin Hu. unfold select_existing.
  assert (Hf : In u (filter (fun u => (u_email u =? e)%string || (u_username u =? n)%string)
                            (users st))).
  { apply filter_In. split; [exact Hin|].
    apply orb_true_iff. destruct Hu as [Hu|Hu]; [left|right]; now apply String.eqb_eq. }
  destruct (filter _ (users st)); [contradiction|reflexivity].
Qed.

Lemma secret_truthy_false_iff (s : secret) :
  secret_truthy s = false <-> secret_missing s.
Proof.
  destruct s as [f|n|[|]]; simpl.
  - apply truthy_false_iff.
  - rewrite negb_false_iff. apply Z.eqb_eq.
  - split; discriminate.
  - split; reflexivity.
Qed.

Lemma secret_truthy_true_iff (s : secret) :
  secret_truthy s = true <-> ~ secret_missing s.
Proof.
  rewrite <- secret_truthy_false_iff. destruct (secret_truthy s); split; congruence.
Qed.

Lemma present_not_string_truthy (s : secret) :
  present_not_string s -> secret_truthy s = true.
Proof.
  destruct s as [f|n|b]; simpl; intros H.
  - contradiction.
  - apply negb_true_iff. now apply Z.eqb_neq.
  - exact H.
Qed.

(** C8. Register answers 400 when the username, the email or the password
    is missing or empty or the password is a string of fewer than 6
    characters (counted as [password.length] counts them, in UTF-16 code
    units); with the three present and the password long enough it answers
    409 when a user with the same email or the same username exists.  In
    both cases the store is left as it was: no user is persisted. *)
Theorem register_failures (st : Store) (now iat : Z) (salt : string) (b : AuthBody) :
  (missing_or_empty (p_username b) \/ missing_or_empty (p_email b)
   \/ secret_missing (p_password b)
   \/ (exists s, p_password b = Plain (Text s) /\ (Js.length s < 6)%nat) ->
   exists msg,
     post_api_auth_register bcrypt_hash st now iat salt b = (st, json 400 (BError msg)))
  /\
  (~ missing_or_empty (p_username b) -> ~ missing_or_empty (p_email b) ->
   ~ secret_missing (p_password b) ->
   (forall s, p_password b = Plain (Text s) -> (6 <= Js.length s)%nat) ->
   (exists u, In u (users st)
              /\ (u_email u = text_of (p_email b)
                  \/ u_username u = text_of (p_username b))) ->
   post_api_auth_register bcrypt_hash st now iat salt b
   = (st, json 409 (BError "User with this email or username already exists"))).
Proof.
  unfold post_api_auth_register. split.
  - intros H.
    destruct (truthy (p_username b)) eqn:Hn; simpl; [|eexists; reflexivity].
    destruct (truthy (p_email b)) eqn:He; simpl; [|eexists; reflexivity].
    destruct (secret_truthy (p_password b)) eqn:Hp; simpl; [|eexists; reflexivity].
    apply truthy_true_iff in Hn, He. apply secret_truthy_true_iff in Hp.
    destruct H as [H|[H|[H|(s & E & H)]]]; try contradiction.
    rewrite E. simpl. apply Nat.ltb_lt in H. rewrite H. eexists; reflexivity.
  - intros Hn He Hp Hlen (u & Hin & Hu).
    apply truthy_true_iff in Hn, He. apply secret_truthy_true_iff in Hp.
    rewrite Hn, He, Hp. simpl.
    replace (shorter_than_6 (p_password b)) with false.
    + rewrite (select_existing_hit st _ _ u Hin Hu). reflexivity.
    + symmetry. destruct (p_password b) as [[| |s]|n|v]; try reflexivity;
        try discriminate Hp.
      simpl. apply Nat.ltb_ge. now apply Hlen.
Qed.

(** C7. With a string for a password, a login whose email no user has and
    a login with the email of a user but a password that does not match the
    stored hash are both answered 401 with the one message "Invalid email or
    password".  With a password that is present but not a string (a JSON
    number other than 0, or [true]) they are not: the unknown email is
    answered 401 as before, the email of a user 500 "Internal server
    error", because only that branch reaches [bcrypt.compare]. *)
Theorem login_failure_tells_known_email (st1 st2 : Store) (iat1 iat2 : Z)
    (b1 b2 : AuthBody) (user : User) (rest : list User) :
  ~ missing_or_empty (p_email b1) -> ~ missing_or_empty (p_email b2) ->
  select_by_email st1 (text_of (p_email b1)) = [] ->
  select_by_email st2 (text_of (p_email b2)) = user :: rest ->
  (forall s1 s2,
      p_password b1 = Plain (Text s1) -> p_password b2 = Plain (Text s2) ->
      s1 <> "" -> s2 <> "" ->
      bcrypt_compare s2 (u_password_hash user) = false ->
      post_api_auth_login bcrypt_compare st1 iat1 b1
      = json 401 (BError "Invalid email or password")
      /\ post_api_auth_login bcrypt_compare st2 iat2 b2
         = json 401 (BError "Invalid email or password"))
  /\
  (present_not_string (p_password b1) -> present_not_string (p_password b2) ->
   post_api_auth_login bcrypt_compare st1 iat1 b1
   = json 401 (BError "Invalid email or password")
   /\ post_api_auth_login bcrypt_compare st2 iat2 b2
      = json 500 (BError "Internal server error")).
Proof.
  intros He1 He2 H1 H2. apply truthy_true_iff in He1, He2.
  unfold post_api_auth_login. rewrite H1, H2, He1, He2. simpl negb. simpl orb.
  split.
  - intros s1 s2 E1 E2 N1 N2 Hc. rewrite E1, E2. simpl.
    apply String.eqb_neq in N1, N2. rewrite N1, N2, Hc. split; reflexivity.
  - intros P1 P2.
    rewrite (present_not_string_truthy _ P1), (present_not_string_truthy _ P2).
    simpl. split; [reflexivity|].
    destruct (p_password b2) as [f|n|v]; [contradiction|reflexivity|reflexivity].
Qed.

End AuthProperties.

Lemma register_failures_witness :
  (exists msg,
      post_api_auth_register Sample.hash Sample.fresh 300 1700000000 "$2a$12$"
        (Sample.credentials (Text "carol") (Text "carol@example.com")
           (Text Demo.three_letters))
      = (Sample.fresh, json 400 (BError msg)))
  /\ post_api_auth_register Sample.hash Sample.fresh 300 1700000000 "$2a$12$"
       (Sample.credentials (Text "carol") (Text "alice@example.com") (Text "123456"))
     = (Sample.fresh, json 409 (BError "User with this email or username already exists")).
Proof.
  split.
  - apply (register_failures Sample.hash Sample.fresh 300 1700000000 "$2a$12$"
             (Sample.credentials (Text "carol") (Text "carol@example.com")
                (Text Demo.three_letters))).
    right; right; right. exists Demo.three_letters. split; [reflexivity|].
    vm_compute. lia.
  - apply (register_failures Sample.hash Sample.fresh 300 1700000000 "$2a$12$"
             (Sample.credentials (Text "carol") (Text "alice@example.com") (Text "123456"))).
    + supplied.
    + supplied.
    + supplied.
    + intros s E. injection E as <-. vm_compute. lia.
    + exists Sample.alice. split; [simpl; left; reflexivity|left; reflexivity].
Defined.

(** A password of three Cyrillic letters is too short, whether or not the
    email is taken: the length is tested before the users are searched. *)
Lemma register_counts_code_units :
  Js.length Demo.three_letters = 3%nat
  /\ post_api_auth_register Sample.hash Sample.fresh 300 1700000000 "$2a$12$"
       (Sample.credentials (Text "carol") (Text "alice@example.com")
          (Text Demo.three_letters))
     = (Sample.fresh, json 400 (BError "Password must be at least 6 characters long")).
Proof. split; vm_compute; reflexivity. Qed.

Lemma login_failure_tells_known_email_witness :
  post_api_auth_login Sample.compare Sample.fresh 1700000000
    (Demo.numeric "carol@example.com")
  = json 401 (BError "Invalid email or password")
  /\ post_api_auth_login Sample.compare Sample.fresh 1700000000
       (Demo.numeric "alice@example.com")
     = json 500 (BError "Internal server error").
Proof.
  refine (proj2 (login_failure_tells_known_email Sample.compare Sample.fresh Sample.fresh
                   1700000000 1700000000
                   (Demo.numeric "carol@example.com") (Demo.numeric "alice@example.com")
                   Sample.alice [] _ _ eq_refl eq_refl) _ _).
  - supplied.
  - supplied.
  - discriminate.
  - discriminate.
Defined.

(** ** Ownership *)

Lemma set_jobs_same (st : Store) : set_jobs st (job_applications st) = st.
Proof. destruct st; reflexivity. Qed.

Lemma filter_nil {A} (p : A -> bool) (l : list A) :
  (forall x, In x l -> p x = false) -> filter p l = [].
Proof.
  induction l as [|a l IH]; simpl; intros H; [reflexivity|].
  rewrite (H a (or_introl eq_refl)). apply IH. intros x Hx. apply H. now right.
Qed.

Lemma filter_all {A} (p : A -> bool) (l : list A) :
  (forall x, In x l -> p x = true) -> filter p l = l.
Proof.
  induction l as [|a l IH]; simpl; intros H; [reflexivity|].
  rewrite (H a (or_introl eq_refl)). f_equal. apply IH. intros x Hx. apply H. now right.
Qed.

Lemma map_untouched {A} (hit : A -> bool) (f : A -> A) (l : list A) :
  (forall x, In x l -> hit x = false) ->
  map (fun x => if hit x then f x else x) l = l.
Proof.
  induction l as [|a l IH]; simpl; intros H; [reflexivity|].
  rewrite (H a (or_introl eq_refl)). f_equal. apply IH. intros x Hx. apply H. now right.
Qed.

Lemma NoDup_map_inj {A B} (f : A -> B) (l : list A) (x y : A) :
  NoDup (map f l) -> In x l -> In y l -> f x = f y -> x = y.
Proof.
  induction l as [|a l IH]; simpl; intros Hnd Hx Hy E; [contradiction|].
  inversion Hnd as [|? ? Hnotin Hnd']; subst.
  destruct Hx as [Hx|Hx], Hy as [Hy|Hy]; subst.
  - reflexivity.
  - exfalso. apply Hnotin. rewrite E. now apply in_map.
  - exfalso. apply Hnotin. rewrite <- E. now apply in_map.
  - now apply IH.
Qed.

Lemma int4in_id (st : Store) (r : Job) :
  primary_key st -> In r (job_applications st) ->
  Pg.int4in (Js.TInt (id r)) = Some (id r).
Proof.
  intros [_ Hr] Hin. rewrite Forall_forall in Hr. specialize (Hr r Hin).
  unfold is_int4 in Hr. unfold Pg.int4in, Pg.in_range.
  destruct Hr as [H1 H2]. apply Z.leb_le in H1, H2. rewrite H1, H2. reflexivity.
Qed.

(** No row of the identifier of [r] belongs to another user than the
    owner of [r]. *)
Lemma not_owner_no_hit (st : Store) (A B : Z) (r : Job) :
  primary_key st -> In r (job_applications st) -> user_id r = Some A -> A <> B ->
  forall x, In x (job_applications st) -> id_and_owner (id r) B x = false.
Proof.
  intros [Hnd _] Hin Hown Hne x Hx. unfold id_and_owner.
  destruct (id x =? id r) eqn:E; [|reflexivity]. simpl.
  apply Z.eqb_eq in E.
  rewrite (NoDup_map_inj id _ x r Hnd Hx Hin E).
  unfold owned_by. rewrite Hown. simpl. now apply Z.eqb_neq.
Qed.

Lemma without_no_hit (st : Store) (n uid : Z) :
  forall x, In x (job_applications (without st n)) -> id_and_owner n uid x = false.
Proof.
  intros x Hx. unfold without, set_jobs in Hx. simpl in Hx.
  apply filter_In in Hx. destruct Hx as [_ Hx]. unfold id_and_owner.
  apply negb_true_iff in Hx. rewrite Hx. reflexivity.
Qed.

(** The three handlers on an identifier none of whose rows is the caller's. *)
Lemma get_no_hit (st : Store) (uid n : Z) :
  (forall x, In x (job_applications st) -> id_and_owner n uid x = false) ->
  get_api_jobs_id st uid (Js.TInt n)
  = match Pg.int4in (Js.TInt n) with
    | Some _ => job_not_found
    | None => internal_error
    end.
Proof.
  intros H. unfold get_api_jobs_id, select_by_id. simpl.
  destruct (Pg.in_range Pg.int4_min Pg.int4_max n) as [m|] eqn:E; simpl; [|reflexivity].
  assert (m = n) by (unfold Pg.in_range in E; destruct (_ && _); congruence). subst m.
  rewrite (filter_nil _ _ H). reflexivity.
Qed.

Lemma delete_no_hit (st : Store) (uid n : Z) :
  (forall x, In x (job_applications st) -> id_and_owner n uid x = false) ->
  delete_api_jobs_id st uid (Js.TInt n)
  = (st, match Pg.int4in (Js.TInt n) with
         | Some _ => job_not_found
         | None => internal_error
         end).
Proof.
  intros H. unfold delete_api_jobs_id, delete_job. simpl.
  destruct (Pg.in_range Pg.int4_min Pg.int4_max n) as [m|] eqn:E; simpl; [|reflexivity].
  assert (m = n) by (unfold Pg.in_range in E; destruct (_ && _); congruence). subst m.
  rewrite (filter_nil _ _ H).
  rewrite filter_all, set_jobs_same; [reflexivity|].
  intros x Hx. now rewrite (H x Hx).
Qed.

Lemma put_no_hit (st : Store) (now uid n : Z) (b : JobFields) :
  (forall x, In x (job_applications st) -> id_and_owner n uid x = false) ->
  put_api_jobs_id st now uid (Js.TInt n) b
  = (st, if missing_required b then company_and_title_required
         else match job_params b (f_status b), Pg.int4in (Js.TInt n) with
              | Some _, Some _ => job_not_found
              | _, _ => internal_error
              end).
Proof.
  intros H. unfold put_api_jobs_id, update_job. simpl.
  destruct (missing_required b); [reflexivity|].
  destruct (job_params b (f_status b)) as [c|]; simpl; [|reflexivity].
  destruct (Pg.in_range Pg.int4_min Pg.int4_max n) as [m|] eqn:E; simpl; [|reflexivity].
  assert (m = n) by (unfold Pg.in_range in E; destruct (_ && _); congruence). subst m.
  rewrite (filter_nil _ _ H). simpl.
  rewrite map_untouched, set_jobs_same; [reflexivity|exact H].
Qed.

(** C1. A record owned by user A, read, updated or deleted by another user
    B through its identifier: Get and Delete answer 404, and so does every
    Update whose body passes validation and is accepted by the store, in
    particular every Update that succeeds for A; the store is unchanged in
    every case, and each response is the one B would get if no record had
    that identifier. *)
Theorem cross_user_access_not_found (st : Store) (A B : Z) (r : Job) (now : Z)
    (b : JobFields) :
  primary_key st -> In r (job_applications st) -> user_id r = Some A -> A <> B ->
  let i := Js.TInt (id r) in
  let gone := without st (id r) in
  get_api_jobs_id st B i = json 404 (BError "Job application not found")
  /\ delete_api_jobs_id st B i = (st, json 404 (BError "Job application not found"))
  /\ (~ missing_or_empty (f_company_name b) -> ~ missing_or_empty (f_job_title b) ->
      job_params b (f_status b) <> None ->
      put_api_jobs_id st now B i b = (st, json 404 (BError "Job application not found")))
  /\ (forall st' r',
        put_api_jobs_id st now A i b = (st', json 200 (BJob r')) ->
        put_api_jobs_id st now B i b = (st, json 404 (BError "Job application not found")))
  /\ fst (put_api_jobs_id st now B i b) = st
  /\ get_api_jobs_id st B i = get_api_jobs_id gone B i
  /\ snd (delete_api_jobs_id st B i) = snd (delete_api_jobs_id gone B i)
  /\ snd (put_api_jobs_id st now B i b) = snd (put_api_jobs_id gone now B i b).
Proof.
  intros Hpk Hin Hown Hne i gone. subst i gone.
  pose proof (not_owner_no_hit st A B r Hpk Hin Hown Hne) as Hst.
  pose proof (without_no_hit st (id r) B) as Hgone.
  pose proof (int4in_id st r Hpk Hin) as Hid.
  assert (Hput : missing_required b = false -> job_params b (f_status b) <> None ->
                 put_api_jobs_id st now B (Js.TInt (id r)) b = (st, job_not_found)).
  { intros Hm Hok. rewrite put_no_hit by assumption. rewrite Hm, Hid.
    destruct (job_params b (f_status b)); [reflexivity|congruence]. }
  split; [rewrite get_no_hit, Hid by assumption; reflexivity|].
  split; [rewrite delete_no_hit, Hid by assumption; reflexivity|].
  split.
  { intros Hc Ht Hok. apply Hput; [|exact Hok].
    destruct (missing_required b) eqn:E; [|reflexivity].
    apply missing_required_iff in E. tauto. }
  split.
  { intros st' r' E. unfold put_api_jobs_id in E. simpl Js.isNaN in E. cbv iota in E.
    destruct (missing_required b) eqn:Hm; [discriminate|].
    apply Hput; [reflexivity|].
    intros Hnone. rewrite Hnone in E. discriminate. }
  rewrite !get_no_hit, !delete_no_hit, !put_no_hit by assumption.
  repeat split.
Qed.

Lemma cross_user_access_not_found_witness :
  get_api_jobs_id Sample.one_job 2 (Js.TInt 1)
  = json 404 (BError "Job application not found")
  /\ delete_api_jobs_id Sample.one_job 2 (Js.TInt 1)
     = (Sample.one_job, json 404 (BError "Job application not found"))
  /\ put_api_jobs_id Sample.one_job 300 2 (Js.TInt 1) (Sample.job "Initech" "Manager")
     = (Sample.one_job, json 404 (BError "Job application not found")).
Proof.
  assert (Hpk : primary_key Sample.one_job).
  { split; simpl.
    - repeat constructor. intros [].
    - repeat constructor; vm_compute; discriminate. }
  destruct (cross_user_access_not_found Sample.one_job 1 2
              (new_row 1 1 200
                 {| c_company_name := "Acme"; c_job_title := "Engineer";
                    c_job_url := None; c_location := None; c_salary_range := None;
                    c_application_date := None; c_status := Some "applied";
                    c_description := None; c_requirements := None; c_notes := None;
                    c_contact_person := None; c_contact_email := None;
                    c_follow_up_date := None |})
              300 (Sample.job "Initech" "Manager") Hpk
              (or_introl eq_refl) eq_refl ltac:(discriminate))
    as (Hget & Hdel & Hput & _).
  split; [exact Hget|]. split; [exact Hdel|].
  apply Hput.
  - supplied.
  - supplied.
  - discriminate.
Defined.

(** ** Pagination *)

Lemma to_integer_of_Z (n : Z) : Js.to_integer (Js.of_Z n) = Some n.
Proof.
  unfold Js.to_integer, Js.of_Z, inject_Z. simpl.
  rewrite Z.mod_1_r, Z.div_1_r. reflexivity.
Qed.

Lemma nearest_exact (n : Z) : Z.abs n <= 2 ^ 53 -> Js.nearest n = Js.of_Z n.
Proof.
  intros H. unfold Js.nearest. cbv zeta.
  apply Z.leb_le in H. rewrite H. reflexivity.
Qed.

(** Beyond 2^53 every second integer is a double, then every fourth, and
    so on; a tie goes to the even significand; 10^400 is too large. *)
Lemma nearest_beyond_2_53 :
  Js.nearest (2 ^ 53 + 1) = Js.of_Z (2 ^ 53)
  /\ Js.nearest (2 ^ 53 + 3) = Js.of_Z (2 ^ 53 + 4)
  /\ Js.nearest (2 ^ 62 - 1) = Js.of_Z (2 ^ 62)
  /\ Js.nearest (- (2 ^ 63 - 1)) = Js.of_Z (- 2 ^ 63)
  /\ Js.nearest (10 ^ 400) = Js.Infinity false.
Proof. repeat split; vm_compute; reflexivity. Qed.

Lemma rounded_sub (a b : Z) :
  Js.rounded (inject_Z a - inject_Z b) = Js.nearest (a - b).
Proof.
  unfold Js.rounded, Js.to_integer, inject_Z, Qminus, Qplus, Qopp.
  cbn [Qnum Qden Pos.mul]. rewrite Z.mod_1_r, Z.div_1_r. cbn [Z.eqb].
  f_equal. lia.
Qed.

Lemma rounded_mul (a b : Z) :
  Js.rounded (inject_Z a * inject_Z b) = Js.nearest (a * b).
Proof.
  unfold Js.rounded, Js.to_integer, inject_Z, Qmult.
  cbn [Qnum Qden Pos.mul]. rewrite Z.mod_1_r, Z.div_1_r. cbn [Z.eqb].
  reflexivity.
Qed.

(** [-] and [*] are exact as long as the result is within 2^53. *)
Lemma sub_of_Z (a b : Z) :
  Z.abs (a - b) <= 2 ^ 53 -> Js.sub (Js.of_Z a) (Js.of_Z b) = Js.of_Z (a - b).
Proof.
  intros H. unfold Js.sub, Js.of_Z. rewrite rounded_sub. now apply nearest_exact.
Qed.

Lemma mul_of_Z (a b : Z) :
  Z.abs (a * b) <= 2 ^ 53 -> Js.mul (Js.of_Z a) (Js.of_Z b) = Js.of_Z (a * b).
Proof.
  intros H. unfold Js.mul, Js.of_Z. rewrite rounded_mul. now apply nearest_exact.
Qed.

(** Rounding keeps the sign. *)
Lemma nearest_sign (n : Z) :
  Js.nearest n = Js.Infinity (n <? 0) /\ n <> 0
  \/ exists m, Js.nearest n = Js.of_Z m
               /\ (0 < n -> 0 < m) /\ (n < 0 -> m < 0) /\ (n = 0 -> m = 0).
Proof.
  unfold Js.nearest. cbv zeta.
  destruct (Z.abs n <=? 2 ^ 53) eqn:Hs.
  - right. exists n. repeat split; trivial.
  - apply Z.leb_gt in Hs.
    assert (Ha : 0 < Z.abs n) by (pose proof (Z.pow_pos_nonneg 2 53); lia).
    set (e := Z.log2 (Z.abs n) - 52).
    set (up := (2 ^ (e - 1) <? Z.abs n mod 2 ^ e)
               || (Z.abs n mod 2 ^ e =? 2 ^ (e - 1)) && Z.odd (Z.abs n / 2 ^ e)).
    destruct (2 ^ 1024 <=? _) eqn:Ho.
    + left. split; [reflexivity|lia].
    + right. eexists. split; [reflexivity|].
      assert (He : 0 <= e).
      { unfold e. assert (53 <= Z.log2 (Z.abs n)); [|lia].
        apply Z.log2_le_pow2; lia. }
      assert (Hpow : 0 < 2 ^ e) by (apply Z.pow_pos_nonneg; lia).
      assert (Hq : 1 <= Z.abs n / 2 ^ e).
      { apply Z.div_le_lower_bound; [exact Hpow|]. rewrite Z.mul_1_r.
        apply Z.le_trans with (2 ^ Z.log2 (Z.abs n)).
        - apply Z.pow_le_mono_r; unfold e; lia.
        - apply Z.log2_spec. exact Ha. }
      assert (Hv : 0 < (if up then Z.abs n / 2 ^ e + 1 else Z.abs n / 2 ^ e) * 2 ^ e)
        by (destruct up; nia).
      repeat split; intros Hn.
      * rewrite (Z.sgn_pos n Hn). lia.
      * rewrite (Z.sgn_neg n Hn). lia.
      * subst n. simpl in Ha. lia.
Qed.

Lemma nearest_negative (n : Z) :
  n < 0 ->
  Js.nearest n = Js.Infinity true \/ exists m, m < 0 /\ Js.nearest n = Js.of_Z m.
Proof.
  intros Hn. destruct (nearest_sign n) as [[E _]|(m & E & _ & Hm & _)].
  - left. rewrite E. apply Z.ltb_lt in Hn. now rewrite Hn.
  - right. exists m. split; [now apply Hm|exact E].
Qed.

Lemma nearest_positive (n : Z) :
  0 < n ->
  Js.nearest n = Js.Infinity false \/ exists m, 0 < m /\ Js.nearest n = Js.of_Z m.
Proof.
  intros Hn. destruct (nearest_sign n) as [[E _]|(m & E & Hm & _)].
  - left. rewrite E. replace (n <? 0) with false; [reflexivity|].
    symmetry. apply Z.ltb_ge. lia.
  - right. exists m. split; [now apply Hm|exact E].
Qed.

(** [Math.ceil(n / l)] on integers, for a positive [l]. *)
Lemma ceil_div_of_Z (n l : Z) :
  0 < l -> Js.Math_ceil (Js.div (Js.of_Z n) (Js.of_Z l)) = Js.of_Z (- (- n / l)).
Proof.
  intros Hl. destruct l as [|d|d]; try lia.
  unfold Js.div, Js.of_Z, Js.is_zero, Js.Math_ceil. simpl.
  unfold Js.of_Z. f_equal. f_equal.
  unfold Qceiling, Qfloor, Qdiv, Qinv, Qmult, Qopp. simpl.
  rewrite Z.mul_1_r. reflexivity.
Qed.

(** [- (- n / l)] is the ceiling of [n / l]. *)
Lemma ceiling_spec (n l : Z) :
  0 < l -> (- (- n / l) - 1) * l < n <= - (- n / l) * l.
Proof.
  intros Hl.
  pose proof (Z.div_mod (- n) l ltac:(lia)) as Hdm.
  pose proof (Z.mod_pos_bound (- n) l Hl) as Hb.
  nia.
Qed.

(** What the handler makes of a page or limit parameter that is absent or a
    positive integer. *)
Lemma default_positive (t : option Js.numtext) (d v : Z) :
  positive_or_absent t d v ->
  (v <= 2 ^ 53 ->
   Js.ToNumber (Js.default t d) = Js.of_Z v
   /\ Js.parseInt (Js.default t d) = Js.of_Z v)
  /\ Pg.int8in (Js.default t d) = Pg.in_range Pg.int8_min Pg.int8_max v.
Proof.
  destruct t as [[n|]|]; intros H.
  - destruct H as [-> Hn]. split; [|reflexivity].
    intros Hv. unfold Js.default, Js.ToNumber, Js.parseInt.
    rewrite nearest_exact by lia. split; reflexivity.
  - contradiction.
  - simpl in H. subst v.
    unfold Js.default, Js.ToNumber, Js.parseInt, Pg.int8in.
    rewrite to_integer_of_Z. repeat split.
Qed.

(** A positive limit is read as a positive number. *)
Lemma limit_positive (t : option Js.numtext) (l : Z) :
  positive_or_absent t 20 l ->
  Js.ToNumber (Js.default t 20) = Js.Infinity false
  \/ exists m, 0 < m /\ Js.ToNumber (Js.default t 20) = Js.of_Z m.
Proof.
  destruct t as [[n|]|]; intros H.
  - destruct H as [_ Hn]. now apply nearest_positive.
  - contradiction.
  - right. exists 20. split; [lia|reflexivity].
Qed.

(** [(page - 1) * limit] for a page below 1 and a positive limit is
    negative. *)
Lemma offset_negative (p : Z) (lim : Js.number) :
  p <= 0 ->
  lim = Js.Infinity false \/ (exists m, 0 < m /\ lim = Js.of_Z m) ->
  let o := Js.mul (Js.sub (Js.nearest p) (Js.of_Z 1)) lim in
  o = Js.Infinity true \/ exists m, m < 0 /\ o = Js.of_Z m.
Proof.
  intros Hp Hlim o.
  assert (Hx : Js.sub (Js.nearest p) (Js.of_Z 1) = Js.Infinity true
               \/ exists m, m < 0
                            /\ Js.sub (Js.nearest p) (Js.of_Z 1) = Js.of_Z m).
  { assert (Hn : Js.nearest p = Js.Infinity true
                 \/ exists m, m <= 0 /\ Js.nearest p = Js.of_Z m).
    { destruct (Z.eq_dec p 0) as [->|Hne].
      - right. exists 0. split; [lia|reflexivity].
      - destruct (nearest_negative p ltac:(lia)) as [E|(m & Hm & E)];
          [now left|right; exists m; split; [lia|exact E]]. }
    destruct Hn as [->|(m & Hm & ->)]; [now left|].
    unfold Js.sub, Js.of_Z. rewrite rounded_sub.
    apply nearest_negative. lia. }
  unfold o.
  destruct Hx as [->|(x & Hx & ->)]; destruct Hlim as [->|(m & Hm & ->)].
  - now left.
  - left. unfold Js.mul, Js.of_Z, Js.is_zero, Js.is_neg, inject_Z. cbn [Qnum].
    replace (m =? 0) with false by (symmetry; apply Z.eqb_neq; lia).
    replace (m <? 0) with false by (symmetry; apply Z.ltb_ge; lia).
    reflexivity.
  - left. unfold Js.mul, Js.of_Z, Js.is_zero, Js.is_neg, inject_Z. cbn [Qnum].
    replace (x =? 0) with false by (symmetry; apply Z.eqb_neq; lia).
    replace (x <? 0) with true by (symmetry; apply Z.ltb_lt; lia).
    reflexivity.
  - unfold Js.mul, Js.of_Z. rewrite rounded_mul. apply nearest_negative. nia.
Qed.

Lemma in_range_int8 (n : Z) :
  0 <= n <= Js.MAX_SAFE_INTEGER -> Pg.in_range Pg.int8_min Pg.int8_max n = Some n.
Proof.
  unfold Js.MAX_SAFE_INTEGER, Pg.in_range, Pg.int8_min, Pg.int8_max. intros H.
  replace (- 2 ^ 63 <=? n) with true by (symmetry; apply Z.leb_le; lia).
  replace (n <=? 2 ^ 63 - 1) with true by (symmetry; apply Z.leb_le; lia).
  reflexivity.
Qed.

Lemma length_insert_desc (r : Job) (l : list Job) :
  List.length (insert_desc r l) = S (List.length l).
Proof.
  induction l as [|x l IH]; simpl; [reflexivity|].
  destruct (created_at x <? created_at r); simpl; [reflexivity|now rewrite IH].
Qed.

Lemma length_order_by (l : list Job) :
  List.length (order_by_created_at_desc l) = List.length l.
Proof.
  induction l as [|x l IH]; simpl; [reflexivity|].
  unfold order_by_created_at_desc in *. simpl.
  now rewrite length_insert_desc, IH.
Qed.

(** The handler on a page and a limit that are absent or positive
    integers: the slice it selects and the pagination it reports. *)
Lemma get_api_jobs_positive (st : Store) (uid : Z) (q : ListQuery) (p l : Z) :
  positive_or_absent (q_page q) 1 p -> positive_or_absent (q_limit q) 20 l ->
  l <= Js.MAX_SAFE_INTEGER -> (p - 1) * l <= Js.MAX_SAFE_INTEGER ->
  0 < p /\ 0 < l
  /\ get_api_jobs st uid q
     = json 200
         (BJobs (firstn (Z.to_nat l)
                   (skipn (Z.to_nat ((p - 1) * l))
                      (order_by_created_at_desc
                         (filter (where_ uid (whereConditions q)) (job_applications st)))))
            {| page := Js.of_Z p;
               limit := Js.of_Z l;
               total := Js.of_Z (select_count st uid (whereConditions q));
               totalPages := Js.of_Z (- (- select_count st uid (whereConditions q) / l)) |}).
Proof.
  intros Hp Hl Hlmax Homax.
  assert (Hp0 : 0 < p) by (destruct (q_page q) as [[n|]|]; simpl in Hp; lia).
  assert (Hl0 : 0 < l) by (destruct (q_limit q) as [[n|]|]; simpl in Hl; lia).
  split; [exact Hp0|]. split; [exact Hl0|].
  assert (Hmax : Js.MAX_SAFE_INTEGER = 2 ^ 53 - 1) by reflexivity.
  assert (Hpow : 2 ^ 53 = 9007199254740992) by reflexivity.
  assert (Hpmax : p - 1 <= (p - 1) * l) by nia.
  destruct (default_positive _ _ _ Hp) as (Hp12 & _).
  destruct Hp12 as (Hp1 & Hp2); [lia|].
  destruct (default_positive _ _ _ Hl) as (Hl12 & Hl3).
  destruct Hl12 as (Hl1 & Hl2); [lia|].
  unfold get_api_jobs, select_page, limit_offset, offset_of.
  rewrite Hp1, Hp2, Hl1, Hl2, Hl3, sub_of_Z by lia.
  rewrite mul_of_Z by (rewrite Z.abs_eq by nia; lia).
  rewrite in_range_int8 by lia. cbn [bind].
  unfold Pg.int8in. rewrite to_integer_of_Z, in_range_int8 by nia. cbn [bind].
  replace (l <? 0) with false by (symmetry; apply Z.ltb_ge; lia).
  replace ((p - 1) * l <? 0) with false by (symmetry; apply Z.ltb_ge; nia).
  cbn [orb]. rewrite ceil_div_of_Z by exact Hl0. reflexivity.
Qed.

(** C3, as the code has it. With N matching records of the user, a limit
    L and a page that are absent or positive integers, and L and
    (page - 1) * L safe integers (at most 2^53 - 1), List answers 200 with
    the pagination object {page, limit, total = N, totalPages = ceil(N/L)};
    a page beyond totalPages gets that same object with an empty list of
    jobs. *)
Theorem list_total_pages (st : Store) (uid : Z) (q : ListQuery) (p L : Z) :
  positive_or_absent (q_page q) 1 p -> positive_or_absent (q_limit q) 20 L ->
  L <= Js.MAX_SAFE_INTEGER -> (p - 1) * L <= Js.MAX_SAFE_INTEGER ->
  let N := Z.of_nat (List.length (filter (where_ uid (whereConditions q))
                                         (job_applications st))) in
  exists rows k,
    get_api_jobs st uid q
    = json 200 (BJobs rows {| page := Js.of_Z p; limit := Js.of_Z L;
                              total := Js.of_Z N; totalPages := Js.of_Z k |})
    /\ (k - 1) * L < N <= k * L
    /\ (k < p -> rows = []).
Proof.
  intros Hp Hl Hlmax Homax N.
  destruct (get_api_jobs_positive st uid q p L Hp Hl Hlmax Homax) as (Hp0 & Hl0 & E).
  fold N in E. unfold select_count in E. fold N in E.
  eexists. exists (- (- N / L)). split; [exact E|].
  pose proof (ceiling_spec N L Hl0) as Hc.
  split; [exact Hc|]. intros Hk.
  rewrite skipn_all2; [now rewrite firstn_nil|].
  rewrite length_order_by. fold N. 
  assert (N <= (p - 1) * L) by nia. lia.
Qed.

Lemma list_total_pages_witness :
  exists rows k,
    get_api_jobs Sample.one_job 1 (Sample.query Omitted (Some (Js.TInt 2)) (Some (Js.TInt 10)))
    = json 200 (BJobs rows {| page := Js.of_Z 2; limit := Js.of_Z 10;
                              total := Js.of_Z 1; totalPages := Js.of_Z k |})
    /\ (k - 1) * 10 < 1 <= k * 10
    /\ (k < 2 -> rows = []).
Proof.
  apply (list_total_pages Sample.one_job 1
           (Sample.query Omitted (Some (Js.TInt 2)) (Some (Js.TInt 10))) 2 10).
  - simpl. lia.
  - simpl. lia.
  - unfold Js.MAX_SAFE_INTEGER. lia.
  - unfold Js.MAX_SAFE_INTEGER. lia.
Defined.

(** C3, refuted as stated: with one matching record and limit 10 there is
    one page; page 2^62 lies beyond it, and the answer is not an empty list
    with a pagination object but 500, because [OFFSET (2^62 - 1) * 10] is
    outside the store's [bigint]. *)
Lemma list_page_beyond_bigint :
  let q := Sample.query Omitted (Some (Js.TInt (2 ^ 62))) (Some (Js.TInt 10)) in
  select_count Sample.one_job 1 (whereConditions q) = 1
  /\ get_api_jobs Sample.one_job 1 q = json 500 (BError "Internal server error")
  /\ ~ (exists rows pg, get_api_jobs Sample.one_job 1 q = json 200 (BJobs rows pg)).
Proof.
  assert (E : get_api_jobs Sample.one_job 1
                (Sample.query Omitted (Some (Js.TInt (2 ^ 62))) (Some (Js.TInt 10)))
              = json 500 (BError "Internal server error")) by (vm_compute; reflexivity).
  cbv zeta. split; [reflexivity|]. split; [exact E|].
  intros (rows & pg & H). rewrite E in H. discriminate H.
Qed.

Lemma in_range_inv (lo hi n m : Z) : Pg.in_range lo hi n = Some m -> m = n.
Proof. unfold Pg.in_range. destruct (_ && _); congruence. Qed.

(** What the handler does with the values nothing sanitizes. *)
Lemma list_limit_zero (st : Store) (uid : Z) (q : ListQuery) :
  q_limit q = Some (Js.TInt 0) ->
  q_page q = None
  \/ (exists p, q_page q = Some (Js.TInt p) /\ Z.abs p <= Js.MAX_SAFE_INTEGER) ->
  exists pg, get_api_jobs st uid q = json 200 (BJobs [] pg) /\ limit pg = Js.of_Z 0.
Proof.
  intros Hl Hp. unfold get_api_jobs, select_page, limit_offset, offset_of.
  rewrite Hl.
  assert (Hmax : Js.MAX_SAFE_INTEGER = 2 ^ 53 - 1) by reflexivity.
  assert (Hpow : 2 ^ 53 = 9007199254740992) by reflexivity.
  assert (E : exists p, Z.abs p <= Js.MAX_SAFE_INTEGER
                        /\ Js.ToNumber (Js.default (q_page q) 1) = Js.of_Z p).
  { destruct Hp as [->|(p & -> & Hb)].
    - exists 1. split; [rewrite Hmax; lia|reflexivity].
    - exists p. split; [exact Hb|]. apply nearest_exact. lia. }
  destruct E as (p & Hb & ->).
  change (Js.ToNumber (Js.default (Some (Js.TInt 0)) 20)) with (Js.of_Z 0).
  rewrite sub_of_Z by lia. rewrite mul_of_Z by (rewrite Z.mul_0_r; simpl; lia).
  rewrite Z.mul_0_r.
  eexists. split; reflexivity.
Qed.

(** Beyond the safe integers a limit of 0 can fail too: a page that
    [Number] reads as an infinity makes the offset [Infinity * 0], which is
    [NaN], and the store refuses it. *)
Lemma list_limit_zero_huge_page :
  get_api_jobs Sample.one_job 1
    (Sample.query Omitted (Some (Js.TInt (10 ^ 400))) (Some (Js.TInt 0)))
  = json 500 (BError "Internal server error").
Proof. vm_compute. reflexivity. Qed.

Lemma list_negative_limit (st : Store) (uid : Z) (q : ListQuery) (l : Z) :
  q_limit q = Some (Js.TInt l) -> l < 0 -> get_api_jobs st uid q = internal_error.
Proof.
  intros Hl Hneg. unfold get_api_jobs, select_page, limit_offset, bind.
  rewrite Hl. simpl Js.default. simpl Pg.int8in at 1.
  destruct (Pg.in_range Pg.int8_min Pg.int8_max l) as [m|] eqn:El; [|reflexivity].
  apply in_range_inv in El. subst m.
  destruct (Pg.int8in _) as [o|]; [|reflexivity].
  apply Z.ltb_lt in Hneg. rewrite Hneg. reflexivity.
Qed.

Lemma list_page_below_one (st : Store) (uid : Z) (q : ListQuery) (p l : Z) :
  q_page q = Some (Js.TInt p) -> p <= 0 -> positive_or_absent (q_limit q) 20 l ->
  get_api_jobs st uid q = internal_error.
Proof.
  intros Hp Hneg Hl.
  destruct (default_positive _ _ _ Hl) as (_ & Hl3).
  pose proof (offset_negative p _ Hneg (limit_positive _ _ Hl)) as Ho.
  cbv zeta in Ho.
  unfold get_api_jobs, select_page, limit_offset, offset_of, bind.
  rewrite Hp, Hl3.
  change (Js.ToNumber (Js.default (Some (Js.TInt p)) 1)) with (Js.nearest p).
  destruct (Pg.in_range Pg.int8_min Pg.int8_max l) as [m|] eqn:El; [|reflexivity].
  apply in_range_inv in El. subst m.
  destruct Ho as [->|(o & Hneg' & ->)]; [reflexivity|].
  unfold Pg.int8in. rewrite to_integer_of_Z.
  destruct (Pg.in_range Pg.int8_min Pg.int8_max o) as [o'|] eqn:Eo; [|reflexivity].
  apply in_range_inv in Eo. subst o'.
  replace (o <? 0) with true by (symmetry; apply Z.ltb_lt; lia).
  now rewrite orb_true_r.
Qed.

Lemma list_not_numeric (st : Store) (uid : Z) (q : ListQuery) :
  (exists pre, q_page q = Some (Js.TNaN pre))
  \/ (exists pre, q_limit q = Some (Js.TNaN pre)) ->
  get_api_jobs st uid q = internal_error.
Proof.
  intros [(pre & H)|(pre & H)];
    unfold get_api_jobs, select_page, limit_offset, offset_of, bind; rewrite H.
  - destruct (Pg.int8in (Js.default (q_limit q) 20)); reflexivity.
  - reflexivity.
Qed.

Lemma In_insert_desc (x r : Job) (l : list Job) :
  In x (insert_desc r l) <-> x = r \/ In x l.
Proof.
  induction l as [|y l IH]; simpl.
  - intuition.
  - destruct (created_at y <? created_at r); simpl; [intuition|].
    rewrite IH. intuition.
Qed.

Lemma In_order_by (x : Job) (l : list Job) :
  In x (order_by_created_at_desc l) <-> In x l.
Proof.
  unfold order_by_created_at_desc. induction l as [|y l IH]; simpl; [reflexivity|].
  rewrite In_insert_desc, IH. intuition.
Qed.

Lemma In_firstn_skipn {A} (a b : nat) (l : list A) (x : A) :
  In x (firstn a (skipn b l)) -> In x l.
Proof.
  intros H. apply (In_nth _ _ x) in H. destruct H as (k & Hk & <-).
  rewrite length_firstn in Hk.
  rewrite nth_firstn.
  replace (k <? a)%nat with true by (symmetry; apply Nat.ltb_lt; lia).
  rewrite nth_skipn. apply nth_In. rewrite length_skipn in Hk. lia.
Qed.

(** C2, as the code has it. With page and limit each absent or a positive
    integer, and limit and (page - 1) * limit safe integers (at most
    2^53 - 1), List runs its query with LIMIT limit and
    OFFSET (page - 1) * limit and reports these same page and limit in the
    pagination object, 1 and 20 standing for an absent page and limit: the
    jobs returned are matching records of the user, as many as remain after
    the offset and at most limit, and they are that slice of the matching
    records in the order of their creation times when these are distinct.
    Nothing sanitizes other values: a limit of 0, with page absent or a
    safe integer, is answered 200 with no job and limit 0 in the pagination
    object; a negative limit, a page below 1 (with a positive or absent
    limit) and a page or limit that is no number make the query fail, and
    the answer is 500. *)
Theorem list_uses_page_and_limit_as_given (st : Store) (uid : Z) (q : ListQuery) :
  (forall p l,
      positive_or_absent (q_page q) 1 p -> positive_or_absent (q_limit q) 20 l ->
      l <= Js.MAX_SAFE_INTEGER -> (p - 1) * l <= Js.MAX_SAFE_INTEGER ->
      let matching := filter (where_ uid (whereConditions q)) (job_applications st) in
      exists rows pg,
        get_api_jobs st uid q = json 200 (BJobs rows pg)
        /\ page pg = Js.of_Z p /\ limit pg = Js.of_Z l
        /\ positive_integer (page pg) /\ positive_integer (limit pg)
        /\ Z.of_nat (List.length rows)
           = Z.max 0 (Z.min l (Z.of_nat (List.length matching) - (p - 1) * l))
        /\ (forall r, In r rows -> In r matching)
        /\ (distinct_times matching ->
            rows = firstn (Z.to_nat l)
                     (skipn (Z.to_nat ((p - 1) * l))
                        (order_by_created_at_desc matching))))
  /\ (q_limit q = Some (Js.TInt 0) ->
      q_page q = None
      \/ (exists p, q_page q = Some (Js.TInt p) /\ Z.abs p <= Js.MAX_SAFE_INTEGER) ->
      exists pg,
        get_api_jobs st uid q = json 200 (BJobs [] pg) /\ limit pg = Js.of_Z 0)
  /\ ((exists l, q_limit q = Some (Js.TInt l) /\ l < 0) ->
      get_api_jobs st uid q = json 500 (BError "Internal server error"))
  /\ ((exists p l, q_page q = Some (Js.TInt p) /\ p <= 0
                   /\ positive_or_absent (q_limit q) 20 l) ->
      get_api_jobs st uid q = json 500 (BError "Internal server error"))
  /\ ((exists pre, q_page q = Some (Js.TNaN pre))
      \/ (exists pre, q_limit q = Some (Js.TNaN pre)) ->
      get_api_jobs st uid q = json 500 (BError "Internal server error")).
Proof.
  split; [|split; [|split; [|split]]].
  - intros p l Hp Hl Hlmax Homax matching.
    destruct (get_api_jobs_positive st uid q p l Hp Hl Hlmax Homax) as (Hp0 & Hl0 & E).
    fold matching in E.
    eexists. eexists. split; [exact E|]. cbn [page limit].
    split; [reflexivity|]. split; [reflexivity|].
    split; [exists p; split; trivial|]. split; [exists l; split; trivial|].
    split; [|split].
    + rewrite length_firstn, length_skipn, length_order_by.
      assert (0 <= (p - 1) * l) by nia. lia.
    + intros r Hr. apply In_firstn_skipn in Hr.
      now apply (proj1 (In_order_by _ _)) in Hr.
    + intros _. reflexivity.
  - apply list_limit_zero.
  - intros (l & Hl & Hneg). exact (list_negative_limit st uid q l Hl Hneg).
  - intros (p & l & Hp & Hneg & Hl). exact (list_page_below_one st uid q p l Hp Hneg Hl).
  - apply list_not_numeric.
Qed.

Lemma list_uses_page_and_limit_as_given_witness :
  (exists rows pg,
      get_api_jobs Demo.busy 1 (Sample.query Omitted (Some (Js.TInt 2)) (Some (Js.TInt 2)))
      = json 200 (BJobs rows pg)
      /\ page pg = Js.of_Z 2 /\ limit pg = Js.of_Z 2
      /\ List.length rows = 1%nat)
  /\ get_api_jobs Sample.one_job 1 (Sample.query Omitted (Some (Js.TInt 0)) None)
     = json 500 (BError "Internal server error")
  /\ get_api_jobs Sample.one_job 1 (Sample.query Omitted None (Some (Js.TInt (-5))))
     = json 500 (BError "Internal server error")
  /\ get_api_jobs Sample.one_job 1 (Sample.query Omitted (Some (Js.TNaN (Some 12))) None)
     = json 500 (BError "Internal server error").
Proof.
  split; [|split; [|split]].
  - destruct (list_uses_page_and_limit_as_given Demo.busy 1
                (Sample.query Omitted (Some (Js.TInt 2)) (Some (Js.TInt 2)))) as (H & _).
    destruct (H 2 2) as (rows & pg & E & Hpage & Hlimit & _ & _ & Hlen & _).
    + simpl. lia.
    + simpl. lia.
    + unfold Js.MAX_SAFE_INTEGER. lia.
    + unfold Js.MAX_SAFE_INTEGER. lia.
    + exists rows, pg. split; [exact E|]. split; [exact Hpage|]. split; [exact Hlimit|].
      apply Nat2Z.inj. rewrite Hlen. reflexivity.
  - destruct (list_uses_page_and_limit_as_given Sample.one_job 1
                (Sample.query Omitted (Some (Js.TInt 0)) None)) as (_ & _ & _ & H & _).
    apply H. exists 0, 20. repeat split. lia.
  - destruct (list_uses_page_and_limit_as_given Sample.one_job 1
                (Sample.query Omitted None (Some (Js.TInt (-5))))) as (_ & _ & H & _).
    apply H. exists (-5). split; [reflexivity|lia].
  - destruct (list_uses_page_and_limit_as_given Sample.one_job 1
                (Sample.query Omitted (Some (Js.TNaN (Some 12))) None)) as (_ & _ & _ & _ & H).
    apply H. left. exists (Some 12). reflexivity.
Defined.

Lemma of_Z_inj (a b : Z) : Js.of_Z a = Js.of_Z b -> a = b.
Proof. unfold Js.of_Z, inject_Z. congruence. Qed.

(** C2, refuted as stated: [GET /api/jobs?limit=0] is answered 200 with a
    pagination object whose limit is 0, not a positive integer. *)
Lemma list_limit_zero_not_sanitized :
  get_api_jobs Sample.one_job 1 (Sample.query Omitted None (Some (Js.TInt 0)))
  = json 200 (BJobs [] {| page := Js.of_Z 1; limit := Js.of_Z 0;
                          total := Js.of_Z 1; totalPages := Js.Infinity false |})
  /\ ~ positive_integer (Js.of_Z 0).
Proof.
  split; [reflexivity|].
  intros (n & Hn & E). apply of_Z_inj in E. lia.
Qed.

(** ** Statistics *)

Lemma count_cons {A} (p : A -> bool) (x : A) (l : list A) :
  Z.of_nat (List.length (filter p (x :: l)))
  = (if p x then 1 else 0) + Z.of_nat (List.length (filter p l)).
Proof. simpl. destruct (p x); simpl List.length; lia. Qed.

(** A status is counted by exactly one of the five tallies when it is one of
    the five, and by none otherwise. *)
Lemma one_tally (s : option string) :
  let tally t := if opt_eqb String.eqb s (Some t) then 1 else 0 in
  tally "applied" + tally "interview" + tally "offer" + tally "rejected"
  + tally "withdrawn" + (if negb (enumerated s) then 1 else 0) = 1.
Proof.
  destruct s as [x|]; simpl; [|reflexivity].
  destruct (String.eqb_spec x "applied") as [->|_]; [reflexivity|].
  destruct (String.eqb_spec x "interview") as [->|_]; [reflexivity|].
  destruct (String.eqb_spec x "offer") as [->|_]; [reflexivity|].
  destruct (String.eqb_spec x "rejected") as [->|_]; [reflexivity|].
  destruct (String.eqb_spec x "withdrawn") as [->|_]; reflexivity.
Qed.

(** The five tallies and the rows of another status make up the total. *)
Lemma stats_partition (st : Store) (uid : Z) :
  status_sum (select_stats st uid) + other_status st uid
  = s_total (select_stats st uid).
Proof.
  unfold status_sum, select_stats, other_status, count_status. simpl.
  induction (job_applications st) as [|r l IH]; [reflexivity|].
  rewrite !count_cons.
  destruct (owned_by uid r); simpl andb; [|lia].
  pose proof (one_tally (status r)) as H. simpl in H. lia.
Qed.

Lemma whereConditions_no_filters (q : ListQuery) :
  no_filters q -> whereConditions q = [].
Proof. intros [Hs Hc]. unfold whereConditions. now rewrite Hs, Hc. Qed.

(** C4, as the code has it. The five per-status counts of Stats sum to the
    total of the same result less the user's records whose status is none of
    the five, so to the total exactly when there is no such record; the
    total equals the total List reports without filters.  This holds in
    every state of the store. *)
Theorem stats_sum_and_total (st : Store) (uid : Z) (q : ListQuery) (p l : Z) :
  no_filters q ->
  positive_or_absent (q_page q) 1 p -> positive_or_absent (q_limit q) 20 l ->
  l <= Js.MAX_SAFE_INTEGER -> (p - 1) * l <= Js.MAX_SAFE_INTEGER ->
  exists s,
    get_api_stats st uid = json 200 (BStats s)
    /\ status_sum s + other_status st uid = s_total s
    /\ status_sum s <= s_total s
    /\ ((forall r, In r (job_applications st) -> user_id r = Some uid ->
                   enumerated (status r) = true) ->
        status_sum s = s_total s)
    /\ exists rows pg,
         get_api_jobs st uid q = json 200 (BJobs rows pg)
         /\ total pg = Js.of_Z (s_total s).
Proof.
  intros Hq Hp Hl Hlmax Homax.
  exists (select_stats st uid). split; [reflexivity|].
  pose proof (stats_partition st uid) as Hsum.
  split; [exact Hsum|]. split; [unfold other_status in Hsum; lia|]. split.
  - intros Hall. unfold other_status in Hsum. rewrite filter_nil in Hsum.
    + change (Z.of_nat (List.length (@nil Job))) with 0 in Hsum.
      now rewrite Z.add_0_r in Hsum.
    + intros r Hr. destruct (owned_by uid r) eqn:Ho; [|reflexivity].
      rewrite Hall; [reflexivity|exact Hr|].
      unfold owned_by, opt_eqb in Ho. destruct (user_id r) as [u|]; [|discriminate].
      apply Z.eqb_eq in Ho. now subst.
  - destruct (get_api_jobs_positive st uid q p l Hp Hl Hlmax Homax) as (_ & _ & E).
    do 2 eexists. split; [exact E|]. simpl.
    rewrite (whereConditions_no_filters q Hq). unfold select_count, where_. simpl.
    do 3 f_equal. apply filter_ext. intros r. now rewrite andb_true_r.
Qed.

Lemma stats_sum_and_total_witness :
  exists s,
    get_api_stats Sample.one_job 1 = json 200 (BStats s)
    /\ status_sum s + other_status Sample.one_job 1 = s_total s
    /\ status_sum s <= s_total s
    /\ ((forall r, In r (job_applications Sample.one_job) -> user_id r = Some 1 ->
                   enumerated (status r) = true) ->
        status_sum s = s_total s)
    /\ exists rows pg,
         get_api_jobs Sample.one_job 1 (Sample.query Omitted None None)
         = json 200 (BJobs rows pg)
         /\ total pg = Js.of_Z (s_total s).
Proof.
  apply (stats_sum_and_total Sample.one_job 1 (Sample.query Omitted None None) 1 20).
  - split; reflexivity.
  - reflexivity.
  - reflexivity.
  - unfold Js.MAX_SAFE_INTEGER. lia.
  - unfold Js.MAX_SAFE_INTEGER. lia.
Defined.

(** C4, refuted as stated: after one Create with a status outside the five,
    a reachable store, Stats reports a total of 1 and five counts of 0. *)
Lemma stats_sum_below_total :
  reachable Sample.ghosted
  /\ get_api_stats Sample.ghosted 1
     = json 200 (BStats {| s_total := 1; s_applied := 0; s_interview := 0;
                           s_offer := 0; s_rejected := 0; s_withdrawn := 0 |})
  /\ status_sum (select_stats Sample.ghosted 1) <> s_total (select_stats Sample.ghosted 1).
Proof.
  split; [|split].
  - apply (reach_serve Sample.fresh
             (Create 200 1 (Sample.job_with_status "Acme" "Engineer" "ghosted"))).
    now apply reach_empty.
  - reflexivity.
  - vm_compute. discriminate.
Qed.

(** ** What Create and Update store *)

Lemma varchar_fits (n : nat) (s : string) :
  (String.length s <= n)%nat -> Pg.varchar n s = Some s.
Proof. intros H. unfold Pg.varchar. apply Nat.leb_le in H. now rewrite H. Qed.

Lemma varchar_null_replaced (n : nat) (f : field) (col : option string) :
  Pg.varchar_null n (param f) = Some col -> text_replaced (f, col).
Proof.
  intros H. split; simpl.
  - intros [-> | ->]; simpl in H; congruence.
  - intros ->. simpl in H. congruence.
Qed.

Lemma text_param_replaced (f : field) : text_replaced (f, param f).
Proof. split; simpl; [intros [-> | ->]|intros ->]; reflexivity. Qed.

Lemma date_in_replaced (f : datefield) (col : option Z) :
  date_in (or_null f) = Some col -> date_replaced (f, col).
Proof.
  intros H. unfold date_replaced. simpl.
  intros [-> | [-> | ->]]; simpl in H; congruence.
Qed.

(** The columns [coerce] yields, one by one. *)
Lemma job_params_columns (b : JobFields) (s : field) (c : Columns) :
  job_params b s = Some c ->
  c_job_url c = param (f_job_url b)
  /\ Pg.varchar_null 255 (param (f_location b)) = Some (c_location c)
  /\ Pg.varchar_null 100 (param (f_salary_range b)) = Some (c_salary_range c)
  /\ date_in (or_null (f_application_date b)) = Some (c_application_date c)
  /\ Pg.varchar_null 50 (param s) = Some (c_status c)
  /\ c_description c = param (f_description b)
  /\ c_requirements c = param (f_requirements b)
  /\ c_notes c = param (f_notes b)
  /\ Pg.varchar_null 255 (param (f_contact_person b)) = Some (c_contact_person c)
  /\ Pg.varchar_null 255 (param (f_contact_email b)) = Some (c_contact_email c)
  /\ date_in (or_null (f_follow_up_date b)) = Some (c_follow_up_date c).
Proof.
  unfold job_params, coerce, not_null, bind. intros H.
  destruct (param (f_company_name b)) as [cn0|]; [|discriminate].
  destruct (Pg.varchar 255 cn0) as [cn|]; [|discriminate].
  destruct (param (f_job_title b)) as [jt0|]; [|discriminate].
  destruct (Pg.varchar 255 jt0) as [jt|]; [|discriminate].
  destruct (Pg.varchar_null 255 (param (f_location b))) as [loc|]; [|discriminate].
  destruct (Pg.varchar_null 100 (param (f_salary_range b))) as [sal|]; [|discriminate].
  destruct (date_in (or_null (f_application_date b))) as [ad|]; [|discriminate].
  destruct (Pg.varchar_null 50 (param s)) as [stt|]; [|discriminate].
  destruct (Pg.varchar_null 255 (param (f_contact_person b))) as [cp|]; [|discriminate].
  destruct (Pg.varchar_null 255 (param (f_contact_email b))) as [ce|]; [|discriminate].
  destruct (date_in (or_null (f_follow_up_date b))) as [fd|]; [|discriminate].
  injection H as <-. simpl. repeat split.
Qed.


(** A 200 of Update, taken apart. *)
Lemma put_200_inv (st st' : Store) (now uid : Z) (i : Js.numtext) (b : JobFields)
    (r : Job) :
  put_api_jobs_id st now uid i b = (st', json 200 (BJob r)) ->
  exists n c r0 rest,
    i = Js.TInt n
    /\ Pg.int4in i = Some n
    /\ job_params b (f_status b) = Some c
    /\ filter (id_and_owner n uid) (job_applications st) = r0 :: rest
    /\ r = set_row now c r0
    /\ job_applications st'
       = map (fun x => if id_and_owner n uid x then set_row now c x else x)
             (job_applications st).
Proof.
  unfold put_api_jobs_id, update_job, bind.
  destruct i as [n|]; [|discriminate]. simpl Js.isNaN. cbv iota.
  destruct (missing_required b); [discriminate|].
  destruct (job_params b (f_status b)) as [c|]; [|discriminate].
  simpl Pg.int4in.
  destruct (Pg.in_range _ _ _) as [m|] eqn:Em; [|discriminate].
  pose proof (in_range_inv _ _ _ _ Em). subst m.
  destruct (filter (id_and_owner n uid) (job_applications st)) as [|r0 rest] eqn:Ef;
    [discriminate|].
  simpl map at 2. intros H. injection H as <- <-.
  exists n, c, r0, rest. repeat split. exact Ef.
Qed.

Lemma hit_set_row (n uid now : Z) (c : Columns) (x : Job) :
  id_and_owner n uid (set_row now c x) = id_and_owner n uid x.
Proof. reflexivity. Qed.

Lemma filter_hit_map (n uid now : Z) (c : Columns) (l : list Job) :
  filter (id_and_owner n uid)
         (map (fun x => if id_and_owner n uid x then set_row now c x else x) l)
  = map (set_row now c) (filter (id_and_owner n uid) l).
Proof.
  induction l as [|x l IH]; simpl; [reflexivity|].
  destruct (id_and_owner n uid x) eqn:E.
  - rewrite hit_set_row, E. simpl. now rewrite IH.
  - rewrite E. exact IH.
Qed.

Lemma hit_inv (n uid : Z) (x : Job) :
  id_and_owner n uid x = true -> id x = n /\ user_id x = Some uid.
Proof.
  unfold id_and_owner, owned_by, opt_eqb. intros H.
  apply andb_true_iff in H. destruct H as [H1 H2].
  apply Z.eqb_eq in H1. destruct (user_id x) as [u|]; [|discriminate].
  apply Z.eqb_eq in H2. now subst.
Qed.

(** Create goes through when the body passes validation, the store accepts
    its values, the sequence can hand out an identifier and the user is
    registered. *)
Lemma create_succeeds (st : Store) (now uid : Z) (b : JobFields) (c : Columns) :
  missing_required b = false ->
  job_params b (default (f_status b) "applied") = Some c ->
  next_id_free st -> registered st uid ->
  let r := new_row (job_applications_id_seq st) uid now c in
  exists st',
    post_api_jobs st now uid b = (st', json 201 (BJob r))
    /\ job_applications st' = (job_applications st ++ [r])%list.
Proof.
  intros Hm Hc [[Hlo Hhi] Hfree] (u & Hu & Hid) r. subst r.
  unfold post_api_jobs, insert_job, bind. rewrite Hm, Hc.
  unfold Pg.in_range.
  apply Z.leb_le in Hlo, Hhi. rewrite Hlo, Hhi. simpl andb. cbv iota.
  replace (existsb (fun r => id r =? job_applications_id_seq st) (job_applications st))
    with false.
  - replace (existsb (fun u0 => u_id u0 =? uid) (users st)) with true.
    + simpl negb. cbv iota. eexists. split; reflexivity.
    + symmetry. apply existsb_exists. exists u. split; [exact Hu|now apply Z.eqb_eq].
  - symmetry. apply not_true_is_false. intros H.
    apply existsb_exists in H. destruct H as (x & Hx & E).
    apply Z.eqb_eq in E. exact (Hfree x Hx E).
Qed.




(** ** Update is a full replacement *)

Lemma varchar_null_written (n : nat) (f : field) (col : option string) :
  Pg.varchar_null n (param f) = Some col -> text_written (Some n, f, col).
Proof.
  intros H s Hs Hfit. simpl in *. rewrite Hs in H. simpl in H.
  rewrite (varchar_fits _ _ Hfit) in H. simpl in H. congruence.
Qed.

Lemma text_param_written (f : field) : text_written (None, f, param f).
Proof. intros s Hs _. simpl in *. now rewrite Hs. Qed.

Lemma date_in_written (f : datefield) (col : option Z) :
  date_in (or_null f) = Some col -> date_written (f, col).
Proof. intros H d Hd. simpl in *. rewrite Hd in H. simpl in H. congruence. Qed.

(** The two NOT NULL columns [coerce] yields. *)
Lemma job_params_names (b : JobFields) (s : field) (c : Columns) :
  job_params b s = Some c ->
  (forall x, f_company_name b = Text x -> (String.length x <= 255)%nat ->
             c_company_name c = x)
  /\ (forall x, f_job_title b = Text x -> (String.length x <= 255)%nat ->
                c_job_title c = x).
Proof.
  unfold job_params, coerce, not_null, bind. intros H.
  destruct (param (f_company_name b)) as [cn0|] eqn:Ecn; [|discriminate].
  destruct (Pg.varchar 255 cn0) as [cn|] eqn:Vcn; [|discriminate].
  destruct (param (f_job_title b)) as [jt0|] eqn:Ejt; [|discriminate].
  destruct (Pg.varchar 255 jt0) as [jt|] eqn:Vjt; [|discriminate].
  destruct (Pg.varchar_null 255 (param (f_location b))) as [loc|]; [|discriminate].
  destruct (Pg.varchar_null 100 (param (f_salary_range b))) as [sal|]; [|discriminate].
  destruct (date_in (or_null (f_application_date b))) as [ad|]; [|discriminate].
  destruct (Pg.varchar_null 50 (param s)) as [stt|]; [|discriminate].
  destruct (Pg.varchar_null 255 (param (f_contact_person b))) as [cp|]; [|discriminate].
  destruct (Pg.varchar_null 255 (param (f_contact_email b))) as [ce|]; [|discriminate].
  destruct (date_in (or_null (f_follow_up_date b))) as [fd|]; [|discriminate].
  injection H as <-. cbn [c_company_name c_job_title]. split.
  - intros x Hx Hlen. rewrite Hx in Ecn. injection Ecn as <-.
    rewrite (varchar_fits _ _ Hlen) in Vcn. congruence.
  - intros x Hx Hlen. rewrite Hx in Ejt. injection Ejt as <-.
    rewrite (varchar_fits _ _ Hlen) in Vjt. congruence.
Qed.

(** C6, as the code has it. After a successful Update the record of that
    identifier is replaced: its thirteen data columns are the values of the
    request as the store takes them, none kept from before.  So the company
    name, the job title and every optional field the request supplies are
    stored as supplied (when they fit their column); an optional field the
    request omits (or gives as null) is stored as NULL, a blank date field
    as NULL and a blank text field as the empty string.  The updated_at
    timestamp is bumped to the store's current time, later than it was
    whenever the clock has advanced; identifier, owner and created_at stay;
    the other rows stay; and the record returned is the record stored, as a
    Get right after shows. *)
Theorem update_replaces_record (st st' : Store) (now uid : Z) (i : Js.numtext)
    (b : JobFields) (r : Job) :
  put_api_jobs_id st now uid i b = (st', json 200 (BJob r)) ->
  get_api_jobs_id st' uid i = json 200 (BJob r)
  /\ In r (job_applications st')
  /\ updated_at r = now
  /\ job_params b (f_status b) = Some (columns_of r)
  /\ (forall s, f_company_name b = Text s -> (String.length s <= 255)%nat ->
                company_name r = s)
  /\ (forall s, f_job_title b = Text s -> (String.length s <= 255)%nat ->
                job_title r = s)
  /\ Forall text_written (sized_columns b r)
  /\ Forall date_written (date_columns b r)
  /\ Forall text_replaced (text_columns b r)
  /\ Forall date_replaced (date_columns b r)
  /\ (exists r0, In r0 (job_applications st) /\ id r = id r0
                 /\ user_id r = user_id r0 /\ user_id r = Some uid
                 /\ created_at r = created_at r0
                 /\ (updated_at r0 < now -> updated_at r0 < updated_at r))
  /\ (forall x, In x (job_applications st) ->
                id x <> id r \/ user_id x <> Some uid ->
                In x (job_applications st')).
Proof.
  intros E. apply put_200_inv in E.
  destruct E as (n & c & r0 & rest & -> & Hn & Hc & Hf & -> & Hrows).
  assert (Hr0 : In r0 (filter (id_and_owner n uid) (job_applications st)))
    by (rewrite Hf; now left).
  apply filter_In in Hr0. destruct Hr0 as [Hin Hhit].
  destruct (hit_inv _ _ _ Hhit) as [Hid Hown].
  split.
  { unfold get_api_jobs_id, select_by_id. simpl Js.isNaN. cbv iota.
    rewrite Hn. unfold bind. rewrite Hrows, filter_hit_map, Hf. reflexivity. }
  split.
  { rewrite Hrows. apply in_map_iff. exists r0. now rewrite Hhit. }
  split; [reflexivity|].
  split.
  { rewrite Hc. f_equal. destruct c. reflexivity. }
  destruct (job_params_names _ _ _ Hc) as (Hcn & Hjt).
  split; [exact Hcn|]. split; [exact Hjt|].
  apply job_params_columns in Hc.
  destruct Hc as (Hurl & Hloc & Hsal & Had & Hst & Hdesc & Hreq & Hnot & Hcp & Hce & Hfd).
  split.
  { unfold sized_columns. simpl.
    rewrite Hurl, Hdesc, Hreq, Hnot.
    repeat constructor;
      solve [apply text_param_written | eapply varchar_null_written; eassumption]. }
  split.
  { unfold date_columns. simpl.
    repeat constructor; apply date_in_written; assumption. }
  split.
  { unfold text_columns. simpl.
    rewrite Hurl, Hdesc, Hreq, Hnot.
    repeat constructor;
      solve [apply text_param_replaced | eapply varchar_null_replaced; eassumption]. }
  split.
  { unfold date_columns. simpl.
    repeat constructor; apply date_in_replaced; assumption. }
  split.
  { exists r0. simpl. repeat split; try assumption. intros H; exact H. }
  intros x Hx Hne. rewrite Hrows. apply in_map_iff. exists x.
  split; [|exact Hx].
  destruct (id_and_owner n uid x) eqn:Ex; [|reflexivity].
  apply hit_inv in Ex. simpl in Hne. destruct Ex. exfalso. destruct Hne; congruence.
Qed.

(** The record before: every optional column holds a value. *)
Lemma filled_row :
  exists r0,
    job_applications Demo.filled = [r0]
    /\ location r0 = Some "Berlin" /\ job_url r0 = Some "https://acme.example/jobs/1"
    /\ status r0 = Some "applied" /\ notes r0 = Some "call back"
    /\ description r0 = Some "Backend" /\ follow_up_date r0 = Some 19010
    /\ updated_at r0 = 200.
Proof. eexists. repeat split. Qed.

Lemma update_replaces_record_witness :
  exists st' r,
    put_api_jobs_id Demo.filled 300 1 (Js.TInt 1) Demo.revised = (st', json 200 (BJob r))
    /\ get_api_jobs_id st' 1 (Js.TInt 1) = json 200 (BJob r)
    /\ company_name r = "Acme Ltd" /\ job_title r = "Lead"
    /\ location r = Some "Paris" /\ application_date r = Some 19024
    /\ job_url r = None /\ status r = None /\ description r = None
    /\ notes r = Some "" /\ follow_up_date r = None
    /\ updated_at r = 300 /\ created_at r = 200.
Proof.
  destruct (put_api_jobs_id Demo.filled 300 1 (Js.TInt 1) Demo.revised)
    as [st' res] eqn:E.
  assert (Hres : exists r, res = json 200 (BJob r)).
  { assert (H : snd (put_api_jobs_id Demo.filled 300 1 (Js.TInt 1) Demo.revised) = res)
      by (rewrite E; reflexivity).
    rewrite <- H. eexists. reflexivity. }
  destruct Hres as (r & ->). exists st', r. split; [reflexivity|].
  destruct (update_replaces_record _ _ _ _ _ _ _ E)
    as (Hget & _ & Hup & _ & Hcn & Hjt & Hw & Hd & Ht & Hdr & (r0 & Hin & _ & _ & _ & Hcr & _) & _).
  split; [exact Hget|].
  split; [apply Hcn; [reflexivity|simpl; lia]|].
  split; [apply Hjt; [reflexivity|simpl; lia]|].
  unfold sized_columns in Hw. unfold text_columns in Ht. unfold date_columns in Hd, Hdr.
  repeat match goal with
         | H : Forall _ (_ :: _) |- _ => apply Forall_cons_iff in H; destruct H
         end.
  split.
  { match goal with
    | H : text_written (_, _, location r) |- _ =>
        apply (H "Paris"); [reflexivity|simpl; lia]
    end. }
  split.
  { match goal with
    | H : date_written (_, application_date r) |- _ => apply (H 19024); reflexivity
    end. }
  split.
  { match goal with
    | H : text_replaced (_, job_url r) |- _ => apply (proj1 H); left; reflexivity
    end. }
  split.
  { match goal with
    | H : text_replaced (_, status r) |- _ => apply (proj1 H); left; reflexivity
    end. }
  split.
  { match goal with
    | H : text_replaced (_, description r) |- _ => apply (proj1 H); right; reflexivity
    end. }
  split.
  { match goal with
    | H : text_replaced (_, notes r) |- _ => apply (proj2 H); reflexivity
    end. }
  split.
  { match goal with
    | H : date_replaced (_, follow_up_date r) |- _ =>
        apply H; right; right; reflexivity
    end. }
  split; [exact Hup|].
  rewrite Hcr. destruct Hin as [<-|[]]. reflexivity.
Defined.

(** C6, refuted as stated: an Update whose notes field is the blank string
    stores the empty string in [notes], not NULL. *)
Lemma update_blank_text_kept_empty :
  exists st' r,
    put_api_jobs_id Sample.one_job 300 1 (Js.TInt 1) (Sample.job_blank_notes "Acme" "Lead")
    = (st', json 200 (BJob r))
    /\ f_notes (Sample.job_blank_notes "Acme" "Lead") = Text ""
    /\ In r (job_applications st')
    /\ notes r = Some "" /\ notes r <> None.
Proof.
  eexists. eexists. split; [reflexivity|]. split; [reflexivity|].
  split; [now left|]. split; [reflexivity|discriminate].
Qed.

(** ** The company filter *)

Lemma like_any_now (k : string -> bool) (t : string) :
  k t = true -> Pg.like_any k t = true.
Proof. intros H. destruct t; simpl; now rewrite H. Qed.

(** [%] alone matches every text. *)
Lemma like_percent (t : string) : Pg.like "%" t = true.
Proof.
  simpl. induction t as [|c t IH]; [reflexivity|].
  simpl. exact IH.
Qed.

(** The pattern the handler builds from the filter [%] matches every
    company name. *)
Lemma ilike_percent (name : string) : Pg.ilike name ("%" ++ "%" ++ "%") = true.
Proof.
  unfold Pg.ilike. change (Pg.lower ("%" ++ "%" ++ "%")) with "%%%".
  change (Pg.like "%%%" (Pg.lower name))
    with (Pg.like_any (Pg.like_any (Pg.like "%")) (Pg.lower name)).
  apply like_any_now, like_any_now, like_percent.
Qed.

(** For a filter without [%], [_] and backslash the ILIKE of the handler is
    the literal case-insensitive substring match. *)
Lemma lower_app (a b : string) : Pg.lower (a ++ b) = Pg.lower a ++ Pg.lower b.
Proof. induction a as [|c a IH]; simpl; [reflexivity|now rewrite IH]. Qed.

Lemma plain_lower_ascii (a : ascii) :
  plain_ascii a = true -> plain_ascii (Pg.lower_ascii a) = true.
Proof.
  destruct a as [[] [] [] [] [] [] [] []]; vm_compute; intros H; solve [exact H | reflexivity].
Qed.

Lemma plain_lower (s : string) : plain s = true -> plain (Pg.lower s) = true.
Proof.
  induction s as [|a s IH]; simpl; [reflexivity|].
  intros H. apply andb_true_iff in H. destruct H as [Ha Hs].
  now rewrite (plain_lower_ascii a Ha), IH.
Qed.

Lemma like_plain_prefix (p t : string) :
  plain p = true -> Pg.like (p ++ "%") t = String.prefix p t.
Proof.
  revert t. induction p as [|a p IH]; intros t Hp.
  - change (Pg.like ("" ++ "%") t) with (Pg.like "%" t). rewrite like_percent.
    now destruct t.
  - simpl in Hp. apply andb_true_iff in Hp. destruct Hp as [Ha Hp].
    unfold plain_ascii in Ha. apply andb_true_iff in Ha. destruct Ha as [Ha H3].
    apply andb_true_iff in Ha. destruct Ha as [H1 H2].
    apply negb_true_iff in H1, H2, H3.
    change (Pg.like (String a p ++ "%") t)
      with (if Ascii.eqb a "%" then Pg.like_any (Pg.like (p ++ "%")) t
            else if Ascii.eqb a "_" then
              match t with
              | String _ t' => Pg.like (p ++ "%") t'
              | EmptyString => false
              end
            else if Ascii.eqb a "\" then
              match p ++ "%" with
              | String e p'' =>
                  match t with
                  | String d t' => Ascii.eqb e d && Pg.like p'' t'
                  | EmptyString => false
                  end
              | EmptyString => false
              end
            else
              match t with
              | String d t' => Ascii.eqb a d && Pg.like (p ++ "%") t'
              | EmptyString => false
              end).
    rewrite H1, H2, H3. destruct t as [|d t]; simpl; [reflexivity|].
    destruct (ascii_dec a d) as [->|Hne].
    + rewrite Ascii.eqb_refl. simpl. now apply IH.
    + apply Ascii.eqb_neq in Hne. now rewrite Hne.
Qed.

Lemma like_any_ext (k k' : string -> bool) (t : string) :
  (forall x, k x = k' x) -> Pg.like_any k t = Pg.like_any k' t.
Proof.
  intros H. induction t as [|c t IH]; simpl; rewrite H; [reflexivity|now rewrite IH].
Qed.

Lemma like_any_prefix (p t : string) : Pg.like_any (String.prefix p) t = contains p t.
Proof.
  induction t as [|c t IH]; simpl; [reflexivity|now rewrite IH].
Qed.

Lemma ilike_plain (c name : string) :
  plain c = true -> Pg.ilike name ("%" ++ c ++ "%") = contains_ci c name.
Proof.
  intros Hc. unfold Pg.ilike, contains_ci.
  change (Pg.lower ("%" ++ c ++ "%")) with (String "%" (Pg.lower (c ++ "%"))).
  rewrite lower_app. change (Pg.lower "%") with "%".
  change (Pg.like (String "%" (Pg.lower c ++ "%")) (Pg.lower name))
    with (Pg.like_any (Pg.like (Pg.lower c ++ "%")) (Pg.lower name)).
  rewrite (like_any_ext _ (String.prefix (Pg.lower c))).
  - apply like_any_prefix.
  - intros x. apply like_plain_prefix. now apply plain_lower.
Qed.

(** C10. The company filter is put unescaped between two [%] into the
    pattern of an ILIKE, so [%] and [_] in it are wildcards: the filter [%]
    selects every company name, and List with the filter [%], or [a_m],
    returns the record of company Acme, whose name contains neither as a
    literal substring (in any letter case). *)
Theorem company_filter_is_a_pattern :
  (forall (s : field) (a : ascii) (c : string) (p l : option Js.numtext),
      In (CompanyILike ("%" ++ String a c ++ "%"))
         (whereConditions {| q_status := s; q_company := Text (String a c);
                             q_page := p; q_limit := l |}))
  /\ (forall name, Pg.ilike name ("%" ++ "%" ++ "%") = true)
  /\ (exists r pg,
         get_api_jobs Sample.one_job 1 (Sample.query (Text "%") None None)
         = json 200 (BJobs [r] pg)
         /\ company_name r = "Acme" /\ contains_ci "%" (company_name r) = false)
  /\ (exists r pg,
         get_api_jobs Sample.one_job 1 (Sample.query (Text "a_m") None None)
         = json 200 (BJobs [r] pg)
         /\ company_name r = "Acme" /\ contains_ci "a_m" (company_name r) = false).
Proof.
  split; [|split; [|split]].
  - intros s a c p l. unfold whereConditions. simpl q_company. simpl q_status.
    apply in_or_app. right.
    replace (truthy (Text (String a c))) with true by reflexivity.
    now left.
  - exact ilike_percent.
  - do 2 eexists. split; [reflexivity|]. split; reflexivity.
  - do 2 eexists. split; [reflexivity|]. split; reflexivity.
Qed.

(** ** The primary key holds in every reachable store *)

Lemma primary_key_insert (st st' : Store) (now uid : Z) (c : option Columns)
    (row : Job) :
  primary_key st -> insert_job st now uid c = Some (st', row) -> primary_key st'.
Proof.
  intros [Hnd Hr] H. unfold insert_job, bind in H.
  destruct c as [c|]; [|discriminate].
  destruct (Pg.in_range _ _ _) as [i|] eqn:Ei; [|discriminate].
  destruct (existsb _ (job_applications st)) eqn:Ex; [discriminate|].
  destruct (negb _); [discriminate|].
  injection H as <- _. unfold primary_key. simpl. split.
  - rewrite map_app. simpl.
    apply NoDup_app.
    + exact Hnd.
    + repeat constructor. intros [].
    + intros x Hx [<-|[]].
      apply in_map_iff in Hx. destruct Hx as (r & E & Hin).
      assert (Hex : existsb (fun r0 => id r0 =? i) (job_applications st) = true).
      { apply existsb_exists. exists r. split; [exact Hin|]. now apply Z.eqb_eq. }
      congruence.
  - apply Forall_app. split; [exact Hr|].
    constructor; [|constructor]. simpl.
    unfold Pg.in_range in Ei.
    destruct (Pg.int4_min <=? _) eqn:E1; [|discriminate].
    destruct (_ <=? Pg.int4_max) eqn:E2; [|discriminate].
    injection Ei as <-. apply Z.leb_le in E1, E2. split; assumption.
Qed.

Lemma primary_key_update (st st' : Store) (now uid : Z) (c : option Columns)
    (i : Js.numtext) (rows : list Job) :
  primary_key st -> update_job st now c i uid = Some (st', rows) -> primary_key st'.
Proof.
  intros [Hnd Hr] H. unfold update_job, bind in H.
  destruct c as [c|]; [|discriminate].
  destruct (Pg.int4in i) as [n|]; [|discriminate].
  injection H as <- _. unfold primary_key. simpl. split.
  - rewrite map_map.
    erewrite map_ext; [exact Hnd|].
    intros r. now destruct (id_and_owner n uid r).
  - apply Forall_map. eapply Forall_impl; [|exact Hr].
    intros r Hi. now destruct (id_and_owner n uid r).
Qed.

(** Deleting rows keeps the identifiers distinct. *)
Lemma distinct_ids_filter (keep : Job -> bool) (rows : list Job) :
  NoDup (map id rows) -> NoDup (map id (filter keep rows)).
Proof.
  induction rows as [|r rows IH]; simpl; intros Hnd; [constructor|].
  inversion Hnd as [|? ? Hfresh Hrest]; subst.
  destruct (keep r); simpl; [|now apply IH].
  constructor; [|now apply IH].
  intros Hin. apply Hfresh. apply in_map_iff in Hin.
  destruct Hin as (x & E & Hx). apply filter_In in Hx.
  apply in_map_iff. exists x. tauto.
Qed.

Lemma primary_key_delete (st st' : Store) (uid : Z) (i : Js.numtext) (rows : list Job) :
  primary_key st -> delete_job st i uid = Some (st', rows) -> primary_key st'.
Proof.
  intros [Hnd Hr] H. unfold delete_job, bind in H.
  destruct (Pg.int4in i) as [n|]; [|discriminate].
  injection H as <- _. unfold primary_key. simpl. split.
  - now apply distinct_ids_filter.
  - rewrite Forall_forall in *. intros r Hin. apply filter_In in Hin. now apply Hr.
Qed.

Lemma primary_key_serve (st : Store) (r : request) :
  primary_key st -> primary_key (serve st r).
Proof.
  intros Hpk. destruct r as [now uid b|now uid i b|uid i]; simpl.
  - unfold post_api_jobs. destruct (missing_required b); [exact Hpk|].
    destruct (insert_job _ _ _ _) as [[st' row]|] eqn:E; [|exact Hpk].
    now apply primary_key_insert in E.
  - unfold put_api_jobs_id. destruct (Js.isNaN i); [exact Hpk|].
    destruct (missing_required b); [exact Hpk|].
    destruct (update_job _ _ _ _ _) as [[st' rows]|] eqn:E; [|exact Hpk].
    apply primary_key_update in E; [|exact Hpk]. now destruct rows.
  - unfold delete_api_jobs_id. destruct (Js.isNaN i); [exact Hpk|].
    destruct (delete_job _ _ _) as [[st' rows]|] eqn:E; [|exact Hpk].
    apply primary_key_delete in E; [|exact Hpk]. now destruct rows.
Qed.

Lemma reachable_primary_key (st : Store) : reachable st -> primary_key st.
Proof.
  induction 1 as [st Hempty|st r _ IH].
  - unfold primary_key. rewrite Hempty. split; constructor.
  - now apply primary_key_serve.
Qed.

(** The owner's Update of a record of theirs goes through when the body
    passes validation and the store accepts its values. *)
Lemma update_succeeds (st : Store) (now uid : Z) (r0 : Job) (b : JobFields)
    (c : Columns) :
  primary_key st -> In r0 (job_applications st) -> user_id r0 = Some uid ->
  missing_required b = false -> job_params b (f_status b) = Some c ->
  exists st',
    put_api_jobs_id st now uid (Js.TInt (id r0)) b
    = (st', json 200 (BJob (set_row now c r0))).
Proof.
  intros Hpk Hin Hown Hm Hc.
  unfold put_api_jobs_id, update_job, bind. simpl Js.isNaN. cbv iota.
  rewrite Hm, Hc, (int4in_id st r0 Hpk Hin).
  assert (Hhit : id_and_owner (id r0) uid r0 = true).
  { unfold id_and_owner, owned_by. rewrite Hown, Z.eqb_refl. simpl. apply Z.eqb_refl. }
  assert (Hf : In r0 (filter (id_and_owner (id r0) uid) (job_applications st)))
    by (apply filter_In; now split).
  destruct (filter (id_and_owner (id r0) uid) (job_applications st)) as [|r1 rest] eqn:Ef;
    [contradiction|].
  assert (Hr1 : In r1 (filter (id_and_owner (id r0) uid) (job_applications st)))
    by (rewrite Ef; now left).
  apply filter_In in Hr1. destruct Hr1 as [Hin1 Hhit1].
  apply hit_inv in Hhit1. destruct Hhit1 as [Hid1 _].
  destruct Hpk as [Hnd _].
  rewrite (NoDup_map_inj id _ r1 r0 Hnd Hin1 Hin Hid1).
  simpl map. eexists. reflexivity.
Qed.

(** * Further properties of the handlers *)

(** ** The token middleware *)

Lemma split_word (w t : string) :
  no_space w = true -> split " " (w ++ String " " t) = w :: split " " t.
Proof.
  induction w as [|c w IH]; simpl; intros H; [reflexivity|].
  apply andb_true_iff in H. destruct H as [Hc Hw].
  apply negb_true_iff in Hc. rewrite Hc, (IH Hw). reflexivity.
Qed.

Lemma split_one_word (w : string) : no_space w = true -> split " " w = [w].
Proof.
  induction w as [|c w IH]; simpl; intros H; [reflexivity|].
  apply andb_true_iff in H. destruct H as [Hc Hw].
  apply negb_true_iff in Hc. rewrite Hc, (IH Hw). reflexivity.
Qed.

Lemma append_empty_r (s : string) : s ++ "" = s.
Proof. induction s as [|c s IH]; simpl; [reflexivity|now rewrite IH]. Qed.

Section MiddlewareProperties.

Variable jwt_verify : string -> option Token.

(** X1. [authenticateToken] answers 401 "Access token required" when the
    request has no Authorization header, when the header holds no space
    (a single word, or nothing), and when the word after the first space is
    empty (the header ends there, or a second space follows at once). *)
Theorem authenticateToken_requires_second_word :
  authenticateToken jwt_verify None = Reply (json 401 (BError "Access token required"))
  /\ (forall w, no_space w = true ->
        authenticateToken jwt_verify (Some w)
        = Reply (json 401 (BError "Access token required")))
  /\ (forall w, no_space w = true ->
        authenticateToken jwt_verify (Some (w ++ " "))
        = Reply (json 401 (BError "Access token required")))
  /\ (forall w rest, no_space w = true ->
        authenticateToken jwt_verify (Some (w ++ "  " ++ rest))
        = Reply (json 401 (BError "Access token required"))).
Proof.
  split; [reflexivity|]. split; [|split].
  - intros w Hw. unfold authenticateToken.
    destruct (w =? "")%string eqn:E.
    + now rewrite E.
    + now rewrite (split_one_word w Hw).
  - intros w Hw. unfold authenticateToken.
    destruct (w ++ " " =? "")%string eqn:E.
    + now rewrite E.
    + now rewrite (split_word w "" Hw).
  - intros w rest Hw. unfold authenticateToken.
    destruct (w ++ "  " ++ rest =? "")%string eqn:E.
    + now rewrite E.
    + change (w ++ "  " ++ rest) with (w ++ String " " (String " " rest)).
      now rewrite (split_word w _ Hw).
Qed.

(** X2. When the header is a first word, a space and a non-empty second
    word (alone, or followed by a space and anything), [authenticateToken]
    lets [jwt.verify] decide on that second word: the request goes on with
    the verified payload, or is answered 403.  The first word is not looked
    at (it need not be "Bearer"), nor is what follows the second word. And
    a request only ever goes on with a payload [jwt.verify] accepted. *)
Theorem authenticateToken_verifies_second_word :
  (forall w t rest,
      no_space w = true -> no_space t = true -> t <> "" ->
      rest = "" \/ (exists r, rest = String " " r) ->
      authenticateToken jwt_verify (Some (w ++ " " ++ t ++ rest))
      = match jwt_verify t with
        | Some user => Next user
        | None => Reply (json 403 (BError "Invalid or expired token"))
        end)
  /\ (forall h user,
        authenticateToken jwt_verify h = Next user ->
        exists t, t <> "" /\ jwt_verify t = Some user).
Proof.
  split.
  - intros w t rest Hw Ht Hne Hrest. unfold authenticateToken.
    assert (Hsplit : nth_error (split " " (w ++ " " ++ t ++ rest)) 1 = Some t).
    { change (w ++ " " ++ t ++ rest) with (w ++ String " " (t ++ rest)).
      rewrite (split_word w _ Hw). simpl.
      destruct Hrest as [->|(r & ->)].
      - rewrite append_empty_r. now rewrite (split_one_word t Ht).
      - now rewrite (split_word t r Ht). }
    destruct (w ++ " " ++ t ++ rest =? "")%string eqn:E.
    + apply String.eqb_eq in E. destruct w; discriminate.
    + rewrite Hsplit. apply String.eqb_neq in Hne. now rewrite Hne.
  - intros h user H. unfold authenticateToken in H.
    destruct (match h with
              | Some h0 => if (h0 =? "")%string then Some h0
                           else nth_error (split " " h0) 1
              | None => None
              end) as [t|]; [|discriminate].
    destruct (t =? "")%string eqn:E; [discriminate|].
    destruct (jwt_verify t) as [u|] eqn:Ev; [|discriminate].
    injection H as <-. exists t. split; [now apply String.eqb_neq|exact Ev].
Qed.

End MiddlewareProperties.

Lemma authenticateToken_requires_second_word_witness :
  authenticateToken Demo.verify (Some "Bearer")
  = Reply (json 401 (BError "Access token required"))
  /\ authenticateToken Demo.verify (Some "Bearer ")
     = Reply (json 401 (BError "Access token required"))
  /\ authenticateToken Demo.verify (Some "Bearer  good.token")
     = Reply (json 401 (BError "Access token required")).
Proof.
  destruct (authenticateToken_requires_second_word Demo.verify) as (_ & H1 & H2 & H3).
  split; [exact (H1 "Bearer" eq_refl)|].
  split; [exact (H2 "Bearer" eq_refl)|exact (H3 "Bearer" "good.token" eq_refl)].
Defined.

Lemma authenticateToken_verifies_second_word_witness :
  authenticateToken Demo.verify (Some "Basic good.token and more")
  = Next {| tok_userId := 1; tok_username := "alice"; tok_iat := 0; tok_exp := 604800 |}
  /\ authenticateToken Demo.verify (Some "Bearer forged")
     = Reply (json 403 (BError "Invalid or expired token")).
Proof.
  destruct (authenticateToken_verifies_second_word Demo.verify) as (H & _).
  split.
  - apply (H "Basic" "good.token" " and more" eq_refl eq_refl).
    + discriminate.
    + right. exists "and more". reflexivity.
  - apply (H "Bearer" "forged" "" eq_refl eq_refl).
    + discriminate.
    + left. reflexivity.
Defined.

(** ** Registration, login and the users table *)

Lemma varchar_nonempty (n : nat) (s s' : string) :
  Pg.varchar (S n) s = Some s' -> s <> "" -> s' <> "".
Proof.
  unfold Pg.varchar. intros H Hs.
  destruct (String.length s <=? S n)%nat; [congruence|].
  destruct (Pg.all_spaces _); [|discriminate].
  injection H as <-. destruct s as [|c s]; [congruence|]. simpl. discriminate.
Qed.

Lemma filter_app_last {A} (p : A -> bool) (l : list A) (x : A) :
  (forall y, In y l -> p y = false) -> p x = true -> filter p (l ++ [x]) = [x].
Proof.
  intros Hl Hx. rewrite filter_app, (filter_nil p l Hl). simpl. now rewrite Hx.
Qed.

Section AuthRoundTrips.

Variable bcrypt_hash : string -> nat -> string -> string.
Variable bcrypt_compare : string -> string -> bool.

(** A 201 of Register, taken apart. *)
Lemma register_201_body (st st' : Store) (now iat : Z) (salt : string) (b : AuthBody)
    (m : string) (tok : Token) (pu : PublicUser) :
  post_api_auth_register bcrypt_hash st now iat salt b
  = (st', json 201 (BAuth m tok pu)) ->
  exists p n e h,
    let u := {| u_id := users_id_seq st; u_username := n; u_email := e;
                u_password_hash := h; u_created_at := now; u_updated_at := now |} in
    p_password b = Plain (Text p)
    /\ truthy (p_username b) = true /\ truthy (p_email b) = true
    /\ truthy (Text p) = true
    /\ Pg.varchar 50 (text_of (p_username b)) = Some n
    /\ Pg.varchar 255 (text_of (p_email b)) = Some e
    /\ Pg.varchar 255 (bcrypt_hash p 12 salt) = Some h
    /\ (forall x, In x (users st) ->
                  u_id x <> users_id_seq st /\ u_username x <> n /\ u_email x <> e)
    /\ users st' = (users st ++ [u])%list
    /\ job_applications st' = job_applications st
    /\ tok = jwt_sign (users_id_seq st) n iat
    /\ pu = {| pu_id := users_id_seq st; pu_username := n; pu_email := e;
               pu_created_at := Some now |}
    /\ users_id_seq st' = users_id_seq st + 1.
Proof.
  unfold post_api_auth_register, insert_user, bind.
  destruct (truthy (p_username b)) eqn:Hn; [|discriminate].
  destruct (truthy (p_email b)) eqn:He; [|discriminate].
  destruct (secret_truthy (p_password b)) eqn:Hp; [|discriminate].
  simpl negb. simpl orb. cbv iota.
  destruct (shorter_than_6 _); [discriminate|].
  destruct (0 <? List.length _)%nat; [discriminate|].
  destruct (p_password b) as [[| |p]|k|v]; try discriminate.
  cbn [text_of].
  destruct (Pg.varchar 50 _) as [n|] eqn:En; [|discriminate].
  destruct (Pg.varchar 255 (text_of (p_email b))) as [e|] eqn:Ee; [|discriminate].
  destruct (Pg.varchar 255 (bcrypt_hash _ _ _)) as [h|] eqn:Eh; [|discriminate].
  destruct (Pg.in_range _ _ _) as [i|] eqn:Ei; [|discriminate].
  apply in_range_inv in Ei. subst i.
  destruct (existsb _ (users st)) eqn:Ex; [discriminate|].
  intros H. injection H as <- <- <- <-.
  exists p, n, e, h. cbn zeta. cbn [users job_applications users_id_seq].
  split; [reflexivity|]. split; [reflexivity|]. split; [reflexivity|].
  split; [exact Hp|]. split; [reflexivity|]. split; [reflexivity|].
  split; [exact Eh|]. split.
  - intros x Hx. apply not_true_iff_false in Ex.
    repeat split; intros E; apply Ex; apply existsb_exists; exists x;
      (split; [assumption|]); rewrite !orb_true_iff.
    + left; left. now apply Z.eqb_eq.
    + left; right. now apply String.eqb_eq.
    + right. now apply String.eqb_eq.
  - repeat split; reflexivity.
Qed.

(** The same for a body whose password is a string or absent. *)
Lemma register_201_inv (st st' : Store) (now iat : Z) (salt : string) (b : Credentials)
    (m : string) (tok : Token) (pu : PublicUser) :
  post_api_auth_register bcrypt_hash st now iat salt b
  = (st', json 201 (BAuth m tok pu)) ->
  exists n e h,
    let u := {| u_id := users_id_seq st; u_username := n; u_email := e;
                u_password_hash := h; u_created_at := now; u_updated_at := now |} in
    truthy (a_username b) = true /\ truthy (a_email b) = true
    /\ truthy (a_password b) = true
    /\ Pg.varchar 50 (text_of (a_username b)) = Some n
    /\ Pg.varchar 255 (text_of (a_email b)) = Some e
    /\ Pg.varchar 255 (bcrypt_hash (text_of (a_password b)) 12 salt) = Some h
    /\ (forall x, In x (users st) ->
                  u_id x <> users_id_seq st /\ u_username x <> n /\ u_email x <> e)
    /\ users st' = (users st ++ [u])%list
    /\ job_applications st' = job_applications st
    /\ tok = jwt_sign (users_id_seq st) n iat
    /\ pu = {| pu_id := users_id_seq st; pu_username := n; pu_email := e;
               pu_created_at := Some now |}.
Proof.
  intros H. apply register_201_body in H.
  destruct H as (p & n & e & h & Ep & Hn & He & Hp & En & Ee & Eh & Hfree & Hu & Hj & Ht & Hpu & _).
  cbn [of_credentials p_username p_email p_password] in *.
  injection Ep as Ep. exists n, e, h. rewrite Ep. cbn [text_of].
  repeat split; try assumption; apply Hfree; assumption.
Qed.

(** Register either leaves the store as it is or answers 201. *)
Lemma register_cases (st st' : Store) (now iat : Z) (salt : string) (b : AuthBody)
    (r : Response) :
  post_api_auth_register bcrypt_hash st now iat salt b = (st', r) ->
  st' = st \/ exists m tok pu, r = json 201 (BAuth m tok pu).
Proof.
  unfold post_api_auth_register.
  destruct (_ || _); [intros H; injection H as <- _; now left|].
  destruct (shorter_than_6 _); [intros H; injection H as <- _; now left|].
  destruct (0 <? _)%nat; [intros H; injection H as <- _; now left|].
  destruct (p_password b) as [f|k|v]; try (intros H; injection H as <- _; now left).
  destruct (insert_user _ _ _ _ _) as [[st1 u]|].
  - intros H. injection H as <- <-. right. do 3 eexists. reflexivity.
  - intros H. injection H as <- _. now left.
Qed.

Lemma NoDup_map_snoc {A B} (f : A -> B) (l : list A) (u : A) :
  NoDup (map f l) -> (forall x, In x l -> f x <> f u) -> NoDup (map f (l ++ [u])).
Proof.
  intros Hnd Hu. rewrite map_app. simpl. apply NoDup_app.
  - exact Hnd.
  - repeat constructor. intros [].
  - intros y Hy [<-|[]]. apply in_map_iff in Hy. destruct Hy as (x & E & Hx).
    exact (Hu x Hx E).
Qed.




(** X4. Login right after a successful Register, with the same email and
    password, answers 200 with a token and public fields of the registered
    user, provided [bcrypt.compare] accepts the password against the hash
    [bcrypt.hash] made of it (and email and hash are within the column
    length, so that they are stored as they are). *)
Theorem register_then_login (st st' : Store) (now iat now' : Z) (salt : string)
    (b : Credentials) (m : string) (tok : Token) (pu : PublicUser) :
  post_api_auth_register bcrypt_hash st now iat salt b
  = (st', json 201 (BAuth m tok pu)) ->
  (String.length (text_of (a_email b)) <= 255)%nat ->
  (String.length (bcrypt_hash (text_of (a_password b)) 12 salt) <= 255)%nat ->
  bcrypt_compare (text_of (a_password b))
                 (bcrypt_hash (text_of (a_password b)) 12 salt) = true ->
  post_api_auth_login bcrypt_compare st' now' b
  = json 200 (BAuth "Login successful"
                {| tok_userId := pu_id pu; tok_username := pu_username pu;
                   tok_iat := now'; tok_exp := now' + 604800 |}
                {| pu_id := pu_id pu; pu_username := pu_username pu;
                   pu_email := pu_email pu; pu_created_at := None |})
  /\ tok_userId tok = pu_id pu
  /\ pu_email pu = text_of (a_email b).
Proof.
  intros H He255 Hh255 Hcmp. apply register_201_inv in H.
  destruct H as (n & e & h & Hn & He & Hp & _ & Eem & Eh & Hfree & Husers & _ & -> & ->).
  rewrite (varchar_fits _ _ He255) in Eem. injection Eem as <-.
  rewrite (varchar_fits _ _ Hh255) in Eh. injection Eh as <-.
  unfold post_api_auth_login.
  cbn [of_credentials p_email p_password secret_truthy].
  rewrite He, Hp. simpl negb. simpl orb. cbv iota.
  unfold select_by_email. rewrite Husers.
  rewrite filter_app_last.
  - simpl u_password_hash. rewrite Hcmp. simpl. repeat split.
  - intros y Hy. destruct (Hfree y Hy) as (_ & _ & H). now apply String.eqb_neq.
  - apply String.eqb_refl.
Qed.

(** X5. After a successful Register, a second Register with the email or
    with the username of the new user (username, email and password
    present, the password a string of at least 6 characters as
    [password.length] counts them) answers 409 and leaves the store as the
    first one made it. *)
Theorem register_again_conflicts (st st' : Store) (now iat now2 iat2 : Z)
    (salt salt2 : string) (b b2 : Credentials) (m : string) (tok : Token)
    (pu : PublicUser) :
  post_api_auth_register bcrypt_hash st now iat salt b
  = (st', json 201 (BAuth m tok pu)) ->
  ~ missing_or_empty (a_username b2) -> ~ missing_or_empty (a_email b2) ->
  ~ missing_or_empty (a_password b2) ->
  (6 <= Js.length (text_of (a_password b2)))%nat ->
  text_of (a_email b2) = pu_email pu \/ text_of (a_username b2) = pu_username pu ->
  post_api_auth_register bcrypt_hash st' now2 iat2 salt2 b2
  = (st', json 409 (BError "User with this email or username already exists")).
Proof.
  intros H Hn He Hp Hlen Hsame. apply register_201_inv in H.
  destruct H as (n & e & h & _ & _ & _ & _ & _ & _ & _ & Husers & _ & _ & ->).
  simpl in Hsame.
  apply truthy_true_iff in Hn, He, Hp.
  unfold post_api_auth_register.
  cbn [of_credentials p_username p_email p_password secret_truthy shorter_than_6].
  rewrite Hn, He, Hp. simpl negb. simpl orb. cbv iota.
  apply Nat.ltb_ge in Hlen. rewrite Hlen.
  rewrite (select_existing_hit st' _ _
             {| u_id := users_id_seq st; u_username := n; u_email := e;
                u_password_hash := h; u_created_at := now; u_updated_at := now |}).
  - reflexivity.
  - rewrite Husers. apply in_or_app. right. now left.
  - simpl. destruct Hsame as [E|E]; [left|right]; now symmetry.
Qed.

(** X6. Register keeps the identifiers, the user names and the emails of
    [users] pairwise distinct, whatever it answers. *)
Theorem register_keeps_users_unique (st st' : Store) (now iat : Z) (salt : string)
    (b : Credentials) (r : Response) :
  users_unique st ->
  post_api_auth_register bcrypt_hash st now iat salt b = (st', r) ->
  users_unique st'.
Proof.
  intros Hu H. destruct (register_cases _ _ _ _ _ _ _ H) as [->|(m & tok & pu & ->)];
    [exact Hu|].
  apply register_201_inv in H.
  destruct H as (n & e & h & _ & _ & _ & _ & _ & _ & Hfree & Husers & _).
  destruct Hu as (H1 & H2 & H3). unfold users_unique. rewrite Husers.
  split; [|split]; apply NoDup_map_snoc; try assumption;
    intros x Hx; destruct (Hfree x Hx) as (F1 & F2 & F3); assumption.
Qed.

End AuthRoundTrips.


Lemma register_then_login_witness :
  post_api_auth_login Sample.compare
    (fst (post_api_auth_register Sample.hash Sample.fresh 300 1700000000 "$2a$12$"
            Demo.carol))
    400 Demo.carol
  = json 200 (BAuth "Login successful"
                {| tok_userId := 3; tok_username := "carol";
                   tok_iat := 400; tok_exp := 400 + 604800 |}
                {| pu_id := 3; pu_username := "carol";
                   pu_email := "carol@example.com"; pu_created_at := None |}).
Proof.
  refine (proj1 (register_then_login Sample.hash Sample.compare Sample.fresh
                   (fst (post_api_auth_register Sample.hash Sample.fresh 300 1700000000
                           "$2a$12$" Demo.carol))
                   300 1700000000 400 "$2a$12$" Demo.carol "User created successfully"
                   {| tok_userId := 3; tok_username := "carol";
                      tok_iat := 1700000000; tok_exp := 1700000000 + 604800 |}
                   {| pu_id := 3; pu_username := "carol";
                      pu_email := "carol@example.com"; pu_created_at := Some 300 |}
                   eq_refl _ _ eq_refl)).
  - simpl. lia.
  - simpl. lia.
Defined.

Lemma register_again_conflicts_witness :
  let st' := fst (post_api_auth_register Sample.hash Sample.fresh 300 1700000000
                    "$2a$12$" Demo.carol) in
  post_api_auth_register Sample.hash st' 500 1700000200 "$2a$12$"
    (Sample.credentials (Text "caroline") (Text "carol@example.com") (Text "another"))
  = (st', json 409 (BError "User with this email or username already exists")).
Proof.
  refine (register_again_conflicts Sample.hash Sample.fresh _ 300 1700000000
            500 1700000200 "$2a$12$" "$2a$12$"
            Demo.carol
            (Sample.credentials (Text "caroline") (Text "carol@example.com")
               (Text "another"))
            "User created successfully"
            {| tok_userId := 3; tok_username := "carol";
               tok_iat := 1700000000; tok_exp := 1700000000 + 604800 |}
            {| pu_id := 3; pu_username := "carol";
               pu_email := "carol@example.com"; pu_created_at := Some 300 |}
            eq_refl _ _ _ _ _).
  - supplied.
  - supplied.
  - supplied.
  - vm_compute. lia.
  - left. reflexivity.
Defined.

Lemma register_keeps_users_unique_witness :
  users_unique
    (fst (post_api_auth_register Sample.hash Sample.fresh 300 1700000000 "$2a$12$"
            Demo.carol)).
Proof.
  apply (register_keeps_users_unique Sample.hash Sample.fresh _ 300 1700000000 "$2a$12$"
           Demo.carol
           (snd (post_api_auth_register Sample.hash Sample.fresh 300 1700000000 "$2a$12$"
                   Demo.carol))).
  - repeat split; simpl; repeat constructor; simpl; intuition discriminate.
  - reflexivity.
Defined.

(** ** Create, Delete and what they leave in the store *)

(** A 201 of Create, with the checks the INSERT made. *)
Lemma post_201_checks (st st' : Store) (now uid : Z) (b : JobFields) (r : Job) :
  post_api_jobs st now uid b = (st', json 201 (BJob r)) ->
  exists c,
    missing_required b = false
    /\ job_params b (default (f_status b) "applied") = Some c
    /\ r = new_row (job_applications_id_seq st) uid now c
    /\ is_int4 (job_applications_id_seq st)
    /\ (forall x, In x (job_applications st) -> id x <> job_applications_id_seq st)
    /\ registered st uid
    /\ job_applications st' = (job_applications st ++ [r])%list
    /\ job_applications_id_seq st' = job_applications_id_seq st + 1
    /\ users st' = users st.
Proof.
  unfold post_api_jobs, insert_job, bind.
  destruct (missing_required b); [discriminate|].
  destruct (job_params b (default (f_status b) "applied")) as [c|]; [|discriminate].
  destruct (Pg.in_range _ _ _) as [i|] eqn:Ei; [|discriminate].
  pose proof (in_range_inv _ _ _ _ Ei). subst i.
  destruct (existsb _ (job_applications st)) eqn:Ex; [discriminate|].
  destruct (existsb _ (users st)) eqn:Eu; simpl negb; cbv iota; [|discriminate].
  intros H. injection H as <- <-. exists c. simpl.
  repeat split; try reflexivity.
  - unfold Pg.in_range in Ei. destruct (Pg.int4_min <=? _) eqn:E1; [|discriminate].
    now apply Z.leb_le.
  - unfold Pg.in_range in Ei. destruct (Pg.int4_min <=? _); [|discriminate].
    destruct (_ <=? Pg.int4_max) eqn:E2; [|discriminate]. now apply Z.leb_le.
  - intros x Hx E. apply not_true_iff_false in Ex. apply Ex.
    apply existsb_exists. exists x. split; [exact Hx|now apply Z.eqb_eq].
  - apply existsb_exists in Eu. destruct Eu as (u & Hu & E).
    exists u. split; [exact Hu|now apply Z.eqb_eq].
Qed.

Lemma owned_by_iff (uid : Z) (r : Job) : owned_by uid r = true <-> user_id r = Some uid.
Proof.
  unfold owned_by, opt_eqb. destruct (user_id r) as [u|].
  - rewrite Z.eqb_eq. split; congruence.
  - split; discriminate.
Qed.

(** X7. After a Create answered 201, a Get of the new identifier by the
    same user answers 200 with the very record Create returned.  That
    record is the one row added to the table; its identifier is the next of
    the sequence and was used by no row; it is owned by the caller, who is a
    registered user; both timestamps are the time of the request; a date
    field that was omitted, null or blank is stored as NULL; and the total
    of the caller's statistics has grown by one. *)
Theorem create_then_get (st st' : Store) (now uid : Z) (b : JobFields) (r : Job) :
  post_api_jobs st now uid b = (st', json 201 (BJob r)) ->
  get_api_jobs_id st' uid (Js.TInt (id r)) = json 200 (BJob r)
  /\ job_applications st' = (job_applications st ++ [r])%list
  /\ id r = job_applications_id_seq st
  /\ (forall x, In x (job_applications st) -> id x <> id r)
  /\ user_id r = Some uid /\ registered st uid
  /\ created_at r = now /\ updated_at r = now
  /\ Forall date_replaced (date_columns b r)
  /\ s_total (select_stats st' uid) = s_total (select_stats st uid) + 1.
Proof.
  intros H. apply post_201_checks in H.
  destruct H as (c & _ & Hc & -> & [Hlo Hhi] & Hfree & Hreg & Hrows & _ & _).
  simpl id. simpl user_id. simpl created_at. simpl updated_at.
  split.
  { unfold get_api_jobs_id, select_by_id, bind. simpl Js.isNaN. cbv iota.
    simpl Pg.int4in. unfold Pg.in_range.
    apply Z.leb_le in Hlo, Hhi. rewrite Hlo, Hhi. simpl andb. cbv iota.
    rewrite Hrows, filter_app_last; [reflexivity| |].
    - intros y Hy. unfold id_and_owner.
      replace (id y =? job_applications_id_seq st) with false; [reflexivity|].
      symmetry. apply Z.eqb_neq. now apply Hfree.
    - unfold id_and_owner, owned_by. simpl. now rewrite !Z.eqb_refl. }
  split; [exact Hrows|]. split; [reflexivity|]. split; [exact Hfree|].
  split; [reflexivity|]. split; [exact Hreg|].
  split; [reflexivity|]. split; [reflexivity|].
  split.
  { apply job_params_columns in Hc.
    destruct Hc as (_ & _ & _ & Had & _ & _ & _ & _ & _ & _ & Hfd).
    unfold date_columns. simpl.
    repeat constructor; apply date_in_replaced; assumption. }
  unfold select_stats. simpl s_total. rewrite Hrows, filter_app, length_app.
  simpl. unfold owned_by at 2. simpl. rewrite Z.eqb_refl. simpl. lia.
Qed.

Lemma create_then_get_witness :
  let res := post_api_jobs Sample.one_job 210 2 (Sample.job "Globex" "Analyst") in
  exists r,
    snd res = json 201 (BJob r)
    /\ get_api_jobs_id (fst res) 2 (Js.TInt (id r)) = json 200 (BJob r)
    /\ id r = 2 /\ user_id r = Some 2 /\ application_date r = None.
Proof.
  intros res.
  assert (E : res = (fst res,
                     json 201 (BJob (new_row 2 2 210
                       {| c_company_name := "Globex"; c_job_title := "Analyst";
                          c_job_url := None; c_location := None;
                          c_salary_range := None; c_application_date := None;
                          c_status := Some "applied"; c_description := None;
                          c_requirements := None; c_notes := None;
                          c_contact_person := None; c_contact_email := None;
                          c_follow_up_date := None |}))))
    by reflexivity.
  eexists. split; [rewrite E; reflexivity|].
  destruct (create_then_get _ _ _ _ _ _ E) as (Hget & _).
  split; [exact Hget|]. repeat split.
Defined.

(** Every identifier of a reachable store lies below the sequence. *)
Lemma below_seq_serve (st : Store) (q : request) : below_seq st -> below_seq (serve st q).
Proof.
  intros Hb. unfold below_seq in *. destruct q as [now uid b|now uid i b|uid i]; simpl.
  - destruct (post_api_jobs st now uid b) as [st' res] eqn:E. simpl.
    unfold post_api_jobs, insert_job, bind in E.
    destruct (missing_required b); [injection E as <- _; exact Hb|].
    destruct (job_params _ _) as [c|]; [|injection E as <- _; exact Hb].
    destruct (Pg.in_range _ _ _) as [n|] eqn:En; [|injection E as <- _; exact Hb].
    apply in_range_inv in En. subst n.
    destruct (existsb _ (job_applications st)); [injection E as <- _; exact Hb|].
    destruct (negb _); [injection E as <- _; exact Hb|].
    injection E as <- _. simpl. apply Forall_app. split.
    + eapply Forall_impl; [|exact Hb]. simpl. intros; lia.
    + repeat constructor. simpl. lia.
  - destruct (put_api_jobs_id st now uid i b) as [st' res] eqn:E. simpl.
    unfold put_api_jobs_id, update_job, bind in E.
    destruct (Js.isNaN i); [injection E as <- _; exact Hb|].
    destruct (missing_required b); [injection E as <- _; exact Hb|].
    destruct (job_params _ _) as [c|]; [|injection E as <- _; exact Hb].
    destruct (Pg.int4in i) as [n|]; [|injection E as <- _; exact Hb].
    assert (Hst : Forall (fun r => id r < job_applications_id_seq st)
                    (map (fun r => if id_and_owner n uid r then set_row now c r else r)
                         (job_applications st))).
    { apply Forall_map. eapply Forall_impl; [|exact Hb].
      intros r Hr. now destruct (id_and_owner n uid r). }
    destruct (map (set_row now c) _); injection E as <- _; exact Hst.
  - destruct (delete_api_jobs_id st uid i) as [st' res] eqn:E. simpl.
    unfold delete_api_jobs_id, delete_job, bind in E.
    destruct (Js.isNaN i); [injection E as <- _; exact Hb|].
    destruct (Pg.int4in i) as [n|]; [|injection E as <- _; exact Hb].
    assert (Hst : Forall (fun r => id r < job_applications_id_seq st)
                    (filter (fun r => negb (id_and_owner n uid r)) (job_applications st))).
    { rewrite Forall_forall in *. intros r Hr. apply filter_In in Hr. now apply Hb. }
    destruct (filter (id_and_owner n uid) _); injection E as <- _; exact Hst.
Qed.

Lemma reachable_below_seq (st : Store) : reachable st -> below_seq st.
Proof.
  induction 1 as [st Hempty|st q _ IH].
  - unfold below_seq. rewrite Hempty. constructor.
  - now apply below_seq_serve.
Qed.

(** X8. In a store reached from an empty table, a Create by a registered
    user whose body passes validation and is accepted by the store answers
    201 as long as the sequence is within the 32-bit range: the identifier
    it hands out never clashes with a row of the table. *)
Theorem create_in_reachable_store (st : Store) (now uid : Z) (b : JobFields) :
  reachable st -> registered st uid -> is_int4 (job_applications_id_seq st) ->
  ~ missing_or_empty (f_company_name b) -> ~ missing_or_empty (f_job_title b) ->
  job_params b (default (f_status b) "applied") <> None ->
  exists st' r,
    post_api_jobs st now uid b = (st', json 201 (BJob r))
    /\ id r = job_applications_id_seq st
    /\ In r (job_applications st')
    /\ reachable st'.
Proof.
  intros Hreach Hreg Hseq Hcn Hjt Hok.
  assert (Hm : missing_required b = false).
  { destruct (missing_required b) eqn:E; [|reflexivity].
    apply missing_required_iff in E. tauto. }
  destruct (job_params b (default (f_status b) "applied")) as [c|] eqn:Hc; [|congruence].
  assert (Hfree : next_id_free st).
  { split; [exact Hseq|]. intros r Hr.
    pose proof (reachable_below_seq st Hreach) as Hb. unfold below_seq in Hb.
    rewrite Forall_forall in Hb. specialize (Hb r Hr). lia. }
  destruct (create_succeeds st now uid b c Hm Hc Hfree Hreg) as (st' & E & Hrows).
  exists st', (new_row (job_applications_id_seq st) uid now c).
  split; [exact E|]. split; [reflexivity|]. split.
  - rewrite Hrows. apply in_or_app. right. now left.
  - replace st' with (serve st (Create now uid b)) by (simpl; now rewrite E).
    now apply reach_serve.
Qed.

Lemma create_in_reachable_store_witness :
  exists st' r,
    post_api_jobs Demo.busy 300 2 (Sample.job "Umbrella" "Chemist")
    = (st', json 201 (BJob r))
    /\ id r = 5 /\ In r (job_applications st') /\ reachable st'.
Proof.
  apply (create_in_reachable_store Demo.busy 300 2 (Sample.job "Umbrella" "Chemist")).
  - apply (reach_serve _ (Create 230 1 (Sample.job "Hooli" "Engineer"))).
    apply (reach_serve _ (Create 220 1 (Sample.job_with_status "Initech" "Manager"
                                          "interview"))).
    apply (reach_serve _ (Create 210 2 (Sample.job "Globex" "Analyst"))).
    apply (reach_serve Sample.fresh (Create 200 1 (Sample.job "Acme" "Engineer"))).
    now apply reach_empty.
  - exists Sample.bob. split; [right; now left|reflexivity].
  - split; vm_compute; discriminate.
  - supplied.
  - supplied.
  - discriminate.
Defined.

(** A 200 of Delete, taken apart. *)
Lemma delete_200_inv (st st' : Store) (uid : Z) (i : Js.numtext) (m : string) (r : Job) :
  delete_api_jobs_id st uid i = (st', json 200 (BDeleted m r)) ->
  exists n rest,
    i = Js.TInt n /\ Pg.int4in i = Some n
    /\ filter (id_and_owner n uid) (job_applications st) = r :: rest
    /\ job_applications st'
       = filter (fun x => negb (id_and_owner n uid x)) (job_applications st).
Proof.
  unfold delete_api_jobs_id, delete_job, bind.
  destruct i as [n|]; [|discriminate]. simpl Js.isNaN. cbv iota.
  simpl Pg.int4in.
  destruct (Pg.in_range _ _ _) as [k|] eqn:Ek; [|discriminate].
  pose proof (in_range_inv _ _ _ _ Ek). subst k.
  destruct (filter (id_and_owner n uid) (job_applications st)) as [|r0 rest] eqn:Ef;
    [discriminate|].
  intros H. injection H as <- _ <-. exists n, rest. repeat split; assumption.
Qed.

(** X9. After a Delete answered 200, the record it returns was a row of the
    caller with the identifier asked for and is in the table no more: a Get
    and a second Delete of that identifier answer 404, the second leaving
    the store as it is; the rows that remain are exactly the former rows of
    another identifier or another owner. *)
Theorem delete_removes_record (st st' : Store) (uid : Z) (i : Js.numtext)
    (m : string) (r : Job) :
  delete_api_jobs_id st uid i = (st', json 200 (BDeleted m r)) ->
  In r (job_applications st) /\ i = Js.TInt (id r) /\ user_id r = Some uid
  /\ ~ In r (job_applications st')
  /\ get_api_jobs_id st' uid i = json 404 (BError "Job application not found")
  /\ delete_api_jobs_id st' uid i = (st', json 404 (BError "Job application not found"))
  /\ (forall x, In x (job_applications st')
                <-> In x (job_applications st)
                    /\ (id x <> id r \/ user_id x <> Some uid)).
Proof.
  intros H. apply delete_200_inv in H.
  destruct H as (n & rest & -> & Hn & Hf & Hrows).
  assert (Hr : In r (filter (id_and_owner n uid) (job_applications st)))
    by (rewrite Hf; now left).
  apply filter_In in Hr. destruct Hr as [Hin Hhit].
  destruct (hit_inv _ _ _ Hhit) as [Hid Hown]. subst n.
  assert (Hnone : forall x, In x (job_applications st') ->
                            id_and_owner (id r) uid x = false).
  { intros x Hx. rewrite Hrows in Hx. apply filter_In in Hx.
    now apply negb_true_iff. }
  split; [exact Hin|]. split; [reflexivity|]. split; [exact Hown|].
  split.
  { intros Hx. apply Hnone in Hx. congruence. }
  rewrite get_no_hit, delete_no_hit by exact Hnone. rewrite Hn.
  split; [reflexivity|]. split; [reflexivity|].
  intros x. rewrite Hrows, filter_In. split.
  - intros [Hx Hh]. split; [exact Hx|]. apply negb_true_iff in Hh.
    unfold id_and_owner in Hh. apply andb_false_iff in Hh.
    destruct Hh as [Hh|Hh]; [left; now apply Z.eqb_neq|right].
    intros E. apply owned_by_iff in E. congruence.
  - intros [Hx Hne]. split; [exact Hx|]. apply negb_true_iff.
    destruct (id_and_owner (id r) uid x) eqn:E; [|reflexivity].
    apply hit_inv in E. destruct E. destruct Hne; contradiction.
Qed.

Lemma delete_removes_record_witness :
  let res := delete_api_jobs_id Demo.busy 1 (Js.TInt 3) in
  exists r,
    snd res = json 200 (BDeleted "Job application deleted successfully" r)
    /\ company_name r = "Initech"
    /\ get_api_jobs_id (fst res) 1 (Js.TInt 3)
       = json 404 (BError "Job application not found").
Proof.
  intros res.
  assert (E : res = (fst res,
                     json 200 (BDeleted "Job application deleted successfully"
                       (new_row 3 1 220
                          {| c_company_name := "Initech"; c_job_title := "Manager";
                             c_job_url := None; c_location := None;
                             c_salary_range := None; c_application_date := None;
                             c_status := Some "interview"; c_description := None;
                             c_requirements := None; c_notes := None;
                             c_contact_person := None; c_contact_email := None;
                             c_follow_up_date := None |}))))
    by reflexivity.
  eexists. split; [rewrite E; reflexivity|]. split; [reflexivity|].
  destruct (delete_removes_record _ _ _ _ _ _ E) as (_ & _ & _ & _ & Hget & _).
  exact Hget.
Defined.

(** ** One user's writes and another user's reads *)

Lemma rows_of_update (uid other now n : Z) (c : Columns) (l : list Job) :
  uid <> other ->
  filter (owned_by uid)
         (map (fun r => if id_and_owner n other r then set_row now c r else r) l)
  = filter (owned_by uid) l.
Proof.
  intros Hne. induction l as [|r l IH]; simpl; [reflexivity|]. rewrite IH.
  destruct (id_and_owner n other r) eqn:E; [|reflexivity].
  apply hit_inv in E. destruct E as [_ Hown].
  replace (owned_by uid (set_row now c r)) with false.
  - replace (owned_by uid r) with false; [reflexivity|].
    symmetry. apply not_true_iff_false. rewrite owned_by_iff. congruence.
  - symmetry. apply not_true_iff_false. rewrite owned_by_iff. simpl. congruence.
Qed.

Lemma rows_of_delete (uid other n : Z) (l : list Job) :
  uid <> other ->
  filter (owned_by uid) (filter (fun r => negb (id_and_owner n other r)) l)
  = filter (owned_by uid) l.
Proof.
  intros Hne. induction l as [|r l IH]; simpl; [reflexivity|].
  destruct (id_and_owner n other r) eqn:E; simpl; rewrite IH; [|reflexivity].
  apply hit_inv in E. destruct E as [_ Hown].
  replace (owned_by uid r) with false; [reflexivity|].
  symmetry. apply not_true_iff_false. rewrite owned_by_iff. congruence.
Qed.

(** A write made for another user leaves the rows of [uid] as they are. *)
Lemma rows_of_serve (st : Store) (q : request) (uid : Z) :
  request_user q <> uid -> rows_of (serve st q) uid = rows_of st uid.
Proof.
  intros Hne. unfold rows_of.
  destruct q as [now other b|now other i b|other i]; simpl in *.
  - unfold post_api_jobs, insert_job, bind.
    destruct (missing_required b); [reflexivity|].
    destruct (job_params _ _) as [c|]; [|reflexivity].
    destruct (Pg.in_range _ _ _) as [n|]; [|reflexivity].
    destruct (existsb _ (job_applications st)); [reflexivity|].
    destruct (negb _); [reflexivity|]. simpl.
    rewrite filter_app. simpl.
    replace (owned_by uid (new_row n other now c)) with false;
      [now rewrite app_nil_r|].
    symmetry. apply not_true_iff_false. rewrite owned_by_iff. simpl. congruence.
  - unfold put_api_jobs_id, update_job, bind.
    destruct (Js.isNaN i); [reflexivity|].
    destruct (missing_required b); [reflexivity|].
    destruct (job_params _ _) as [c|]; [|reflexivity].
    destruct (Pg.int4in i) as [n|]; [|reflexivity].
    assert (E : filter (owned_by uid)
                  (job_applications
                     (set_jobs st
                        (map (fun r => if id_and_owner n other r then set_row now c r
                                       else r) (job_applications st))))
                = filter (owned_by uid) (job_applications st))
      by (simpl; apply rows_of_update; congruence).
    destruct (map (set_row now c) _); exact E.
  - unfold delete_api_jobs_id, delete_job, bind.
    destruct (Js.isNaN i); [reflexivity|].
    destruct (Pg.int4in i) as [n|]; [|reflexivity].
    assert (E : filter (owned_by uid)
                  (job_applications
                     (set_jobs st
                        (filter (fun r => negb (id_and_owner n other r))
                                (job_applications st))))
                = filter (owned_by uid) (job_applications st))
      by (simpl; apply rows_of_delete; congruence).
    destruct (filter (id_and_owner n other) _); exact E.
Qed.

(** The three reading handlers see the table through the rows of the
    caller alone. *)
Lemma filter_filter {A} (p q : A -> bool) (l : list A) :
  filter p (filter q l) = filter (fun x => q x && p x) l.
Proof.
  induction l as [|x l IH]; simpl; [reflexivity|].
  destruct (q x); simpl; [destruct (p x)|]; now rewrite IH.
Qed.

Lemma reads_through_rows_of (st st' : Store) (uid : Z) :
  rows_of st' uid = rows_of st uid ->
  (forall q, get_api_jobs st' uid q = get_api_jobs st uid q)
  /\ (forall i, get_api_jobs_id st' uid i = get_api_jobs_id st uid i)
  /\ get_api_stats st' uid = get_api_stats st uid.
Proof.
  unfold rows_of. intros E.
  assert (Hw : forall conds,
             filter (where_ uid conds) (job_applications st')
             = filter (where_ uid conds) (job_applications st)).
  { intros conds. unfold where_.
    rewrite <- !(filter_filter (fun r => forallb (holds r) conds) (owned_by uid)).
    now rewrite E. }
  assert (Hi : forall n,
             filter (id_and_owner n uid) (job_applications st')
             = filter (id_and_owner n uid) (job_applications st)).
  { intros n.
    assert (Hx : forall l, filter (id_and_owner n uid) l
                           = filter (fun r => id r =? n) (filter (owned_by uid) l)).
    { intros l. rewrite filter_filter. apply filter_ext. intros r. apply andb_comm. }
    now rewrite !Hx, E. }
  assert (Hs : forall s,
             count_status st' uid s = count_status st uid s).
  { intros s. unfold count_status.
    rewrite <- !(filter_filter (fun r => opt_eqb String.eqb (status r) (Some s))
                               (owned_by uid)).
    now rewrite E. }
  split; [|split].
  - intros q. unfold get_api_jobs, select_page, select_count. now rewrite Hw.
  - intros i. unfold get_api_jobs_id, select_by_id, bind.
    destruct (Js.isNaN i); [reflexivity|].
    destruct (Pg.int4in i) as [n|]; [|reflexivity]. now rewrite Hi.
  - unfold get_api_stats, select_stats. now rewrite !Hs, E.
Qed.

(** X10. A Create, an Update or a Delete made for one user changes nothing
    of what another user reads: List (whatever the query), Get (whatever the
    identifier) and Stats answer that other user after the request exactly
    as before it. *)
Theorem writes_leave_other_users_reads (st : Store) (q : request) (uid : Z) :
  request_user q <> uid ->
  (forall lq, get_api_jobs (serve st q) uid lq = get_api_jobs st uid lq)
  /\ (forall i, get_api_jobs_id (serve st q) uid i = get_api_jobs_id st uid i)
  /\ get_api_stats (serve st q) uid = get_api_stats st uid.
Proof.
  intros Hne. apply reads_through_rows_of. now apply rows_of_serve.
Qed.

Lemma writes_leave_other_users_reads_witness :
  get_api_stats (serve Demo.busy (Delete 2 (Js.TInt 2))) 1 = get_api_stats Demo.busy 1
  /\ get_api_jobs (serve Demo.busy (Delete 2 (Js.TInt 2))) 1
       (Sample.query Omitted None None)
     = get_api_jobs Demo.busy 1 (Sample.query Omitted None None).
Proof.
  destruct (writes_leave_other_users_reads Demo.busy (Delete 2 (Js.TInt 2)) 1)
    as (Hl & _ & Hs).
  - simpl. discriminate.
  - split; [exact Hs|apply Hl].
Defined.

(** ** What List returns *)

Lemma newest_first_insert (r : Job) (l : list Job) :
  newest_first l -> newest_first (insert_desc r l).
Proof.
  unfold newest_first. induction l as [|y l IH]; simpl; intros Hs.
  - repeat constructor.
  - inversion Hs as [|? ? Hl Hy]; subst.
    destruct (created_at y <? created_at r) eqn:E.
    + apply Z.ltb_lt in E. constructor; [exact Hs|].
      constructor; [lia|]. eapply Forall_impl; [|exact Hy]. simpl. intros; lia.
    + apply Z.ltb_ge in E. constructor; [now apply IH|].
      rewrite Forall_forall in *. intros x Hx. apply In_insert_desc in Hx.
      destruct Hx as [->|Hx]; [exact E|now apply Hy].
Qed.

Lemma newest_first_order_by (l : list Job) : newest_first (order_by_created_at_desc l).
Proof.
  unfold order_by_created_at_desc. induction l as [|y l IH]; simpl.
  - constructor.
  - now apply newest_first_insert.
Qed.

Lemma newest_first_skipn (n : nat) (l : list Job) :
  newest_first l -> newest_first (skipn n l).
Proof.
  unfold newest_first. revert l. induction n as [|n IH]; intros l Hs; [exact Hs|].
  destruct l as [|x l]; [exact Hs|]. simpl. apply IH. now inversion Hs.
Qed.

Lemma newest_first_firstn (n : nat) (l : list Job) :
  newest_first l -> newest_first (firstn n l).
Proof.
  unfold newest_first. revert l. induction n as [|n IH]; intros l Hs; [constructor|].
  destruct l as [|x l]; [constructor|]. simpl.
  inversion Hs as [|? ? Hl Hx]; subst. constructor; [now apply IH|].
  rewrite Forall_forall in *. intros y Hy. apply Hx.
  revert Hy. clear. revert l. induction n as [|n IH]; intros l Hy; [contradiction|].
  destruct l as [|z l]; [contradiction|]. destruct Hy as [->|Hy]; [now left|].
  right. now apply IH.
Qed.

(** A 200 of List, taken apart. *)
Lemma get_200_inv (st : Store) (uid : Z) (q : ListQuery) (rows : list Job)
    (pg : Pagination) :
  get_api_jobs st uid q = json 200 (BJobs rows pg) ->
  exists l o,
    Pg.int8in (Js.default (q_limit q) 20) = Some l /\ 0 <= l /\ 0 <= o
    /\ rows = firstn (Z.to_nat l)
                (skipn (Z.to_nat o)
                   (order_by_created_at_desc
                      (filter (where_ uid (whereConditions q)) (job_applications st))))
    /\ total pg = Js.of_Z (select_count st uid (whereConditions q)).
Proof.
  unfold get_api_jobs, select_page, limit_offset, bind.
  destruct (Pg.int8in (Js.default (q_limit q) 20)) as [l|]; [|discriminate].
  destruct (Pg.int8in (Js.VNum _)) as [o|]; [|discriminate].
  destruct (l <? 0) eqn:El; [discriminate|].
  destruct (o <? 0) eqn:Eo; [discriminate|]. simpl orb. cbv iota.
  intros H. injection H as <- <-. exists l, o.
  apply Z.ltb_ge in El, Eo. repeat split; assumption.
Qed.

(** X11. Every job of a List answered 200 is a row of the table owned by
    the caller; with a status filter its status is the filter's, and with a
    company filter its company name matches the ILIKE pattern made of the
    filter. *)
Theorem list_only_own_matching (st : Store) (uid : Z) (q : ListQuery)
    (rows : list Job) (pg : Pagination) :
  get_api_jobs st uid q = json 200 (BJobs rows pg) ->
  Forall (fun r =>
            In r (job_applications st) /\ user_id r = Some uid
            /\ (~ missing_or_empty (q_status q) ->
                status r = Some (text_of (q_status q)))
            /\ (~ missing_or_empty (q_company q) ->
                Pg.ilike (company_name r) ("%" ++ text_of (q_company q) ++ "%") = true))
         rows.
Proof.
  intros H. apply get_200_inv in H. destruct H as (l & o & _ & _ & _ & -> & _).
  apply Forall_forall. intros r Hr.
  apply In_firstn_skipn in Hr. apply (proj1 (In_order_by _ _)) in Hr.
  apply filter_In in Hr.
  destruct Hr as [Hin Hw]. unfold where_ in Hw. apply andb_true_iff in Hw.
  destruct Hw as [Hown Hc]. rewrite forallb_forall in Hc.
  split; [exact Hin|]. split; [now apply owned_by_iff|]. split.
  - intros Hs. apply truthy_true_iff in Hs.
    assert (Hh : holds r (StatusEq (text_of (q_status q))) = true).
    { apply Hc. unfold whereConditions. rewrite Hs. apply in_or_app. left. now left. }
    simpl in Hh. unfold opt_eqb in Hh. destruct (status r) as [x|]; [|discriminate].
    apply String.eqb_eq in Hh. now subst.
  - intros Hs. apply truthy_true_iff in Hs.
    apply (Hc (CompanyILike ("%" ++ text_of (q_company q) ++ "%"))).
    unfold whereConditions. rewrite Hs. apply in_or_app. right. now left.
Qed.

Lemma list_only_own_matching_witness :
  Forall (fun r =>
            In r (job_applications Demo.busy) /\ user_id r = Some 1
            /\ (~ missing_or_empty (Text "interview") -> status r = Some "interview")
            /\ (~ missing_or_empty Omitted ->
                Pg.ilike (company_name r) ("%" ++ "" ++ "%") = true))
         (response_jobs
            (get_api_jobs Demo.busy 1
               {| q_status := Text "interview"; q_company := Omitted;
                  q_page := None; q_limit := None |})).
Proof.
  apply (list_only_own_matching Demo.busy 1
           {| q_status := Text "interview"; q_company := Omitted;
              q_page := None; q_limit := None |}
           _ {| page := Js.of_Z 1; limit := Js.of_Z 20; total := Js.of_Z 1;
                totalPages := Js.of_Z 1 |}).
  reflexivity.
Defined.

(** X12. The jobs of a List answered 200 come newest first (by created_at),
    and there are no more of them than the limit: than the limit given as
    an integer, than 20 when none is given. *)
Theorem list_newest_first_within_limit (st : Store) (uid : Z) (q : ListQuery)
    (rows : list Job) (pg : Pagination) :
  get_api_jobs st uid q = json 200 (BJobs rows pg) ->
  newest_first rows
  /\ (forall l, q_limit q = Some (Js.TInt l) -> (List.length rows <= Z.to_nat l)%nat)
  /\ (q_limit q = None -> (List.length rows <= 20)%nat).
Proof.
  intros H. apply get_200_inv in H. destruct H as (l & o & Hl & _ & _ & -> & _).
  split; [apply newest_first_firstn, newest_first_skipn, newest_first_order_by|].
  split.
  - intros l' E. rewrite E in Hl. simpl in Hl. apply in_range_inv in Hl. subst l'.
    apply firstn_le_length.
  - intros E. rewrite E in Hl.
    unfold Js.default, Pg.int8in in Hl. rewrite to_integer_of_Z in Hl.
    apply in_range_inv in Hl. subst l. apply (firstn_le_length 20).
Qed.

Lemma list_newest_first_within_limit_witness :
  newest_first
    (response_jobs (get_api_jobs Demo.busy 1 (Sample.query Omitted None (Some (Js.TInt 2)))))
  /\ (List.length
        (response_jobs
           (get_api_jobs Demo.busy 1 (Sample.query Omitted None (Some (Js.TInt 2)))))
      <= 2)%nat.
Proof.
  destruct (list_newest_first_within_limit Demo.busy 1
              (Sample.query Omitted None (Some (Js.TInt 2)))
              (response_jobs
                 (get_api_jobs Demo.busy 1 (Sample.query Omitted None (Some (Js.TInt 2)))))
              {| page := Js.of_Z 1; limit := Js.of_Z 2; total := Js.of_Z 3;
                 totalPages := Js.of_Z 2 |} eq_refl) as (Hs & Hl & _).
  split; [exact Hs|exact (Hl 2 eq_refl)].
Defined.

Lemma firstn_add {A} (a b : nat) (l : list A) :
  firstn (a + b) l = (firstn a l ++ firstn b (skipn a l))%list.
Proof.
  revert l. induction a as [|a IH]; intros l; [reflexivity|].
  destruct l as [|x l]; simpl.
  - now rewrite firstn_nil.
  - now rewrite IH.
Qed.

Lemma NoDup_firstn {A} (n : nat) (l : list A) : NoDup l -> NoDup (firstn n l).
Proof.
  intros H. rewrite <- (firstn_skipn n l) in H. now apply NoDup_app_remove_r in H.
Qed.

(** Sorting rows of distinct creation times leaves each of them once. *)
Lemma NoDup_order_by (l : list Job) :
  distinct_times l -> NoDup (order_by_created_at_desc l).
Proof.
  intros H. apply NoDup_map_inv in H.
  apply NoDup_incl_NoDup with (l := l); [exact H|now rewrite length_order_by|].
  intros x Hx. now apply In_order_by.
Qed.

(** X13. When no two matching rows have the same creation time: asking
    List for the pages 1, 2, ..., n of a positive limit L, the store and the
    filters staying the same, and putting the answers one after the other
    gives the first n * L matching rows in newest-first order, each once;
    with n * L at least the number of matching rows, it gives them all. *)
Theorem pages_partition (st : Store) (uid : Z) (q : ListQuery) (L : Z) (n : nat) :
  0 < L -> L <= Js.MAX_SAFE_INTEGER -> Z.of_nat n * L <= Js.MAX_SAFE_INTEGER ->
  distinct_times (filter (where_ uid (whereConditions q)) (job_applications st)) ->
  let matching := order_by_created_at_desc
                    (filter (where_ uid (whereConditions q)) (job_applications st)) in
  let pages := List.concat (map (fun p => response_jobs
                                       (get_api_jobs st uid (page_query q (Z.of_nat p) L)))
                           (seq 1 n)) in
  pages = firstn (n * Z.to_nat L) matching
  /\ NoDup pages
  /\ (select_count st uid (whereConditions q) <= Z.of_nat n * L -> pages = matching).
Proof.
  intros HL HLmax Hn Hdistinct matching pages.
  assert (Hpages : pages = firstn (n * Z.to_nat L) matching).
  { subst pages. induction n as [|n IH]; [reflexivity|].
    rewrite seq_S, map_app, concat_app, IH by lia. cbn [map List.concat].
    rewrite app_nil_r.
    remember (Z.of_nat (1 + n)) as P eqn:HP.
    destruct (get_api_jobs_positive st uid (page_query q P L) P L) as (_ & _ & E).
    - simpl. lia.
    - simpl. lia.
    - exact HLmax.
    - lia.
    - rewrite E. unfold response_jobs, json. cbn [res_json].
      change (whereConditions (page_query q P L)) with (whereConditions q).
      fold matching.
      replace (Z.to_nat ((P - 1) * L)) with (n * Z.to_nat L)%nat
        by (subst P; rewrite Z2Nat.inj_mul by lia; f_equal; lia).
      rewrite <- firstn_add. f_equal. lia. }
  split; [exact Hpages|]. split.
  { rewrite Hpages. apply NoDup_firstn. now apply NoDup_order_by. }
  intros Hall. rewrite Hpages. apply firstn_all2.
  subst matching. rewrite length_order_by. unfold select_count in Hall.
  apply Nat2Z.inj_le. rewrite Nat2Z.inj_mul, Z2Nat.id by lia. exact Hall.
Qed.

Lemma pages_partition_witness :
  List.concat (map (fun p => response_jobs
                          (get_api_jobs Demo.busy 1
                             (page_query (Sample.query Omitted None None) (Z.of_nat p) 2)))
              (seq 1 2))
  = order_by_created_at_desc
      (filter (where_ 1 (whereConditions (Sample.query Omitted None None)))
              (job_applications Demo.busy)).
Proof.
  destruct (pages_partition Demo.busy 1 (Sample.query Omitted None None) 2 2)
    as (_ & _ & H).
  - lia.
  - unfold Js.MAX_SAFE_INTEGER. lia.
  - unfold Js.MAX_SAFE_INTEGER. lia.
  - unfold distinct_times. simpl. repeat constructor; simpl; intuition discriminate.
  - apply H. vm_compute. discriminate.
Defined.

Lemma tally_of_count (st : Store) (uid : Z) (name : string) :
  In name statuses -> tally_of (select_stats st uid) name = count_status st uid name.
Proof.
  intros [<-|[<-|[<-|[<-|[<-|[]]]]]]; reflexivity.
Qed.

(** X14. Each of the five counts of Stats is the total List reports for the
    same user with that status as its filter (and no company filter). *)
Theorem stats_count_is_filtered_total (st : Store) (uid : Z) (q : ListQuery)
    (name : string) (p l : Z) :
  In name statuses -> q_status q = Text name -> missing_or_empty (q_company q) ->
  positive_or_absent (q_page q) 1 p -> positive_or_absent (q_limit q) 20 l ->
  l <= Js.MAX_SAFE_INTEGER -> (p - 1) * l <= Js.MAX_SAFE_INTEGER ->
  exists rows pg,
    get_api_jobs st uid q = json 200 (BJobs rows pg)
    /\ total pg = Js.of_Z (tally_of (select_stats st uid) name).
Proof.
  intros Hname Hs Hc Hp Hl Hlmax Homax.
  destruct (get_api_jobs_positive st uid q p l Hp Hl Hlmax Homax) as (_ & _ & E).
  do 2 eexists. split; [exact E|]. simpl total.
  rewrite (tally_of_count st uid name Hname).
  apply truthy_false_iff in Hc.
  assert (Hw : whereConditions q = [StatusEq name]).
  { unfold whereConditions. rewrite Hs, Hc.
    destruct Hname as [<-|[<-|[<-|[<-|[<-|[]]]]]]; reflexivity. }
  rewrite Hw. unfold select_count, count_status. do 3 f_equal.
  apply filter_ext. intros r. unfold where_. simpl. now rewrite andb_true_r.
Qed.

Lemma stats_count_is_filtered_total_witness :
  exists rows pg,
    get_api_jobs Demo.busy 1
      {| q_status := Text "interview"; q_company := Omitted;
         q_page := None; q_limit := None |}
    = json 200 (BJobs rows pg)
    /\ total pg = Js.of_Z (tally_of (select_stats Demo.busy 1) "interview").
Proof.
  apply (stats_count_is_filtered_total Demo.busy 1
           {| q_status := Text "interview"; q_company := Omitted;
              q_page := None; q_limit := None |} "interview" 1 20).
  - right. now left.
  - reflexivity.
  - left. reflexivity.
  - reflexivity.
  - reflexivity.
  - unfold Js.MAX_SAFE_INTEGER. lia.
  - unfold Js.MAX_SAFE_INTEGER. lia.
Defined.

(** X15. With a company filter that holds none of [%], [_] and the
    backslash (and no status filter), List is a literal substring search
    that ignores letter case: every job it returns has the filter in its
    company name, and the total it reports is the number of the caller's
    rows that have. *)
Theorem plain_company_filter_is_substring (st : Store) (uid : Z) (q : ListQuery)
    (c : string) (p l : Z) :
  q_company q = Text c -> c <> "" -> plain c = true -> missing_or_empty (q_status q) ->
  positive_or_absent (q_page q) 1 p -> positive_or_absent (q_limit q) 20 l ->
  l <= Js.MAX_SAFE_INTEGER -> (p - 1) * l <= Js.MAX_SAFE_INTEGER ->
  exists rows pg,
    get_api_jobs st uid q = json 200 (BJobs rows pg)
    /\ Forall (fun r => contains_ci c (company_name r) = true) rows
    /\ total pg
       = Js.of_Z (Z.of_nat (List.length
                              (filter (fun r => contains_ci c (company_name r))
                                      (rows_of st uid)))).
Proof.
  intros Hc Hne Hplain Hs Hp Hl Hlmax Homax.
  destruct (get_api_jobs_positive st uid q p l Hp Hl Hlmax Homax) as (_ & _ & E).
  apply truthy_false_iff in Hs.
  assert (Hw : whereConditions q = [CompanyILike ("%" ++ c ++ "%")]).
  { unfold whereConditions. rewrite Hs, Hc. simpl.
    apply String.eqb_neq in Hne. now rewrite Hne. }
  assert (Hf : filter (where_ uid (whereConditions q)) (job_applications st)
               = filter (fun r => contains_ci c (company_name r)) (rows_of st uid)).
  { unfold rows_of. rewrite filter_filter, Hw. apply filter_ext. intros r.
    unfold where_. simpl. now rewrite andb_true_r, (ilike_plain c _ Hplain). }
  do 2 eexists. split; [exact E|]. split.
  - apply Forall_forall. intros r Hr. apply In_firstn_skipn in Hr.
    apply (proj1 (In_order_by _ _)) in Hr. rewrite Hf in Hr.
    apply filter_In in Hr. tauto.
  - simpl total. unfold select_count. now rewrite Hf.
Qed.

Lemma plain_company_filter_is_substring_witness :
  exists rows pg,
    get_api_jobs Demo.busy 1 (Sample.query (Text "OO") None None)
    = json 200 (BJobs rows pg)
    /\ Forall (fun r => contains_ci "OO" (company_name r) = true) rows
    /\ total pg
       = Js.of_Z (Z.of_nat (List.length
                              (filter (fun r => contains_ci "OO" (company_name r))
                                      (rows_of Demo.busy 1)))).
Proof.
  apply (plain_company_filter_is_substring Demo.busy 1
           (Sample.query (Text "OO") None None) "OO" 1 20).
  - reflexivity.
  - discriminate.
  - reflexivity.
  - left. reflexivity.
  - reflexivity.
  - reflexivity.
  - unfold Js.MAX_SAFE_INTEGER. lia.
  - unfold Js.MAX_SAFE_INTEGER. lia.
Defined.

(** ** What every stored row has *)

Lemma job_params_required (b : JobFields) (s : field) (c : Columns) :
  missing_required b = false -> job_params b s = Some c ->
  c_company_name c <> "" /\ c_job_title c <> "".
Proof.
  unfold missing_required, job_params, coerce, not_null, bind. intros Hm H.
  apply orb_false_iff in Hm. destruct Hm as [Hcn Hjt].
  apply negb_false_iff in Hcn, Hjt.
  destruct (f_company_name b) as [| |cn0]; try discriminate.
  destruct (f_job_title b) as [| |jt0]; try discriminate.
  simpl in H, Hcn, Hjt.
  apply negb_true_iff, String.eqb_neq in Hcn. apply negb_true_iff, String.eqb_neq in Hjt.
  destruct (Pg.varchar 255 cn0) as [cn|] eqn:Ecn; [|discriminate].
  destruct (Pg.varchar 255 jt0) as [jt|] eqn:Ejt; [|discriminate].
  destruct (Pg.varchar_null 255 _) as [loc|]; [|discriminate].
  destruct (Pg.varchar_null 100 _) as [sal|]; [|discriminate].
  destruct (date_in _) as [ad|]; [|discriminate].
  destruct (Pg.varchar_null 50 _) as [stt|]; [|discriminate].
  destruct (Pg.varchar_null 255 _) as [cp|]; [|discriminate].
  destruct (Pg.varchar_null 255 _) as [ce|]; [|discriminate].
  destruct (date_in _) as [fd|]; [|discriminate].
  injection H as <-. simpl.
  split; [exact (varchar_nonempty 254 _ _ Ecn Hcn)|exact (varchar_nonempty 254 _ _ Ejt Hjt)].
Qed.

Lemma row_ok_users (st st' : Store) (r : Job) :
  users st' = users st -> row_ok st r -> row_ok st' r.
Proof.
  intros E ((uid & Hu & (u & Hin & Hid)) & H). split; [|exact H].
  exists uid. split; [exact Hu|]. exists u. now rewrite E.
Qed.

Lemma row_ok_serve (st : Store) (q : request) :
  Forall (row_ok st) (job_applications st) ->
  Forall (row_ok (serve st q)) (job_applications (serve st q)).
Proof.
  intros Hok. destruct q as [now uid b|now uid i b|uid i]; simpl.
  - destruct (post_api_jobs st now uid b) as [st' res] eqn:E. simpl.
    unfold post_api_jobs in E.
    destruct (missing_required b) eqn:Hm; [injection E as <- _; exact Hok|].
    unfold insert_job, bind in E.
    destruct (job_params _ _) as [c|] eqn:Hc; [|injection E as <- _; exact Hok].
    destruct (Pg.in_range _ _ _) as [n|]; [|injection E as <- _; exact Hok].
    destruct (existsb _ (job_applications st)); [injection E as <- _; exact Hok|].
    destruct (existsb _ (users st)) eqn:Eu; simpl negb in E; cbv iota in E;
      [|injection E as <- _; exact Hok].
    injection E as <- _. simpl. apply Forall_app. split.
    + eapply Forall_impl; [|exact Hok]. intros r. now apply row_ok_users.
    + repeat constructor.
      * exists uid. split; [reflexivity|].
        apply existsb_exists in Eu. destruct Eu as (u & Hu & Eid).
        exists u. split; [exact Hu|now apply Z.eqb_eq].
      * exact (proj1 (job_params_required _ _ _ Hm Hc)).
      * exact (proj2 (job_params_required _ _ _ Hm Hc)).
  - destruct (put_api_jobs_id st now uid i b) as [st' res] eqn:E. simpl.
    unfold put_api_jobs_id in E.
    destruct (Js.isNaN i); [injection E as <- _; exact Hok|].
    destruct (missing_required b) eqn:Hm; [injection E as <- _; exact Hok|].
    unfold update_job, bind in E.
    destruct (job_params _ _) as [c|] eqn:Hc; [|injection E as <- _; exact Hok].
    destruct (Pg.int4in i) as [n|]; [|injection E as <- _; exact Hok].
    assert (Hst : Forall (row_ok st)
                    (map (fun r => if id_and_owner n uid r then set_row now c r else r)
                         (job_applications st))).
    { apply Forall_map. eapply Forall_impl; [|exact Hok].
      intros r (Hown & Hr). destruct (id_and_owner n uid r); [|now split].
      split; [exact Hown|]. exact (job_params_required _ _ _ Hm Hc). }
    destruct (map (set_row now c) _); injection E as <- _;
      (eapply Forall_impl; [|exact Hst]; intros r; now apply row_ok_users).
  - destruct (delete_api_jobs_id st uid i) as [st' res] eqn:E. simpl.
    unfold delete_api_jobs_id, delete_job, bind in E.
    destruct (Js.isNaN i); [injection E as <- _; exact Hok|].
    destruct (Pg.int4in i) as [n|]; [|injection E as <- _; exact Hok].
    assert (Hst : Forall (row_ok st)
                    (filter (fun r => negb (id_and_owner n uid r)) (job_applications st))).
    { rewrite Forall_forall in *. intros r Hr. apply filter_In in Hr. now apply Hok. }
    destruct (filter (id_and_owner n uid) _); injection E as <- _;
      (eapply Forall_impl; [|exact Hst]; intros r; now apply row_ok_users).
Qed.

(** X16. In every store reached from an empty table by Create, Update and
    Delete requests, each job row has an owner, who is a registered user,
    and a company name and a job title that are not empty. *)
Theorem reachable_rows_owned_and_named (st : Store) :
  reachable st ->
  Forall (fun r =>
            (exists uid, user_id r = Some uid /\ registered st uid)
            /\ company_name r <> "" /\ job_title r <> "")
         (job_applications st).
Proof.
  intros H. change (Forall (row_ok st) (job_applications st)).
  induction H as [st Hempty|st q _ IH].
  - rewrite Hempty. constructor.
  - now apply row_ok_serve.
Qed.

Lemma reachable_rows_owned_and_named_witness :
  Forall (fun r =>
            (exists uid, user_id r = Some uid /\ registered Sample.ghosted uid)
            /\ company_name r <> "" /\ job_title r <> "")
         (job_applications Sample.ghosted).
Proof.
  apply (reachable_rows_owned_and_named Sample.ghosted).
  apply (reach_serve Sample.fresh
           (Create 200 1 (Sample.job_with_status "Acme" "Engineer" "ghosted"))).
  now apply reach_empty.
Defined.

(** ** Identifiers out of range *)

(** X17. An identifier that is an integer text but outside the 32-bit range
    of the [id] column makes the query fail: Get and Delete answer 500, and
    so does an Update whose body passes validation; the store is left as it
    is. *)
Theorem id_out_of_range_is_internal_error (st : Store) (now uid n : Z)
    (b : JobFields) :
  ~ is_int4 n ->
  get_api_jobs_id st uid (Js.TInt n) = json 500 (BError "Internal server error")
  /\ delete_api_jobs_id st uid (Js.TInt n)
     = (st, json 500 (BError "Internal server error"))
  /\ (~ missing_or_empty (f_company_name b) -> ~ missing_or_empty (f_job_title b) ->
      put_api_jobs_id st now uid (Js.TInt n) b
      = (st, json 500 (BError "Internal server error"))).
Proof.
  intros Hn.
  assert (E : Pg.int4in (Js.TInt n) = None).
  { simpl. unfold Pg.in_range.
    destruct (Pg.int4_min <=? n) eqn:E1; [|reflexivity].
    destruct (n <=? Pg.int4_max) eqn:E2; [|reflexivity].
    exfalso. apply Hn. apply Z.leb_le in E1, E2. now split. }
  unfold get_api_jobs_id, delete_api_jobs_id, put_api_jobs_id,
    select_by_id, delete_job, update_job, bind.
  rewrite E. simpl Js.isNaN. cbv iota.
  split; [reflexivity|]. split; [reflexivity|].
  intros Hc Ht.
  assert (Hm : missing_required b = false).
  { destruct (missing_required b) eqn:Em; [|reflexivity].
    apply missing_required_iff in Em. tauto. }
  rewrite Hm. now destruct (job_params b (f_status b)).
Qed.

Lemma id_out_of_range_is_internal_error_witness :
  get_api_jobs_id Demo.busy 1 (Js.TInt 2147483648)
  = json 500 (BError "Internal server error")
  /\ delete_api_jobs_id Demo.busy 1 (Js.TInt 2147483648)
     = (Demo.busy, json 500 (BError "Internal server error")).
Proof.
  destruct (id_out_of_range_is_internal_error Demo.busy 0 1 2147483648
              (Sample.job "Acme" "Engineer")) as (Hg & Hd & _).
  - unfold is_int4, Pg.int4_min, Pg.int4_max. lia.
  - split; [exact Hg|exact Hd].
Defined.

(** ** The client *)

Lemma or_nonempty (s d : string) : s <> "" -> Client.or_ (Some s) d = s.
Proof. intros H. unfold Client.or_. apply String.eqb_neq in H. now rewrite H. Qed.

Lemma varchar_null_some (n : nat) (s : string) (col : option string) :
  Pg.varchar_null n (Some s) = Some col -> col <> None.
Proof.
  simpl. destruct (Pg.varchar n s); simpl; intros H; [|discriminate].
  injection H as <-. discriminate.
Qed.

Section ClientProperties.

Variable toISODate : Z -> datetext.

(** X18. Opening a job of one's own in the edit form and saving it at once
    ([handleEdit], then [handleSubmit]) is answered 200 when the store
    accepts the form's values, and rewrites the row: the text columns that
    were NULL now hold the empty string, none of the optional text columns
    is NULL any more, and a status that was NULL or empty is now 'applied'. *)
Theorem edit_and_save_fills_nulls (st : Store) (now uid : Z) (r0 : Job) (c : Columns) :
  primary_key st -> In r0 (job_applications st) -> user_id r0 = Some uid ->
  company_name r0 <> "" -> job_title r0 <> "" ->
  let formData := Client.handleEdit toISODate r0 in
  job_params formData (f_status formData) = Some c ->
  exists st' r,
    Client.handleSubmit_edit st now uid r0 formData = (st', json 200 (BJob r))
    /\ job_url r = Some (Client.or_ (job_url r0) "")
    /\ description r = Some (Client.or_ (description r0) "")
    /\ requirements r = Some (Client.or_ (requirements r0) "")
    /\ notes r = Some (Client.or_ (notes r0) "")
    /\ location r <> None /\ salary_range r <> None /\ status r <> None
    /\ contact_person r <> None /\ contact_email r <> None
    /\ (status r0 = None \/ status r0 = Some "" -> status r = Some "applied").
Proof.
  intros Hpk Hin Hown Hcn Hjt formData Hc.
  assert (Hm : missing_required formData = false).
  { unfold missing_required, formData, Client.handleEdit.
    cbn [f_company_name f_job_title].
    rewrite (or_nonempty _ _ Hcn), (or_nonempty _ _ Hjt). unfold truthy.
    apply String.eqb_neq in Hcn, Hjt. now rewrite Hcn, Hjt. }
  destruct (update_succeeds st now uid r0 formData c Hpk Hin Hown Hm Hc) as (st' & E).
  exists st', (set_row now c r0). split; [exact E|].
  apply job_params_columns in Hc.
  destruct Hc as (Hurl & Hloc & Hsal & _ & Hst & Hdesc & Hreq & Hnot & Hcp & Hce & _).
  simpl. rewrite Hurl, Hdesc, Hreq, Hnot.
  repeat (split; [reflexivity|]).
  split; [exact (varchar_null_some _ _ _ Hloc)|].
  split; [exact (varchar_null_some _ _ _ Hsal)|].
  split; [exact (varchar_null_some _ _ _ Hst)|].
  split; [exact (varchar_null_some _ _ _ Hcp)|].
  split; [exact (varchar_null_some _ _ _ Hce)|].
  intros Hnull. unfold formData in Hst. simpl in Hst.
  destruct Hnull as [Hnull|Hnull]; rewrite Hnull in Hst; simpl in Hst; congruence.
Qed.

(** X19. The list request the client builds ([fetchJobs]) always carries
    limit 10 and the page of its state: for a page of at least 1 the server
    answers it 200 with at most 10 jobs and that page and limit in the
    pagination object.  With the filters the component starts from, which
    are empty with page 1, these jobs are the caller's 10 newest. *)
Theorem fetchJobs_is_served (st : Store) (uid : Z) (filters : Client.Filters) :
  0 < Client.flt_page filters ->
  (Client.flt_page filters - 1) * 10 <= Js.MAX_SAFE_INTEGER ->
  (exists rows pg,
      get_api_jobs st uid (Client.fetchJobs_query filters) = json 200 (BJobs rows pg)
      /\ (List.length rows <= 10)%nat
      /\ page pg = Js.of_Z (Client.flt_page filters) /\ limit pg = Js.of_Z 10)
  /\ response_jobs (get_api_jobs st uid (Client.fetchJobs_query Client.initial_filters))
     = firstn 10 (order_by_created_at_desc (rows_of st uid)).
Proof.
  intros Hp Hmax. split.
  - destruct (get_api_jobs_positive st uid (Client.fetchJobs_query filters)
                (Client.flt_page filters) 10) as (_ & _ & E).
    + simpl. lia.
    + simpl. lia.
    + unfold Js.MAX_SAFE_INTEGER. lia.
    + exact Hmax.
    + do 2 eexists. split; [exact E|]. split; [apply (firstn_le_length 10)|].
      split; reflexivity.
  - destruct (get_api_jobs_positive st uid
                (Client.fetchJobs_query Client.initial_filters) 1 10) as (_ & _ & E).
    + simpl. lia.
    + simpl. lia.
    + unfold Js.MAX_SAFE_INTEGER. lia.
    + unfold Js.MAX_SAFE_INTEGER. lia.
    + rewrite E. unfold response_jobs, json. cbn [res_json].
      change (whereConditions (Client.fetchJobs_query Client.initial_filters))
        with (@nil condition).
      change (Z.to_nat ((1 - 1) * 10)) with 0%nat. cbn [skipn].
      change (Z.to_nat 10) with 10%nat. do 2 f_equal.
      unfold rows_of. apply filter_ext. intros r. unfold where_. simpl.
      now rewrite andb_true_r.
Qed.

End ClientProperties.

Lemma edit_and_save_fills_nulls_witness :
  exists st' r,
    Client.handleSubmit_edit Sample.one_job 300 1
      (new_row 1 1 200
         {| c_company_name := "Acme"; c_job_title := "Engineer";
            c_job_url := None; c_location := None; c_salary_range := None;
            c_application_date := None; c_status := Some "applied";
            c_description := None; c_requirements := None; c_notes := None;
            c_contact_person := None; c_contact_email := None;
            c_follow_up_date := None |})
      (Client.handleEdit Day
         (new_row 1 1 200
            {| c_company_name := "Acme"; c_job_title := "Engineer";
               c_job_url := None; c_location := None; c_salary_range := None;
               c_application_date := None; c_status := Some "applied";
               c_description := None; c_requirements := None; c_notes := None;
               c_contact_person := None; c_contact_email := None;
               c_follow_up_date := None |}))
    = (st', json 200 (BJob r))
    /\ notes r = Some "" /\ location r <> None.
Proof.
  destruct (edit_and_save_fills_nulls Day Sample.one_job 300 1
              (new_row 1 1 200
                 {| c_company_name := "Acme"; c_job_title := "Engineer";
                    c_job_url := None; c_location := None; c_salary_range := None;
                    c_application_date := None; c_status := Some "applied";
                    c_description := None; c_requirements := None; c_notes := None;
                    c_contact_person := None; c_contact_email := None;
                    c_follow_up_date := None |})
              {| c_company_name := "Acme"; c_job_title := "Engineer";
                 c_job_url := Some ""; c_location := Some ""; c_salary_range := Some "";
                 c_application_date := None; c_status := Some "applied";
                 c_description := Some ""; c_requirements := Some ""; c_notes := Some "";
                 c_contact_person := Some ""; c_contact_email := Some "";
                 c_follow_up_date := None |})
    as (st' & r & E & _ & _ & _ & Hnotes & Hloc & _).
  - split; simpl.
    + repeat constructor. intros [].
    + repeat constructor; vm_compute; discriminate.
  - now left.
  - reflexivity.
  - discriminate.
  - discriminate.
  - reflexivity.
  - exists st', r. split; [exact E|]. split; [exact Hnotes|exact Hloc].
Defined.

Lemma fetchJobs_is_served_witness :
  exists rows pg,
    get_api_jobs Demo.busy 1 (Client.fetchJobs_query Client.initial_filters)
    = json 200 (BJobs rows pg)
    /\ (List.length rows <= 10)%nat
    /\ page pg = Js.of_Z 1 /\ limit pg = Js.of_Z 10.
Proof.
  destruct (fetchJobs_is_served Demo.busy 1 Client.initial_filters) as (H & _).
  - simpl. lia.
  - unfold Js.MAX_SAFE_INTEGER. simpl. lia.
  - exact H.
Defined.

(** ** Identifiers the caller has no row for *)

(** X20. For an identifier within the 32-bit range that no row of the
    caller has (no such row at all, or rows of other users only), Get and
    Delete answer 404, and so does an Update whose body passes validation
    and is accepted by the store; the store is left as it is. *)
Theorem unknown_id_not_found (st : Store) (now uid n : Z) (b : JobFields) :
  is_int4 n ->
  (forall x, In x (job_applications st) -> id x = n -> user_id x <> Some uid) ->
  get_api_jobs_id st uid (Js.TInt n) = json 404 (BError "Job application not found")
  /\ delete_api_jobs_id st uid (Js.TInt n)
     = (st, json 404 (BError "Job application not found"))
  /\ (~ missing_or_empty (f_company_name b) -> ~ missing_or_empty (f_job_title b) ->
      job_params b (f_status b) <> None ->
      put_api_jobs_id st now uid (Js.TInt n) b
      = (st, json 404 (BError "Job application not found"))).
Proof.
  intros [Hlo Hhi] Hnone.
  assert (Hhit : forall x, In x (job_applications st) -> id_and_owner n uid x = false).
  { intros x Hx. destruct (id_and_owner n uid x) eqn:E; [|reflexivity].
    apply hit_inv in E. destruct E as [E1 E2]. exfalso. exact (Hnone x Hx E1 E2). }
  assert (Hn : Pg.int4in (Js.TInt n) = Some n).
  { simpl. unfold Pg.in_range. apply Z.leb_le in Hlo, Hhi. now rewrite Hlo, Hhi. }
  rewrite get_no_hit, delete_no_hit, put_no_hit by exact Hhit. rewrite Hn.
  split; [reflexivity|]. split; [reflexivity|].
  intros Hc Ht Hok.
  assert (Hm : missing_required b = false).
  { destruct (missing_required b) eqn:Em; [|reflexivity].
    apply missing_required_iff in Em. tauto. }
  rewrite Hm. destruct (job_params b (f_status b)); [reflexivity|congruence].
Qed.

Lemma unknown_id_not_found_witness :
  get_api_jobs_id Demo.busy 1 (Js.TInt 99)
  = json 404 (BError "Job application not found")
  /\ delete_api_jobs_id Demo.busy 1 (Js.TInt 99)
     = (Demo.busy, json 404 (BError "Job application not found")).
Proof.
  destruct (unknown_id_not_found Demo.busy 0 1 99 (Sample.job "Acme" "Engineer"))
    as (Hg & Hd & _).
  - unfold is_int4, Pg.int4_min, Pg.int4_max. lia.
  - intros x [<-|[<-|[<-|[<-|[]]]]]; simpl; discriminate.
  - split; [exact Hg|exact Hd].
Defined.
